(** * Allocation, delivery confirmation and performance scoring of the
    sourceli backend (src/services/allocation.service.ts,
    src/services/performance.service.ts), and the buyer order service that
    performance.service.ts also holds (createOrder .. rejectOrder), embedded
    in Rocq.

    The Prisma tables are lists of records; every service function is a
    computation in a small state-and-error monad over the database: a
    thrown [createError(message, status, code)] becomes [Err], and the
    database is returned as it stands at the throw point, so "no write
    happened" is visible in the statements.  Prisma ids (cuid strings) are
    modelled as [nat]; timestamps are milliseconds since the epoch in [Z]. *)

From Stdlib Require Import ZArith QArith Qround List Bool Lia.
From Stdlib Require Import Sorting.Sorted Sorting.Permutation.
From Stdlib Require Ascii Strings.String.
From Stdlib Require Import Floats.
Import ListNotations.
Open Scope Z_scope.
Bind Scope float_scope with float.

(** ** Enumerations of the Prisma schema *)

Module OrderStatus.
Inductive t := PENDING | APPROVED | ALLOCATION | DELIVERED | REJECTED | FAILED.
Definition eqb (x y : t) : bool :=
  match x, y with
  | PENDING, PENDING | APPROVED, APPROVED | ALLOCATION, ALLOCATION
  | DELIVERED, DELIVERED | REJECTED, REJECTED | FAILED, FAILED => true
  | _, _ => false
  end.
Lemma order_status_eqb_eq x y : eqb x y = true <-> x = y.
Proof. destruct x, y; simpl; split; congruence. Qed.
End OrderStatus.

Module AssignmentStatus.
Inductive t := PENDING | DELIVERED | FAILED.
Definition eqb (x y : t) : bool :=
  match x, y with
  | PENDING, PENDING | DELIVERED, DELIVERED | FAILED, FAILED => true
  | _, _ => false
  end.
Lemma assignment_status_eqb_eq x y : eqb x y = true <-> x = y.
Proof. destruct x, y; simpl; split; congruence. Qed.
End AssignmentStatus.

Module UserStatus.
Inductive t := APPLIED | PENDING | ACTIVE | PROBATIONARY | SUSPENDED | BLOCKED.
End UserStatus.

Module QualityResult.
Inductive t := PASS | PARTIAL | FAIL.
End QualityResult.

Module PerformanceTier.
Inductive t := PROBATIONARY | STANDARD | PREFERRED.
Definition eqb (x y : t) : bool :=
  match x, y with
  | PROBATIONARY, PROBATIONARY | STANDARD, STANDARD | PREFERRED, PREFERRED => true
  | _, _ => false
  end.
Lemma tier_eqb_eq x y : eqb x y = true <-> x = y.
Proof. destruct x, y; simpl; split; congruence. Qed.
End PerformanceTier.

(** ** Records *)

Definition Id := nat.
Bind Scope nat_scope with Id.

Record Order := mkOrder {
  order_id : Id;
  order_quantity : Z;
  order_deliveryDate : Z;
  order_deliveryAddressId : Id;
  order_status : OrderStatus.t
}.

Record DeliveryAssignment := mkAssignment {
  as_id : Id;
  as_orderId : Id;
  as_farmerId : Id;
  as_assignedQuantity : Z;
  as_deliveryDate : Z;
  as_deliveryAddressId : Id;
  as_status : AssignmentStatus.t;
  as_quantityDelivered : option Z;
  as_qualityResult : option QualityResult.t;
  as_confirmationNotes : option nat;   (* free text, modelled as an opaque token *)
  as_confirmedBy : option Id;
  as_confirmedAt : option Z
}.

Record Farmer := mkFarmer {
  farmer_id : Id;
  farmer_userStatus : UserStatus.t
}.

Record WeeklyAvailability := mkAvailability {
  av_farmerId : Id;
  av_weekStartDate : Z;
  av_isLate : bool
}.

Record PerformanceBreakdown := mkBreakdown {
  onTimeDeliveryScore : float;
  quantityAccuracyScore : float;
  qualityScore : float;
  availabilitySubmissionScore : float
}.

Record PerformanceData := mkPerformanceData {
  pd_score : float;
  pd_tier : PerformanceTier.t;
  pd_breakdown : PerformanceBreakdown
}.

Record FarmerPerformance := mkFarmerPerformance {
  fp_farmerId : Id;
  fp_score : float;
  fp_tier : PerformanceTier.t
}.

Record FarmerPerformanceHistory := mkHistory {
  h_farmerId : Id;
  h_previousScore : float;
  h_newScore : float;
  h_previousTier : PerformanceTier.t;
  h_newTier : PerformanceTier.t;
  h_reason : nat;                      (* reason string, opaque token *)
  h_deliveryAssignmentId : option Id;
  h_createdBy : option Id;
  h_createdAt : Z
}.

(** The database.  [now] is the value [new Date()] reads; [next_id] is the
    source of fresh primary keys for [deliveryAssignment.create]. *)
Record DB := mkDB {
  orders : list Order;
  assignments : list DeliveryAssignment;
  farmers : list Farmer;
  weeklyAvailability : list WeeklyAvailability;
  farmerPerformance : list FarmerPerformance;
  farmerPerformanceBreakdown : list (Id * PerformanceBreakdown);
  farmerPerformanceHistory : list FarmerPerformanceHistory;
  now : Z;
  next_id : Id
}.

(** ** Errors and the service monad *)

(** [createError(message, statusCode, code)]; the message is not modelled. *)
Inductive ErrorCode :=
| ORDER_NOT_FOUND | INVALID_ORDER_STATUS | ALREADY_ALLOCATED | OVER_ALLOCATION
| INVALID_QUANTITY | FARMER_NOT_FOUND | ASSIGNMENT_NOT_FOUND
| INVALID_ASSIGNMENT_STATUS | VALIDATION_ERROR | RECORD_NOT_FOUND.

Record AppError := createError { err_status : Z; err_code : ErrorCode }.

Inductive Result (A : Type) := Ok (a : A) | Err (e : AppError).
Arguments Ok {A} a.
Arguments Err {A} e.

Definition M (A : Type) := DB -> Result A * DB.

Definition ret {A} (a : A) : M A := fun db => (Ok a, db).
Definition throw {A} (e : AppError) : M A := fun db => (Err e, db).
Definition bind {A B} (m : M A) (k : A -> M B) : M B :=
  fun db => match m db with
            | (Ok a, db') => k a db'
            | (Err e, db') => (Err e, db')
            end.
Definition get : M DB := fun db => (Ok db, db).
Definition modify (f : DB -> DB) : M unit := fun db => (Ok tt, f db).

Notation "x <- m ;; k" := (bind m (fun x => k))
  (at level 61, m at next level, right associativity).
Notation "m ;;; k" := (bind m (fun _ => k))
  (at level 61, right associativity).

(** ** Table operations (Prisma client) *)

Definition with_orders (os : list Order) (db : DB) : DB :=
  mkDB os db.(assignments) db.(farmers) db.(weeklyAvailability)
       db.(farmerPerformance) db.(farmerPerformanceBreakdown)
       db.(farmerPerformanceHistory) db.(now) db.(next_id).
Definition with_assignments (l : list DeliveryAssignment) (db : DB) : DB :=
  mkDB db.(orders) l db.(farmers) db.(weeklyAvailability)
       db.(farmerPerformance) db.(farmerPerformanceBreakdown)
       db.(farmerPerformanceHistory) db.(now) db.(next_id).
Definition with_performance (p : list FarmerPerformance)
    (b : list (Id * PerformanceBreakdown)) (h : list FarmerPerformanceHistory)
    (db : DB) : DB :=
  mkDB db.(orders) db.(assignments) db.(farmers) db.(weeklyAvailability)
       p b h db.(now) db.(next_id).

(** [order.findUnique({ where: { id } })] *)
Definition find_order (db : DB) (oid : Id) : option Order :=
  find (fun o => Nat.eqb o.(order_id) oid) db.(orders).

(** [deliveryAssignment.findUnique({ where: { id } })] *)
Definition find_assignment (db : DB) (aid : Id) : option DeliveryAssignment :=
  find (fun a => Nat.eqb a.(as_id) aid) db.(assignments).

(** The relation [order.assignments]. *)
Definition order_assignments (db : DB) (oid : Id) : list DeliveryAssignment :=
  filter (fun a => Nat.eqb a.(as_orderId) oid) db.(assignments).

(** [reduce((sum, a) => sum + a.assignedQuantity, 0)] *)
Definition sum_quantities (l : list Z) : Z := fold_left Z.add l 0.

Definition sum_assigned (db : DB) (oid : Id) : Z :=
  sum_quantities (map as_assignedQuantity (order_assignments db oid)).

(** ** Allocation engine (allocation.service.ts) *)

Record AllocationAssignment := mkAllocationAssignment {
  aa_farmerId : Id;
  aa_assignedQuantity : Z
}.

Record CreateAllocationData := mkCreateAllocationData {
  cad_orderId : Id;
  cad_assignments : list AllocationAssignment
}.

Record CreateAllocationResult := mkCreateAllocationResult {
  res_order : Order;
  res_assignments : list DeliveryAssignment;
  res_totalAssigned : Z;
  res_remainingQuantity : Z
}.

Definition is_active_user (s : UserStatus.t) : bool :=
  match s with
  | UserStatus.ACTIVE | UserStatus.PROBATIONARY => true
  | _ => false
  end.

(** [deliveryAssignment.create] for each input row, with fresh ids. *)
Fixpoint new_assignments (fresh : Id) (order : Order)
    (rows : list AllocationAssignment) : list DeliveryAssignment :=
  match rows with
  | [] => []
  | r :: rs =>
      mkAssignment fresh order.(order_id) r.(aa_farmerId) r.(aa_assignedQuantity)
        order.(order_deliveryDate) order.(order_deliveryAddressId)
        AssignmentStatus.PENDING None None None None None
      :: new_assignments (S fresh) order rs
  end.

Definition insert_assignments (created : list DeliveryAssignment) (db : DB) : DB :=
  mkDB db.(orders) (db.(assignments) ++ created) db.(farmers)
       db.(weeklyAvailability) db.(farmerPerformance)
       db.(farmerPerformanceBreakdown) db.(farmerPerformanceHistory)
       db.(now) (db.(next_id) + length created)%nat.

Definition createDeliveryAssignments (orderId adminId : Id)
    (data : CreateAllocationData) : M CreateAllocationResult :=
  db <- get ;;
  match find_order db orderId with
  | None => throw (createError 404 ORDER_NOT_FOUND)
  | Some order =>
    if negb (OrderStatus.eqb order.(order_status) OrderStatus.ALLOCATION)
    then throw (createError 400 INVALID_ORDER_STATUS) else
    if Nat.ltb 0 (length (order_assignments db order.(order_id)))
    then throw (createError 400 ALREADY_ALLOCATED) else
    let totalAssigned :=
      sum_quantities (map aa_assignedQuantity data.(cad_assignments)) in
    if totalAssigned >? order.(order_quantity)
    then throw (createError 400 OVER_ALLOCATION) else
    if totalAssigned <=? 0
    then throw (createError 400 INVALID_QUANTITY) else
    let farmerIds := map aa_farmerId data.(cad_assignments) in
    let found := filter (fun f => existsb (Nat.eqb f.(farmer_id)) farmerIds
                                  && is_active_user f.(farmer_userStatus))
                        db.(farmers) in
    if negb (Nat.eqb (length found) (length farmerIds))
    then throw (createError 404 FARMER_NOT_FOUND) else
    let created := new_assignments db.(next_id) order data.(cad_assignments) in
    modify (insert_assignments created) ;;;
    ret (mkCreateAllocationResult order created totalAssigned
           (order.(order_quantity) - totalAssigned))
  end.

(** [deliveryAssignment.update({ where: { id }, data })] *)
Definition update_assignment (aid : Id)
    (f : DeliveryAssignment -> DeliveryAssignment) (db : DB) : DB :=
  with_assignments
    (map (fun a => if Nat.eqb a.(as_id) aid then f a else a) db.(assignments)) db.

Definition set_assignedQuantity (q : Z) (a : DeliveryAssignment) : DeliveryAssignment :=
  mkAssignment a.(as_id) a.(as_orderId) a.(as_farmerId) q a.(as_deliveryDate)
    a.(as_deliveryAddressId) a.(as_status) a.(as_quantityDelivered)
    a.(as_qualityResult) a.(as_confirmationNotes) a.(as_confirmedBy)
    a.(as_confirmedAt).

(** [include: { order: true }]: the relation is a required foreign key, so the
    lookup cannot miss on a database that respects its constraints; a
    dangling key is reported as [RECORD_NOT_FOUND]. *)
Definition updateAssignment (assignmentId adminId : Id) (assignedQuantity : Z)
    : M DeliveryAssignment :=
  db <- get ;;
  match find_assignment db assignmentId with
  | None => throw (createError 404 ASSIGNMENT_NOT_FOUND)
  | Some assignment =>
    if negb (AssignmentStatus.eqb assignment.(as_status) AssignmentStatus.PENDING)
    then throw (createError 400 INVALID_ASSIGNMENT_STATUS) else
    if assignedQuantity <=? 0
    then throw (createError 400 INVALID_QUANTITY) else
    match find_order db assignment.(as_orderId) with
    | None => throw (createError 500 RECORD_NOT_FOUND)
    | Some order =>
      let allAssignments :=
        filter (fun a => Nat.eqb a.(as_orderId) assignment.(as_orderId)
                         && negb (Nat.eqb a.(as_id) assignmentId))
               db.(assignments) in
      let totalOtherAssignments :=
        sum_quantities (map as_assignedQuantity allAssignments) in
      let newTotal := totalOtherAssignments + assignedQuantity in
      if newTotal >? order.(order_quantity)
      then throw (createError 400 OVER_ALLOCATION) else
      modify (update_assignment assignmentId (set_assignedQuantity assignedQuantity)) ;;;
      ret (set_assignedQuantity assignedQuantity assignment)
    end
  end.

Definition deleteAssignment (assignmentId adminId : Id) : M bool :=
  db <- get ;;
  match find_assignment db assignmentId with
  | None => throw (createError 404 ASSIGNMENT_NOT_FOUND)
  | Some assignment =>
    if negb (AssignmentStatus.eqb assignment.(as_status) AssignmentStatus.PENDING)
    then throw (createError 400 INVALID_ASSIGNMENT_STATUS) else
    modify (fun db => with_assignments
              (filter (fun a => negb (Nat.eqb a.(as_id) assignmentId))
                      db.(assignments)) db) ;;;
    ret true
  end.

(** The request handler in front of [createDeliveryAssignments]
    (allocation.controller.ts, createAssignmentsHandler): the body is parsed
    with [createAllocationSchema] (allocation.validator.ts), which requires a
    non-empty [assignments] array whose every [assignedQuantity] is a positive
    integer; a failed parse throws a validation error before the service runs. *)
Definition createAllocationSchema_ok (data : CreateAllocationData) : bool :=
  Nat.ltb 0 (length data.(cad_assignments))
  && forallb (fun r => 0 <? r.(aa_assignedQuantity)) data.(cad_assignments).

Definition createAssignmentsHandler (adminId : Id) (body : CreateAllocationData)
    : M CreateAllocationResult :=
  if createAllocationSchema_ok body
  then createDeliveryAssignments body.(cad_orderId) adminId body
  else throw (createError 400 VALIDATION_ERROR).

(** ** Performance scoring (performance.service.ts)

    JavaScript numbers are IEEE-754 doubles, here Rocq's primitive floats,
    whose operations round to nearest even as the machine does.  Array
    lengths and quantities are integers, converted to the nearest double.
    [Math.round], [Math.min] and [Math.max] follow ECMAScript, NaN and the
    signed zeros included.  A score written to the performance tables is
    read back as the same number (the column types are not in the sources). *)

(** [Number(z)]: the double nearest to the integer [z]. *)
Definition Z_to_float (z : Z) : float :=
  SF2Prim (binary_normalize prec emax z 0 false).

Definition nat_to_float (n : nat) : float := Z_to_float (Z.of_nat n).

(** [Math.round(x)]: NaN, the infinities and an integral [x] are returned
    as they are; otherwise the result is floor(x + 1/2), computed on the
    exact value [(-1)^s * m * 2^e], and is -0 for [-0.5 <= x < 0]. *)
Definition js_round (x : float) : float :=
  match Prim2SF x with
  | S754_finite s m e =>
      if 0 <=? e then x
      else
        let k := - e in
        let v := if s then Z.neg m else Z.pos m in
        let r := (2 * v + 2 ^ k) / 2 ^ (k + 1) in
        if r =? 0 then (if s then neg_zero else zero) else Z_to_float r
  | _ => x
  end.

(** [Math.min(a, b)] and [Math.max(a, b)]: NaN if either is NaN; -0 is
    below +0. *)
Definition js_min (a b : float) : float :=
  if is_nan a || is_nan b then nan
  else if (a <? b)%float then a
  else if (b <? a)%float then b
  else if Leibniz.eqb a neg_zero then a else b.

Definition js_max (a b : float) : float :=
  if is_nan a || is_nan b then nan
  else if (a <? b)%float then b
  else if (b <? a)%float then a
  else if Leibniz.eqb a neg_zero then b else a.

(** The literals 0.3, 0.25 and 0.15 denote the nearest doubles, as in
    JavaScript. *)
Set Warnings "-inexact-float".

Definition DEFAULT_BASE_SCORE : float := 50.
Definition TIER_STANDARD : float := 50.
Definition TIER_PREFERRED : float := 85.
Definition W_onTimeDelivery : float := 0.3.
Definition W_quantityAccuracy : float := 0.3.
Definition W_quality : float := 0.25.
Definition W_availabilitySubmission : float := 0.15.

Definition MS_PER_DAY : Z := 1000 * 60 * 60 * 24.

(** [(part.length / whole.length) * 100] *)
Definition percentage (part whole : nat) : float :=
  (nat_to_float part / nat_to_float whole * 100)%float.

(** Prisma [orderBy: { key: 'desc' }], as an insertion sort. *)
Fixpoint insert_desc {A} (key : A -> Z) (x : A) (l : list A) : list A :=
  match l with
  | [] => [x]
  | y :: ys => if key y <? key x then x :: y :: ys else y :: insert_desc key x ys
  end.

Definition sort_desc {A} (key : A -> Z) (l : list A) : list A :=
  fold_right (insert_desc key) [] l.

Definition confirmedAt_key (a : DeliveryAssignment) : Z :=
  match a.(as_confirmedAt) with Some t => t | None => 0 end.

(** [where: { farmerId, status: { in: [DELIVERED, FAILED] }, confirmedAt: { not: null } }] *)
Definition is_confirmed_delivery_of (farmerId : Id) (a : DeliveryAssignment) : bool :=
  Nat.eqb a.(as_farmerId) farmerId
  && negb (AssignmentStatus.eqb a.(as_status) AssignmentStatus.PENDING)
  && match a.(as_confirmedAt) with Some _ => true | None => false end.

Definition confirmedDeliveries (db : DB) (farmerId : Id) : list DeliveryAssignment :=
  sort_desc confirmedAt_key (filter (is_confirmed_delivery_of farmerId) db.(assignments)).

(** [weeklyAvailability.findMany({ where: { farmerId },
      orderBy: { weekStartDate: 'desc' }, take: 8 })] *)
Definition availabilityHistory (db : DB) (farmerId : Id) : list WeeklyAvailability :=
  firstn 8 (sort_desc av_weekStartDate
              (filter (fun av => Nat.eqb av.(av_farmerId) farmerId) db.(weeklyAvailability))).

(** The day difference is [Math.floor(ms / 86400000)]; for millisecond
    differences below 2^53 the double quotient never rounds across an
    integer, so it is the integer division [Z.div]. *)
Definition is_on_time (delivery : DeliveryAssignment) : bool :=
  if negb (AssignmentStatus.eqb delivery.(as_status) AssignmentStatus.DELIVERED)
  then false
  else match delivery.(as_confirmedAt) with
       | None => false
       | Some confirmedDate =>
           let daysDifference := (confirmedDate - delivery.(as_deliveryDate)) / MS_PER_DAY in
           daysDifference <=? 1
       end.

Definition calculateOnTimeDeliveryScore (deliveries : list DeliveryAssignment) : float :=
  if Nat.eqb (length deliveries) 0 then 0%float else
  let onTimeDeliveries := filter is_on_time deliveries in
  js_round (percentage (length onTimeDeliveries) (length deliveries)).

Definition has_quantityDelivered (d : DeliveryAssignment) : bool :=
  AssignmentStatus.eqb d.(as_status) AssignmentStatus.DELIVERED
  && match d.(as_quantityDelivered) with Some _ => true | None => false end.

(** [Math.min(100, (delivered / assigned) * 100)] with
    [delivered = quantityDelivered || 0]; [0 / 0] is NaN. *)
Definition accuracy (d : DeliveryAssignment) : float :=
  let delivered := match d.(as_quantityDelivered) with Some q => q | None => 0 end in
  js_min 100 (Z_to_float delivered / Z_to_float d.(as_assignedQuantity) * 100)%float.

Definition calculateQuantityAccuracyScore (deliveries : list DeliveryAssignment) : float :=
  if Nat.eqb (length deliveries) 0 then 0%float else
  let deliveredAssignments := filter has_quantityDelivered deliveries in
  if Nat.eqb (length deliveredAssignments) 0 then 0%float else
  let totalAccuracy :=
    fold_left (fun s d => (s + accuracy d)%float) deliveredAssignments 0%float in
  js_round (totalAccuracy / nat_to_float (length deliveredAssignments))%float.

Definition has_qualityResult (d : DeliveryAssignment) : bool :=
  AssignmentStatus.eqb d.(as_status) AssignmentStatus.DELIVERED
  && match d.(as_qualityResult) with Some _ => true | None => false end.

Definition quality_points (d : DeliveryAssignment) : float :=
  match d.(as_qualityResult) with
  | Some QualityResult.PASS => 100
  | Some QualityResult.PARTIAL => 50
  | Some QualityResult.FAIL => 0
  | None => 0
  end.

Definition calculateQualityScore (deliveries : list DeliveryAssignment) : float :=
  if Nat.eqb (length deliveries) 0 then 0%float else
  let deliveredAssignments := filter has_qualityResult deliveries in
  if Nat.eqb (length deliveredAssignments) 0 then 0%float else
  let totalQualityScore :=
    fold_left (fun s d => (s + quality_points d)%float) deliveredAssignments 0%float in
  js_round (totalQualityScore / nat_to_float (length deliveredAssignments))%float.

Definition calculateAvailabilitySubmissionScore (history : list WeeklyAvailability) : float :=
  if Nat.eqb (length history) 0 then 0%float else
  let onTimeSubmissions := filter (fun av => negb av.(av_isLate)) history in
  js_round (percentage (length onTimeSubmissions) (length history)).

(** [score >= PREFERRED], [score >= STANDARD]: both false for NaN. *)
Definition determineTier (score : float) : PerformanceTier.t :=
  if (TIER_PREFERRED <=? score)%float then PerformanceTier.PREFERRED
  else if (TIER_STANDARD <=? score)%float then PerformanceTier.STANDARD
  else PerformanceTier.PROBATIONARY.

Definition calculatePerformanceScore (db : DB) (farmerId : Id) : PerformanceData :=
  let deliveries := confirmedDeliveries db farmerId in
  let history := availabilityHistory db farmerId in
  let onTime := calculateOnTimeDeliveryScore deliveries in
  let quantityAccuracy := calculateQuantityAccuracyScore deliveries in
  let quality := calculateQualityScore deliveries in
  let availabilitySubmission := calculateAvailabilitySubmissionScore history in
  let totalScore :=
    js_round (DEFAULT_BASE_SCORE
              + onTime * W_onTimeDelivery
              + quantityAccuracy * W_quantityAccuracy
              + quality * W_quality
              + availabilitySubmission * W_availabilitySubmission)%float in
  let finalScore := js_max 0 (js_min 100 totalScore) in
  mkPerformanceData finalScore (determineTier finalScore)
    (mkBreakdown onTime quantityAccuracy quality availabilitySubmission).

(** [upsert({ where: { farmerId }, create, update })] on a table keyed by farmer. *)
Definition upsert {A} (key : A -> Id) (k : Id) (v : A) (l : list A) : list A :=
  if existsb (fun x => Nat.eqb (key x) k) l
  then map (fun x => if Nat.eqb (key x) k then v else x) l
  else l ++ [v].

(** [previousScore !== performanceData.score] is [negb (x =? y)] on doubles:
    NaN differs from everything, +0 and -0 are equal. *)
Definition updatePerformanceScore (farmerId : Id) (reason : nat)
    (deliveryAssignmentId createdBy : option Id) : M unit :=
  db <- get ;;
  let performanceData := calculatePerformanceScore db farmerId in
  let currentPerformance :=
    find (fun p => Nat.eqb p.(fp_farmerId) farmerId) db.(farmerPerformance) in
  let previousScore :=
    match currentPerformance with Some p => p.(fp_score) | None => DEFAULT_BASE_SCORE end in
  let previousTier :=
    match currentPerformance with
    | Some p => p.(fp_tier) | None => PerformanceTier.PROBATIONARY end in
  let perf' := upsert fp_farmerId farmerId
                 (mkFarmerPerformance farmerId performanceData.(pd_score)
                    performanceData.(pd_tier)) db.(farmerPerformance) in
  let breakdown' := upsert fst farmerId (farmerId, performanceData.(pd_breakdown))
                      db.(farmerPerformanceBreakdown) in
  let history' :=
    if negb (previousScore =? performanceData.(pd_score))%float
       || negb (PerformanceTier.eqb previousTier performanceData.(pd_tier))
    then db.(farmerPerformanceHistory) ++
         [mkHistory farmerId previousScore performanceData.(pd_score) previousTier
            performanceData.(pd_tier) reason deliveryAssignmentId createdBy db.(now)]
    else db.(farmerPerformanceHistory) in
  modify (with_performance perf' breakdown' history').

(** ** Delivery confirmation (allocation.service.ts, confirmDelivery) *)

Record ConfirmDeliveryData := mkConfirmDeliveryData {
  cd_delivered : bool;
  cd_quantityDelivered : option Z;
  cd_qualityResult : option QualityResult.t;
  cd_notes : option nat
}.

(** The fields written by [deliveryAssignment.update] in confirmDelivery. *)
Definition confirm_fields (adminId : Id) (confirmedAt : Z)
    (data : ConfirmDeliveryData) (a : DeliveryAssignment) : DeliveryAssignment :=
  let status := if data.(cd_delivered) then AssignmentStatus.DELIVERED
                else AssignmentStatus.FAILED in
  let quantityDelivered :=
    match data.(cd_quantityDelivered) with
    | Some q => Some q
    | None => if data.(cd_delivered) then Some a.(as_assignedQuantity) else None
    end in
  mkAssignment a.(as_id) a.(as_orderId) a.(as_farmerId) a.(as_assignedQuantity)
    a.(as_deliveryDate) a.(as_deliveryAddressId) status quantityDelivered
    data.(cd_qualityResult) data.(cd_notes) (Some adminId) (Some confirmedAt).

Definition set_order_status (oid : Id) (s : OrderStatus.t) (db : DB) : DB :=
  with_orders
    (map (fun o => if Nat.eqb o.(order_id) oid
                   then mkOrder o.(order_id) o.(order_quantity) o.(order_deliveryDate)
                          o.(order_deliveryAddressId) s
                   else o) db.(orders)) db.

Definition is_delivered (a : DeliveryAssignment) : bool :=
  AssignmentStatus.eqb a.(as_status) AssignmentStatus.DELIVERED.
Definition is_failed (a : DeliveryAssignment) : bool :=
  AssignmentStatus.eqb a.(as_status) AssignmentStatus.FAILED.

(** The reason string: ["Delivery confirmed: " + quality] or ["Delivery failed"],
    as a token. *)
Definition reason_of (data : ConfirmDeliveryData) : nat :=
  if data.(cd_delivered)
  then match data.(cd_qualityResult) with
       | Some QualityResult.PASS => 1 | Some QualityResult.PARTIAL => 2
       | Some QualityResult.FAIL => 3 | None => 4 end
  else 0.

(** [try { ... } catch (error) { console.error(...) }]: writes made before a
    failure stay, the failure itself is swallowed. *)
Definition try_catch (m : M unit) : M unit :=
  fun db => match m db with
            | (Ok _, db') => (Ok tt, db')
            | (Err _, db') => (Ok tt, db')
            end.

Definition validateQuantityDelivered (assignment : DeliveryAssignment)
    (data : ConfirmDeliveryData) : M unit :=
  if data.(cd_delivered) then
    match data.(cd_quantityDelivered) with
    | Some q =>
        if q <? 0 then throw (createError 400 INVALID_QUANTITY) else
        if q >? assignment.(as_assignedQuantity)
        then throw (createError 400 INVALID_QUANTITY) else ret tt
    | None => ret tt
    end
  else ret tt.

Definition confirmDelivery (assignmentId adminId : Id) (data : ConfirmDeliveryData)
    : M DeliveryAssignment :=
  db <- get ;;
  match find_assignment db assignmentId with
  | None => throw (createError 404 ASSIGNMENT_NOT_FOUND)
  | Some assignment =>
    validateQuantityDelivered assignment data ;;;
    let updated := confirm_fields adminId db.(now) data assignment in
    modify (update_assignment assignmentId (confirm_fields adminId db.(now) data)) ;;;
    db' <- get ;;
    let allAssignments := order_assignments db' updated.(as_orderId) in
    let allDelivered := forallb is_delivered allAssignments in
    let anyFailed := existsb is_failed allAssignments in
    (if allDelivered && Nat.ltb 0 (length allAssignments)
     then modify (set_order_status updated.(as_orderId) OrderStatus.DELIVERED)
     else if anyFailed && forallb (fun a => is_delivered a || is_failed a) allAssignments
     then modify (set_order_status updated.(as_orderId) OrderStatus.DELIVERED)
     else ret tt) ;;;
    try_catch (updatePerformanceScore updated.(as_farmerId) (reason_of data)
                 (Some assignmentId) (Some adminId)) ;;;
    ret updated
  end.

(** ** Predicates the properties are stated with *)

(** An assignment has left PENDING (it is DELIVERED or FAILED). *)
Definition left_pending (a : DeliveryAssignment) : bool :=
  negb (AssignmentStatus.eqb a.(as_status) AssignmentStatus.PENDING).

(** Quantity conservation: every order's assignments add up to at most its
    quantity. *)
Definition conserved (db : DB) : Prop :=
  forall oid o, find_order db oid = Some o -> sum_assigned db oid <= o.(order_quantity).

(** Every stored assignment has a positive quantity. *)
Definition positive_quantities (db : DB) : Prop :=
  forall a, In a db.(assignments) -> 0 < a.(as_assignedQuantity).

(** Quantity of the other assignments of the same order, as updateAssignment
    computes it. *)
Definition other_assigned (db : DB) (oid aid : Id) : Z :=
  sum_quantities (map as_assignedQuantity
    (filter (fun a => Nat.eqb a.(as_orderId) oid && negb (Nat.eqb a.(as_id) aid))
            db.(assignments))).

(** The on-time rule as the specification words it: DELIVERED and
    [confirmedAt - deliveryDate <= 1 day]. *)
Definition on_time_per_spec (d : DeliveryAssignment) : bool :=
  is_delivered d &&
  match d.(as_confirmedAt) with
  | Some c => c - d.(as_deliveryDate) <=? MS_PER_DAY
  | None => false
  end.

Definition onTimeDeliveryScore_per_spec (deliveries : list DeliveryAssignment) : float :=
  if Nat.eqb (length deliveries) 0 then 0%float else
  js_round (percentage (length (filter on_time_per_spec deliveries)) (length deliveries)).

(** The on-time rule the code implements: DELIVERED and
    [floor((confirmedAt - deliveryDate) / 1 day) <= 1], that is, confirmed
    less than two days after the delivery date. *)
Definition on_time_within_two_days (d : DeliveryAssignment) : bool :=
  is_delivered d &&
  match d.(as_confirmedAt) with
  | Some c => c - d.(as_deliveryDate) <? 2 * MS_PER_DAY
  | None => false
  end.

(** ** Further reads of performance.service.ts *)

(** [farmerPerformance.findUnique({ where: { farmerId } })] *)
Definition find_performance (db : DB) (farmerId : Id) : option FarmerPerformance :=
  find (fun p => Nat.eqb p.(fp_farmerId) farmerId) db.(farmerPerformance).

(** [farmerPerformanceBreakdown.findUnique({ where: { farmerId } })] *)
Definition find_breakdown (db : DB) (farmerId : Id) : option (Id * PerformanceBreakdown) :=
  find (fun b => Nat.eqb (fst b) farmerId) db.(farmerPerformanceBreakdown).

(** The reason ['Initial performance calculation'], as a token (the tokens
    0 to 4 are the reasons of confirmDelivery, see [reason_of]). *)
Definition REASON_INITIAL : nat := 5.

(** getPerformanceData: read the record and the breakdown; if there is no
    record, compute one with [updatePerformanceScore(farmerId, reason)]
    (no assignment, no author) and read both again. *)
Definition getPerformanceData (farmerId : Id)
    : M (option FarmerPerformance * option (Id * PerformanceBreakdown)) :=
  db <- get ;;
  let performance := find_performance db farmerId in
  let breakdown := find_breakdown db farmerId in
  match performance with
  | None =>
      updatePerformanceScore farmerId REASON_INITIAL None None ;;;
      db' <- get ;;
      ret (find_performance db' farmerId, find_breakdown db' farmerId)
  | Some _ => ret (performance, breakdown)
  end.

(** getRecentChanges: [farmerPerformanceHistory.findMany({ where: { farmerId },
    orderBy: { createdAt: 'desc' }, take: limit })], for a non-negative
    [limit] (its callers pass 10). *)
Definition getRecentChanges (farmerId : Id) (limit : nat)
    : M (list FarmerPerformanceHistory) :=
  db <- get ;;
  ret (firstn limit
         (sort_desc h_createdAt
            (filter (fun h => Nat.eqb h.(h_farmerId) farmerId)
                    db.(farmerPerformanceHistory)))).

(** ** Invariants of the tables *)

(** Every DELIVERED assignment carries a delivered quantity between 0 and its
    assigned quantity. *)
Definition delivered_quantities_ok (db : DB) : Prop :=
  forall a, In a db.(assignments) -> a.(as_status) = AssignmentStatus.DELIVERED ->
    exists q, a.(as_quantityDelivered) = Some q /\ 0 <= q <= a.(as_assignedQuantity).

(** Assignment ids are unique and below the next fresh id. *)
Definition ids_fresh (db : DB) : Prop :=
  NoDup (map as_id db.(assignments))
  /\ forall a, In a db.(assignments) -> (a.(as_id) < db.(next_id))%nat.

(** The four table invariants of the allocation code together. *)
Definition allocation_invariant (db : DB) : Prop :=
  conserved db /\ positive_quantities db /\ delivered_quantities_ok db /\ ids_fresh db.

(** The history rows of one farmer, in creation order. *)
Definition farmer_history (db : DB) (f : Id) : list FarmerPerformanceHistory :=
  filter (fun h => Nat.eqb h.(h_farmerId) f) db.(farmerPerformanceHistory).

(** ECMAScript's SameValueZero on numbers: [x === y], or both are NaN. *)
Definition same_value_zero (x y : float) : bool :=
  (x =? y)%float || (is_nan x && is_nan y).

(** Consecutive history rows agree: each row starts from the score (the same
    number, in the sense of [same_value_zero]) and tier the previous one
    ended with. *)
Fixpoint chained (l : list FarmerPerformanceHistory) : Prop :=
  match l with
  | h1 :: ((h2 :: _) as t) =>
      same_value_zero h2.(h_previousScore) h1.(h_newScore) = true
      /\ h2.(h_previousTier) = h1.(h_newTier)
      /\ chained t
  | _ => True
  end.

Fixpoint last_entry {A} (l : list A) : option A :=
  match l with
  | [] => None
  | [x] => Some x
  | _ :: t => last_entry t
  end.

(** Every farmer's history is a chain whose last row ends at the stored
    score and tier. *)
Definition history_consistent (db : DB) : Prop :=
  forall f,
    chained (farmer_history db f)
    /\ forall h, last_entry (farmer_history db f) = Some h ->
         exists p, find_performance db f = Some p
                   /\ same_value_zero p.(fp_score) h.(h_newScore) = true
                   /\ p.(fp_tier) = h.(h_newTier).

(** A list in non-increasing [key] order. *)
Definition sorted_desc {A} (key : A -> Z) (l : list A) : Prop :=
  StronglySorted (fun x y => key y <= key x) l.

(** The farmers createDeliveryAssignments finds for a batch. *)
Definition found_farmers (db : DB) (rows : list AllocationAssignment) : list Farmer :=
  filter (fun f => existsb (Nat.eqb f.(farmer_id)) (map aa_farmerId rows)
                   && is_active_user f.(farmer_userStatus)) db.(farmers).

(** One performance record and one breakdown per farmer. *)
Definition one_record_per_farmer (db : DB) : Prop :=
  NoDup (map fp_farmerId db.(farmerPerformance))
  /\ NoDup (map fst db.(farmerPerformanceBreakdown)).

(** The order of the tiers. *)
Definition tier_rank (t : PerformanceTier.t) : Z :=
  match t with
  | PerformanceTier.PROBATIONARY => 0
  | PerformanceTier.STANDARD => 1
  | PerformanceTier.PREFERRED => 2
  end.

(** ** Reads of allocation.service.ts and performance.service.ts *)

(** [Array.prototype.sort] with the comparator [(a, b) => key a - key b],
    which is stable, and Prisma [orderBy: { key: 'asc' }]: an insertion sort
    that puts an element before the first one with a key at least its own. *)
Fixpoint insert_asc {A} (key : A -> Z) (x : A) (l : list A) : list A :=
  match l with
  | [] => [x]
  | y :: ys => if key x <=? key y then x :: y :: ys else y :: insert_asc key x ys
  end.

Definition sort_asc {A} (key : A -> Z) (l : list A) : list A :=
  fold_right (insert_asc key) [] l.

(** A list in non-decreasing [key] order. *)
Definition sorted_asc {A} (key : A -> Z) (l : list A) : Prop :=
  StronglySorted (fun x y => key x <= key y) l.

(** The filters of getAllDeliveryAssignments; [None] is a filter that is
    absent or falsy ([if (filters?.status)], an empty id string). *)
Record AssignmentFilters := mkAssignmentFilters {
  flt_status : option AssignmentStatus.t;
  flt_orderId : option Id;
  flt_farmerId : option Id
}.

Definition matches_filters (flt : AssignmentFilters) (a : DeliveryAssignment) : bool :=
  match flt.(flt_status) with Some s => AssignmentStatus.eqb a.(as_status) s | None => true end
  && match flt.(flt_orderId) with Some o => Nat.eqb a.(as_orderId) o | None => true end
  && match flt.(flt_farmerId) with Some f => Nat.eqb a.(as_farmerId) f | None => true end.

(** getAllDeliveryAssignments: [deliveryAssignment.findMany({ where,
    orderBy: { deliveryDate: 'asc' } })] with [where] built from the given
    filters. *)
Definition getAllDeliveryAssignments (filters : option AssignmentFilters)
    : M (list DeliveryAssignment) :=
  db <- get ;;
  let flt := match filters with
             | Some f => f
             | None => mkAssignmentFilters None None None
             end in
  ret (sort_asc as_deliveryDate (filter (matches_filters flt) db.(assignments))).

(** A point of the performance trend chart. *)
Record TrendPoint := mkTrendPoint {
  tp_date : Z;
  tp_score : float;
  tp_tier : PerformanceTier.t
}.

Section Calendar.

(** [getWeekStartDate()] (Monday 00:00 of the current week) and
    [startDate.setDate(startDate.getDate() - days)] read the local calendar
    and time zone; they are parameters of the functions below, as functions
    of the current time (and of [days]). *)
Variable getWeekStartDate : Z -> Z.
Variable days_before : Z -> Z -> Z.

(** getAllocationData: the ALLOCATION orders by delivery date, each with its
    assignments; the ACTIVE or PROBATIONARY farmers (table order), each with
    its availability rows for the current week; and that week's start. *)
Definition getAllocationData
    : M (list (Order * list DeliveryAssignment)
         * list (Farmer * list WeeklyAvailability) * Z) :=
  db <- get ;;
  let orders := sort_asc order_deliveryDate
                  (filter (fun o => OrderStatus.eqb o.(order_status) OrderStatus.ALLOCATION)
                     db.(orders)) in
  let currentWeekStart := getWeekStartDate db.(now) in
  let farmers := filter (fun f => is_active_user f.(farmer_userStatus)) db.(farmers) in
  ret (map (fun o => (o, order_assignments db o.(order_id))) orders,
       map (fun f => (f, filter (fun av => Nat.eqb av.(av_farmerId) f.(farmer_id)
                                           && Z.eqb av.(av_weekStartDate) currentWeekStart)
                                db.(weeklyAvailability)))
           farmers,
       currentWeekStart).

(** getPerformanceHistory: the farmer's history rows created at or after
    [days] days before now, newest first. *)
Definition getPerformanceHistory (farmerId : Id) (days : Z)
    : M (list FarmerPerformanceHistory) :=
  db <- get ;;
  let startDate := days_before db.(now) days in
  ret (sort_desc h_createdAt
         (filter (fun h => Nat.eqb h.(h_farmerId) farmerId && (startDate <=? h.(h_createdAt)))
            db.(farmerPerformanceHistory))).

(** getPerformanceTrend: one point per history row of the period, then the
    current record at the current time, sorted by date. *)
Definition getPerformanceTrend (farmerId : Id) (days : Z) : M (list TrendPoint) :=
  history <- getPerformanceHistory farmerId days ;;
  db <- get ;;
  let current := find_performance db farmerId in
  let trend := map (fun e => mkTrendPoint e.(h_createdAt) e.(h_newScore) e.(h_newTier))
                   history in
  let trend := match current with
               | Some c => trend ++ [mkTrendPoint db.(now) c.(fp_score) c.(fp_tier)]
               | None => trend
               end in
  ret (sort_asc tp_date trend).

End Calendar.

(** ** Buyer orders (performance.service.ts, createOrder .. rejectOrder)

    The order part of the file works on its own tables: buyers with their
    user's status, delivery addresses and the full order rows.  It has its
    own errors and its own state-and-error monad over that store.  [trim]
    (String.prototype.trim) is a parameter; no property depends on how it
    treats white space.  Dates are milliseconds in [Z]; an invalid Date
    (NaN) is not modelled. *)

Module OrderService.

Import Ascii.

Module OrderType.
Inductive t := ONE_TIME | STANDING.
End OrderType.

Inductive OrderErrorCode :=
| BUYER_NOT_FOUND | BUYER_NOT_ACTIVE | ADDRESS_NOT_FOUND | INVALID_QUANTITY
| INVALID_DELIVERY_DATE | ORDER_NOT_FOUND | INVALID_ORDER_STATUS | BUYER_SUSPENDED
| UNHANDLED_TYPE_ERROR.

(** [createError(message, status, code)]; [UNHANDLED_TYPE_ERROR] is the
    TypeError of reading [.user] of a missing buyer, which the error
    handler answers with 500. *)
Record OrderError := orderError { oe_status : Z; oe_code : OrderErrorCode }.

Record Buyer := mkBuyer {
  buyer_id : Id;
  buyer_userId : Id;
  buyer_userStatus : UserStatus.t
}.

Record DeliveryAddress := mkDeliveryAddress {
  address_id : Id;
  address_buyerId : Id
}.

Record BuyerOrder := mkBuyerOrder {
  bo_id : Id;
  bo_buyerId : Id;
  bo_productType : String.string;
  bo_quantity : Z;
  bo_orderType : OrderType.t;
  bo_deliveryDate : Z;
  bo_deliveryAddressId : Id;
  bo_status : OrderStatus.t;
  bo_notes : option String.string;
  bo_createdAt : Z;
  bo_approvedAt : option Z;
  bo_approvedBy : option Id;
  bo_rejectionReason : option String.string
}.

Record CreateOrderData := mkCreateOrderData {
  cod_productType : String.string;
  cod_quantity : Z;
  cod_orderType : OrderType.t;
  cod_deliveryDate : Z;
  cod_deliveryAddressId : Id;
  cod_notes : option String.string
}.

(** [filters?.status] and [filters?.limit]; a negative limit is not
    modelled (Prisma reads it as taking from the end). *)
Record BuyerOrderFilters := mkBuyerOrderFilters {
  bof_status : option OrderStatus.t;
  bof_limit : option nat
}.

(** [now] is the value [new Date()] reads; [next_id] the next fresh key. *)
Record Store := mkStore {
  buyers : list Buyer;
  deliveryAddresses : list DeliveryAddress;
  buyerOrders : list BuyerOrder;
  store_now : Z;
  store_next_id : nat
}.

Inductive OResult (A : Type) := Ok (a : A) | Err (e : OrderError).
Arguments Ok {A} a.
Arguments Err {A} e.

Definition OM (A : Type) := Store -> OResult A * Store.

Definition ret {A} (a : A) : OM A := fun st => (Ok a, st).
Definition throw {A} (e : OrderError) : OM A := fun st => (Err e, st).
Definition bind {A B} (m : OM A) (k : A -> OM B) : OM B :=
  fun st => match m st with
            | (Ok a, st') => k a st'
            | (Err e, st') => (Err e, st')
            end.
Definition get : OM Store := fun st => (Ok st, st).
Definition put (st : Store) : OM unit := fun _ => (Ok tt, st).

Local Notation "x <- m ;; k" := (bind m (fun x => k))
  (at level 61, m at next level, right associativity).
Local Notation "m ;;; k" := (bind m (fun _ => k))
  (at level 61, right associativity).

Definition with_buyerOrders (l : list BuyerOrder) (st : Store) : Store :=
  mkStore st.(buyers) st.(deliveryAddresses) l st.(store_now) st.(store_next_id).

(** [buyer.findUnique({ where: { userId } })] *)
Definition find_buyer_by_user (st : Store) (userId : Id) : option Buyer :=
  find (fun b => Nat.eqb b.(buyer_userId) userId) st.(buyers).

(** The relation [order.buyer]. *)
Definition find_buyer (st : Store) (bid : Id) : option Buyer :=
  find (fun b => Nat.eqb b.(buyer_id) bid) st.(buyers).

(** [deliveryAddress.findFirst({ where: { id, buyerId } })] *)
Definition find_address (st : Store) (aid bid : Id) : option DeliveryAddress :=
  find (fun a => Nat.eqb a.(address_id) aid && Nat.eqb a.(address_buyerId) bid)
       st.(deliveryAddresses).

(** [order.findUnique({ where: { id } })] *)
Definition find_buyer_order (st : Store) (oid : Id) : option BuyerOrder :=
  find (fun o => Nat.eqb o.(bo_id) oid) st.(buyerOrders).

(** [order.update({ where: { id }, data })] *)
Definition update_order (oid : Id) (o' : BuyerOrder) (l : list BuyerOrder)
    : list BuyerOrder :=
  map (fun o => if Nat.eqb o.(bo_id) oid then o' else o) l.

Definition is_user_active (s : UserStatus.t) : bool :=
  match s with UserStatus.ACTIVE => true | _ => false end.

Definition is_user_suspended (s : UserStatus.t) : bool :=
  match s with UserStatus.SUSPENDED => true | _ => false end.

(** ["\n[Admin]: "] *)
Definition ADMIN_NOTES_SEPARATOR : String.string :=
  String.String (Ascii.ascii_of_nat 10)
    (String.String "["%char (String.String "A"%char (String.String "d"%char
      (String.String "m"%char (String.String "i"%char (String.String "n"%char
        (String.String "]"%char (String.String ":"%char
          (String.String " "%char String.EmptyString))))))))).

(** [filters?.limit || 50]: an absent limit and 0 both give 50. *)
Definition take_limit (limit : option nat) : nat :=
  match limit with
  | Some (S n) => S n
  | _ => 50
  end.

Section Trim.
Variable trim : String.string -> String.string.

Definition createOrder (buyerId : Id) (data : CreateOrderData) : OM BuyerOrder :=
  st <- get ;;
  match find_buyer_by_user st buyerId with
  | None => throw (orderError 404 BUYER_NOT_FOUND)
  | Some buyer =>
      if negb (is_user_active buyer.(buyer_userStatus))
      then throw (orderError 403 BUYER_NOT_ACTIVE)
      else
        match find_address st data.(cod_deliveryAddressId) buyer.(buyer_id) with
        | None => throw (orderError 404 ADDRESS_NOT_FOUND)
        | Some _ =>
            if data.(cod_quantity) <=? 0
            then throw (orderError 400 INVALID_QUANTITY)
            else if data.(cod_deliveryDate) <=? st.(store_now)
            then throw (orderError 400 INVALID_DELIVERY_DATE)
            else
              let order :=
                mkBuyerOrder st.(store_next_id) buyer.(buyer_id)
                  (trim data.(cod_productType)) data.(cod_quantity)
                  data.(cod_orderType) data.(cod_deliveryDate)
                  data.(cod_deliveryAddressId) OrderStatus.PENDING
                  (option_map trim data.(cod_notes)) st.(store_now)
                  None None None in
              put (mkStore st.(buyers) st.(deliveryAddresses)
                     (st.(buyerOrders) ++ [order]) st.(store_now)
                     (S st.(store_next_id))) ;;;
              ret order
        end
  end.

Definition getBuyerOrders (buyerId : Id) (filters : option BuyerOrderFilters)
    : OM (list BuyerOrder) :=
  st <- get ;;
  match find_buyer_by_user st buyerId with
  | None => throw (orderError 404 BUYER_NOT_FOUND)
  | Some buyer =>
      let status := match filters with Some f => f.(bof_status) | None => None end in
      let limit := match filters with Some f => f.(bof_limit) | None => None end in
      ret (firstn (take_limit limit)
             (sort_desc bo_createdAt
                (filter (fun o => Nat.eqb o.(bo_buyerId) buyer.(buyer_id)
                                  && match status with
                                     | Some s => OrderStatus.eqb o.(bo_status) s
                                     | None => true
                                     end)
                        st.(buyerOrders))))
  end.

Definition getOrderById (orderId buyerId : Id) : OM BuyerOrder :=
  st <- get ;;
  match find_buyer_by_user st buyerId with
  | None => throw (orderError 404 BUYER_NOT_FOUND)
  | Some buyer =>
      match find (fun o => Nat.eqb o.(bo_id) orderId
                           && Nat.eqb o.(bo_buyerId) buyer.(buyer_id))
                 st.(buyerOrders) with
      | None => throw (orderError 404 ORDER_NOT_FOUND)
      | Some order => ret order
      end
  end.

Definition getPendingOrders : OM (list BuyerOrder) :=
  st <- get ;;
  ret (sort_asc bo_createdAt
         (filter (fun o => OrderStatus.eqb o.(bo_status) OrderStatus.PENDING)
                 st.(buyerOrders))).

(** [adminNotes ? `${order.notes || ''}\n[Admin]: ${adminNotes}`.trim() : order.notes] *)
Definition approved_notes (notes adminNotes : option String.string)
    : option String.string :=
  match adminNotes with
  | Some n =>
      if String.eqb n String.EmptyString then notes
      else Some (trim (String.append
                         (match notes with Some s => s | None => String.EmptyString end)
                         (String.append ADMIN_NOTES_SEPARATOR n)))
  | None => notes
  end.

Definition approveOrder (orderId adminId : Id) (adminNotes : option String.string)
    : OM BuyerOrder :=
  st <- get ;;
  match find_buyer_order st orderId with
  | None => throw (orderError 404 ORDER_NOT_FOUND)
  | Some order =>
      if negb (OrderStatus.eqb order.(bo_status) OrderStatus.PENDING)
      then throw (orderError 400 INVALID_ORDER_STATUS)
      else
        match find_buyer st order.(bo_buyerId) with
        | None => throw (orderError 500 UNHANDLED_TYPE_ERROR)
        | Some buyer =>
            if is_user_suspended buyer.(buyer_userStatus)
            then throw (orderError 400 BUYER_SUSPENDED)
            else
              let updated :=
                mkBuyerOrder order.(bo_id) order.(bo_buyerId) order.(bo_productType)
                  order.(bo_quantity) order.(bo_orderType) order.(bo_deliveryDate)
                  order.(bo_deliveryAddressId) OrderStatus.ALLOCATION
                  (approved_notes order.(bo_notes) adminNotes) order.(bo_createdAt)
                  (Some st.(store_now)) (Some adminId) order.(bo_rejectionReason) in
              put (with_buyerOrders (update_order orderId updated st.(buyerOrders)) st) ;;;
              ret updated
        end
  end.

Definition rejectOrder (orderId adminId : Id) (rejectionReason : String.string)
    : OM BuyerOrder :=
  st <- get ;;
  match find_buyer_order st orderId with
  | None => throw (orderError 404 ORDER_NOT_FOUND)
  | Some order =>
      if negb (OrderStatus.eqb order.(bo_status) OrderStatus.PENDING)
      then throw (orderError 400 INVALID_ORDER_STATUS)
      else
        let updated :=
          mkBuyerOrder order.(bo_id) order.(bo_buyerId) order.(bo_productType)
            order.(bo_quantity) order.(bo_orderType) order.(bo_deliveryDate)
            order.(bo_deliveryAddressId) OrderStatus.REJECTED order.(bo_notes)
            order.(bo_createdAt) order.(bo_approvedAt) (Some adminId)
            (Some (trim rejectionReason)) in
        put (with_buyerOrders (update_order orderId updated st.(buyerOrders)) st) ;;;
        ret updated
  end.

End Trim.

(** Order ids are unique and below the next fresh id. *)
Definition order_ids_fresh (st : Store) : Prop :=
  NoDup (map bo_id st.(buyerOrders))
  /\ forall o, In o st.(buyerOrders) -> (o.(bo_id) < st.(store_next_id))%nat.

(** Sample store: buyer 1 (user 7) is ACTIVE with address 3, buyer 2
    (user 8) is BLOCKED, buyer 4 (user 9) is SUSPENDED; order 20 of buyer 2
    and order 21 of buyer 4 are PENDING. *)
Definition sample_buyer_order (oid bid : Id) (created : Z) : BuyerOrder :=
  mkBuyerOrder oid bid String.EmptyString 100 OrderType.ONE_TIME 9000 3
    OrderStatus.PENDING None created None None None.

Definition sample_store : Store :=
  mkStore [mkBuyer 1 7 UserStatus.ACTIVE; mkBuyer 2 8 UserStatus.BLOCKED;
           mkBuyer 4 9 UserStatus.SUSPENDED]
          [mkDeliveryAddress 3 1]
          [sample_buyer_order 20 2 500; sample_buyer_order 21 4 600]
          1000 30.

Definition sample_order_data (qty date : Z) : CreateOrderData :=
  mkCreateOrderData String.EmptyString qty OrderType.STANDING date 3 None.

End OrderService.

(** ** Sample data *)

Definition sample_order (s : OrderStatus.t) : Order := mkOrder 1 100 1000 7 s.

Definition pending_assignment (aid : Id) (farmer : Id) (q : Z) : DeliveryAssignment :=
  mkAssignment aid 1 farmer q 1000 7 AssignmentStatus.PENDING None None None None None.

Definition delivered_assignment : DeliveryAssignment :=
  mkAssignment 100 1 10 60 1000 7 AssignmentStatus.DELIVERED (Some 60)
    (Some QualityResult.PASS) None (Some 1%nat) (Some 2000).

Definition sample_farmers : list Farmer :=
  [mkFarmer 10 UserStatus.ACTIVE; mkFarmer 11 UserStatus.PROBATIONARY].

Definition sample_db (s : OrderStatus.t) (l : list DeliveryAssignment) : DB :=
  mkDB [sample_order s] l sample_farmers [] [] [] [] 5000 200.

Definition batch (qs : list (Id * Z)) : CreateAllocationData :=
  mkCreateAllocationData 1 (map (fun p => mkAllocationAssignment (fst p) (snd p)) qs).

Definition confirm_failed : ConfirmDeliveryData :=
  mkConfirmDeliveryData false None None None.

Definition rollup_db : DB :=
  sample_db OrderStatus.ALLOCATION [delivered_assignment; pending_assignment 101 11 30].

Definition confirm_failed_with_quantity : ConfirmDeliveryData :=
  mkConfirmDeliveryData false (Some 5) None None.

(** An assignment DELIVERED one and a half days after its delivery date. *)
Definition late_assignment : DeliveryAssignment :=
  mkAssignment 100 1 10 60 1000 7 AssignmentStatus.DELIVERED (Some 60)
    (Some QualityResult.PASS) None (Some 1%nat) (Some (1000 + 3 * MS_PER_DAY / 2)).

(** An on-time DELIVERED assignment of farmer 10 and a FAILED one, both
    confirmed. *)
Definition on_time_assignment (aid : Id) : DeliveryAssignment :=
  mkAssignment aid 1 10 60 1000 7 AssignmentStatus.DELIVERED (Some 60)
    (Some QualityResult.PASS) None (Some 1%nat) (Some 2000).

Definition failed_assignment (aid : Id) : DeliveryAssignment :=
  mkAssignment aid 1 10 60 1000 7 AssignmentStatus.FAILED None None None
    (Some 1%nat) (Some 2000).

(** 23 on-time deliveries out of 40 confirmed assignments. *)
Definition mixed_db : DB :=
  sample_db OrderStatus.DELIVERED
    (map on_time_assignment (seq 300 23) ++ map failed_assignment (seq 400 17)).

(** A DELIVERED assignment whose assigned and delivered quantities are 0. *)
Definition zero_delivery : DeliveryAssignment :=
  mkAssignment 100 1 10 0 1000 7 AssignmentStatus.DELIVERED (Some 0)
    (Some QualityResult.PASS) None (Some 1%nat) (Some 2000).

Definition zero_delivery_db : DB := sample_db OrderStatus.DELIVERED [zero_delivery].

(** ** Properties *)

(** Unfolding the monad plumbing. *)
Ltac monad := cbv beta iota zeta delta [bind get modify ret throw try_catch].
Tactic Notation "monad" "in" hyp(H) :=
  cbv beta iota zeta delta [bind get modify ret throw try_catch] in H.

Lemma find_order_some db oid o :
  find_order db oid = Some o -> o.(order_id) = oid /\ In o db.(orders).
Proof.
  unfold find_order; intros H.
  destruct (find_some _ _ H) as [Hin Heq].
  apply Nat.eqb_eq in Heq; auto.
Qed.

Lemma find_assignment_some db aid a :
  find_assignment db aid = Some a -> a.(as_id) = aid /\ In a db.(assignments).
Proof.
  unfold find_assignment; intros H.
  destruct (find_some _ _ H) as [Hin Heq].
  apply Nat.eqb_eq in Heq; auto.
Qed.

Lemma filter_none {A} (f : A -> bool) (l : list A) :
  (forall x, In x l -> f x = false) -> filter f l = [].
Proof.
  induction l as [|x l IH]; intros H; simpl; [reflexivity|].
  rewrite (H x (or_introl eq_refl)); apply IH; intros y Hy; apply H; now right.
Qed.

(** C8 *)

(** C8: once an assignment is DELIVERED or FAILED, updateAssignment and
    deleteAssignment both fail with INVALID_ASSIGNMENT_STATUS and return the
    database exactly as it was: the assignment is neither changed nor removed. *)
Theorem update_delete_rejected_after_confirmation :
  forall db aid adminId q a,
    find_assignment db aid = Some a ->
    a.(as_status) <> AssignmentStatus.PENDING ->
    updateAssignment aid adminId q db
      = (Err (createError 400 INVALID_ASSIGNMENT_STATUS), db)
    /\ deleteAssignment aid adminId db
      = (Err (createError 400 INVALID_ASSIGNMENT_STATUS), db).
Proof.
  intros db aid adminId q a Hfind Hst.
  unfold updateAssignment, deleteAssignment; monad.
  rewrite Hfind.
  destruct (as_status a); [congruence | |]; split; reflexivity.
Qed.

Lemma update_delete_rejected_after_confirmation_witness :
  updateAssignment 100 0 10 (sample_db OrderStatus.ALLOCATION [delivered_assignment])
    = (Err (createError 400 INVALID_ASSIGNMENT_STATUS),
       sample_db OrderStatus.ALLOCATION [delivered_assignment])
  /\ deleteAssignment 100 0 (sample_db OrderStatus.ALLOCATION [delivered_assignment])
    = (Err (createError 400 INVALID_ASSIGNMENT_STATUS),
       sample_db OrderStatus.ALLOCATION [delivered_assignment]).
Proof.
  apply (update_delete_rejected_after_confirmation _ _ _ _ delivered_assignment);
    [reflexivity | discriminate].
Defined.

(** C7 *)

(** C7 (as corrected): for an order that already has at least one
    assignment, createDeliveryAssignments fails and leaves the database
    unchanged, whatever quantities are requested; the error is
    ALREADY_ALLOCATED when the order is in ALLOCATION status, and
    INVALID_ORDER_STATUS (checked first) otherwise. *)
Theorem allocate_rejected_when_already_assigned :
  forall oid adminId data db o,
    find_order db oid = Some o ->
    order_assignments db oid <> [] ->
    createDeliveryAssignments oid adminId data db
      = (Err (createError 400
                (if OrderStatus.eqb o.(order_status) OrderStatus.ALLOCATION
                 then ALREADY_ALLOCATED else INVALID_ORDER_STATUS)), db).
Proof.
  intros oid adminId data db o Hfind Hne.
  unfold createDeliveryAssignments; monad.
  rewrite Hfind.
  destruct (find_order_some _ _ _ Hfind) as [Hid _]; rewrite Hid.
  destruct (OrderStatus.eqb (order_status o) OrderStatus.ALLOCATION); simpl;
    [|reflexivity].
  destruct (order_assignments db oid); [contradiction | reflexivity].
Qed.

Lemma allocate_rejected_when_already_assigned_witness :
  createDeliveryAssignments 1 0 (batch [(11%nat, 40)])
    (sample_db OrderStatus.ALLOCATION [pending_assignment 100 10 60])
  = (Err (createError 400 ALREADY_ALLOCATED),
     sample_db OrderStatus.ALLOCATION [pending_assignment 100 10 60]).
Proof.
  apply (allocate_rejected_when_already_assigned _ _ _ _
           (sample_order OrderStatus.ALLOCATION)); [reflexivity | discriminate].
Defined.

(** C7 counterexample: an order that rolled up to DELIVERED still has its
    assignment, and a new allocation on it fails with INVALID_ORDER_STATUS,
    not ALREADY_ALLOCATED. *)
Lemma allocate_on_delivered_order_counterexample :
  order_assignments (sample_db OrderStatus.DELIVERED [delivered_assignment]) 1 <> []
  /\ fst (createDeliveryAssignments 1 0 (batch [(11%nat, 10)])
            (sample_db OrderStatus.DELIVERED [delivered_assignment]))
     = Err (createError 400 INVALID_ORDER_STATUS).
Proof. split; [vm_compute; discriminate | reflexivity]. Qed.

(** C3 *)

(** C3: a farmer with no confirmed assignment (every assignment of theirs is
    PENDING or has no confirmedAt) and no availability submission gets the four
    component scores 0, the aggregate score 50 and tier STANDARD. *)
Theorem new_farmer_score_floor :
  forall db fid,
    (forall a, In a db.(assignments) -> a.(as_farmerId) = fid ->
       a.(as_status) = AssignmentStatus.PENDING \/ a.(as_confirmedAt) = None) ->
    (forall av, In av db.(weeklyAvailability) -> av.(av_farmerId) <> fid) ->
    calculatePerformanceScore db fid
      = mkPerformanceData 50 PerformanceTier.STANDARD (mkBreakdown 0 0 0 0).
Proof.
  intros db fid Hasg Hav.
  unfold calculatePerformanceScore, confirmedDeliveries, availabilityHistory.
  rewrite (filter_none (is_confirmed_delivery_of fid)).
  2:{ intros a Hin; unfold is_confirmed_delivery_of.
      destruct (Nat.eqb_spec (as_farmerId a) fid) as [Heq|]; [|reflexivity].
      destruct (Hasg a Hin Heq) as [Hs|Hc].
      - rewrite Hs; reflexivity.
      - rewrite Hc; simpl; apply andb_false_r. }
  rewrite (filter_none (fun av => Nat.eqb (av_farmerId av) fid)).
  2:{ intros av Hin; apply Nat.eqb_neq, Hav, Hin. }
  reflexivity.
Qed.

Lemma new_farmer_score_floor_witness :
  calculatePerformanceScore
    (sample_db OrderStatus.ALLOCATION [pending_assignment 100 10 60]) 10
  = mkPerformanceData 50 PerformanceTier.STANDARD (mkBreakdown 0 0 0 0).
Proof.
  apply new_farmer_score_floor.
  - intros a [<- | []] _; left; reflexivity.
  - intros av [].
Defined.

(** C2 *)

Lemma validate_keeps_db a data db :
  exists r, validateQuantityDelivered a data db = (r, db).
Proof.
  unfold validateQuantityDelivered.
  destruct (cd_delivered data); [|eexists; reflexivity].
  destruct (cd_quantityDelivered data) as [q|]; [|eexists; reflexivity].
  destruct (q <? 0); [eexists; reflexivity|].
  destruct (q >? as_assignedQuantity a); eexists; reflexivity.
Qed.

Lemma updatePerformanceScore_shape f r x y db :
  exists p b h, updatePerformanceScore f r x y db = (Ok tt, with_performance p b h db).
Proof. unfold updatePerformanceScore; monad; do 3 eexists; reflexivity. Qed.

Lemma if_or {A} (c1 c2 : bool) (x y : A) :
  (if c1 then x else if c2 then x else y) = (if c1 || c2 then x else y).
Proof. destruct c1, c2; reflexivity. Qed.

Lemma delivered_or_failed a : is_delivered a || is_failed a = left_pending a.
Proof. unfold is_delivered, is_failed, left_pending; destruct (as_status a); reflexivity. Qed.

Lemma forallb_delivered_or_failed (l : list DeliveryAssignment) :
  forallb (fun a => is_delivered a || is_failed a) l = forallb left_pending l.
Proof.
  induction l as [|x l IH]; simpl; [reflexivity|].
  rewrite delivered_or_failed, IH; reflexivity.
Qed.

Lemma rollup_condition (l : list DeliveryAssignment) :
  l <> [] ->
  (forallb is_delivered l && Nat.ltb 0 (length l))
  || (existsb is_failed l && forallb (fun a => is_delivered a || is_failed a) l)
  = forallb left_pending l.
Proof.
  intros Hne.
  rewrite forallb_delivered_or_failed.
  destruct l as [|x l]; [contradiction|]; clear Hne.
  replace (Nat.ltb 0 (length (x :: l))) with true by reflexivity.
  rewrite andb_true_r.
  induction (x :: l) as [|y ys IH]; [reflexivity|].
  simpl; unfold is_delivered, is_failed, left_pending in *.
  destruct (as_status y); simpl; [apply andb_false_r | exact IH | reflexivity].
Qed.

Lemma in_update_assignment aid f db a :
  In a db.(assignments) -> a.(as_id) = aid ->
  In (f a) (update_assignment aid f db).(assignments).
Proof.
  intros Hin Hid; simpl.
  apply in_map_iff; exists a; split; [|exact Hin].
  rewrite Hid, Nat.eqb_refl; reflexivity.
Qed.

Lemma order_assignments_with_performance p b h d oid :
  order_assignments (with_performance p b h d) oid = order_assignments d oid.
Proof. reflexivity. Qed.

Lemma order_assignments_set_order_status o s d oid :
  order_assignments (set_order_status o s d) oid = order_assignments d oid.
Proof. reflexivity. Qed.

(** C2: after a successful confirmDelivery, the parent order is set to
    DELIVERED exactly when every assignment of the order has left PENDING (is
    DELIVERED or FAILED, all of them FAILED included); otherwise the orders
    table is left as it was. *)
Theorem confirmDelivery_order_rollup :
  forall aid adminId data db u db',
    confirmDelivery aid adminId data db = (Ok u, db') ->
    orders db' = if forallb left_pending (order_assignments db' u.(as_orderId))
                 then orders (set_order_status u.(as_orderId) OrderStatus.DELIVERED db)
                 else orders db.
Proof.
  intros aid adminId data db u db' H.
  unfold confirmDelivery in H; monad in H.
  destruct (find_assignment db aid) as [a|] eqn:Hf; [|discriminate].
  destruct (find_assignment_some _ _ _ Hf) as [Hid Hin].
  destruct (validate_keeps_db a data db) as [[[]|e] Hv]; rewrite Hv in H;
    [|discriminate].
  monad in H.
  rewrite if_or, rollup_condition in H.
  2:{ intros Hnil.
      assert (Hm : In (confirm_fields adminId (now db) data a)
                      (order_assignments
                         (update_assignment aid (confirm_fields adminId (now db) data) db)
                         (as_orderId (confirm_fields adminId (now db) data a)))).
      { apply filter_In; split; [apply in_update_assignment; assumption|].
        apply Nat.eqb_refl. }
      rewrite Hnil in Hm; exact Hm. }
  set (db1 := update_assignment aid (confirm_fields adminId (now db) data) db) in H.
  destruct (forallb left_pending
              (order_assignments db1 (as_orderId (confirm_fields adminId (now db) data a))))
    eqn:Hall; monad in H.
  - destruct (updatePerformanceScore_shape
                (as_farmerId (confirm_fields adminId (now db) data a)) (reason_of data)
                (Some aid) (Some adminId)
                (set_order_status (as_orderId (confirm_fields adminId (now db) data a))
                   OrderStatus.DELIVERED db1)) as (p & b & h & Hp).
    rewrite Hp in H; monad in H; injection H as <- <-.
    rewrite order_assignments_with_performance; try rewrite order_assignments_set_order_status.
    rewrite Hall; reflexivity.
  - destruct (updatePerformanceScore_shape
                (as_farmerId (confirm_fields adminId (now db) data a)) (reason_of data)
                (Some aid) (Some adminId) db1) as (p & b & h & Hp).
    rewrite Hp in H; monad in H; injection H as <- <-.
    rewrite order_assignments_with_performance; try rewrite order_assignments_set_order_status.
    rewrite Hall; reflexivity.
Qed.

Lemma confirmDelivery_order_rollup_witness :
  orders (snd (confirmDelivery 101 0 confirm_failed rollup_db))
  = if forallb left_pending
         (order_assignments (snd (confirmDelivery 101 0 confirm_failed rollup_db)) 1)
    then orders (set_order_status 1 OrderStatus.DELIVERED rollup_db)
    else orders rollup_db.
Proof.
  apply (confirmDelivery_order_rollup 101 0 confirm_failed rollup_db
           (confirm_fields 0 5000 confirm_failed (pending_assignment 101 11 30))).
  reflexivity.
Defined.

(** C1 *)

Lemma fold_left_add (l : list Z) (a : Z) :
  fold_left Z.add l a = a + fold_left Z.add l 0.
Proof.
  revert a; induction l as [|x l IH]; intros a; simpl; [lia|].
  rewrite (IH (a + x)), (IH x); lia.
Qed.

Lemma sum_quantities_nil : sum_quantities [] = 0.
Proof. reflexivity. Qed.

Lemma sum_quantities_cons x l : sum_quantities (x :: l) = x + sum_quantities l.
Proof. unfold sum_quantities; simpl; rewrite fold_left_add; reflexivity. Qed.

Lemma sum_quantities_app l1 l2 :
  sum_quantities (l1 ++ l2) = sum_quantities l1 + sum_quantities l2.
Proof.
  induction l1 as [|x l1 IH]; simpl; [reflexivity|].
  rewrite !sum_quantities_cons, IH; lia.
Qed.

Lemma new_assignments_orderId fresh o rows x :
  In x (new_assignments fresh o rows) -> x.(as_orderId) = o.(order_id).
Proof.
  revert fresh; induction rows as [|r rows IH]; intros fresh Hin; simpl in Hin;
    [contradiction|].
  destruct Hin as [<-|Hin]; [reflexivity | exact (IH _ Hin)].
Qed.

Lemma new_assignments_quantities fresh o rows :
  map as_assignedQuantity (new_assignments fresh o rows) = map aa_assignedQuantity rows.
Proof.
  revert fresh; induction rows as [|r rows IH]; intros fresh; simpl; [reflexivity|].
  rewrite IH; reflexivity.
Qed.

Lemma order_assignments_insert created db p :
  order_assignments (insert_assignments created db) p
  = order_assignments db p ++ filter (fun a => Nat.eqb a.(as_orderId) p) created.
Proof. unfold order_assignments; simpl; apply filter_app. Qed.

(** Peels the guards of a service function off a hypothesis
    [f ... db = (Ok r, db')], discarding the branches that throw. *)
Ltac guards H :=
  repeat (match type of H with
          | context [if ?c then _ else _] => destruct c eqn:?
          | context [match ?m with Some _ => _ | None => _ end] => destruct m eqn:?
          end; monad in H; try discriminate H).

Lemma status_neq_guard (s : OrderStatus.t) :
  s <> OrderStatus.ALLOCATION -> negb (OrderStatus.eqb s OrderStatus.ALLOCATION) = true.
Proof.
  intros Hs; apply negb_true_iff, not_true_is_false; intros E.
  apply OrderStatus.order_status_eqb_eq in E; exact (Hs E).
Qed.

Lemma assignment_status_neq_guard (s : AssignmentStatus.t) :
  s <> AssignmentStatus.PENDING -> negb (AssignmentStatus.eqb s AssignmentStatus.PENDING) = true.
Proof.
  intros Hs; apply negb_true_iff, not_true_is_false; intros E.
  apply AssignmentStatus.assignment_status_eqb_eq in E; exact (Hs E).
Qed.

(** The guards of createDeliveryAssignments that come before the quantity
    checks: each fails with its error, whatever the requested quantities,
    and writes nothing. *)
Lemma create_guard_errors oid adminId data db :
  (find_order db oid = None ->
   createDeliveryAssignments oid adminId data db
   = (Err (createError 404 ORDER_NOT_FOUND), db))
  /\ (forall o, find_order db oid = Some o ->
      o.(order_status) <> OrderStatus.ALLOCATION ->
      createDeliveryAssignments oid adminId data db
      = (Err (createError 400 INVALID_ORDER_STATUS), db))
  /\ (forall o, find_order db oid = Some o ->
      o.(order_status) = OrderStatus.ALLOCATION ->
      order_assignments db oid <> [] ->
      createDeliveryAssignments oid adminId data db
      = (Err (createError 400 ALREADY_ALLOCATED), db)).
Proof.
  split; [|split].
  - intros Hf; unfold createDeliveryAssignments; monad; rewrite Hf; reflexivity.
  - intros o Hf Hs; unfold createDeliveryAssignments; monad; rewrite Hf.
    rewrite (status_neq_guard _ Hs); reflexivity.
  - intros o Hf Hs Hne; destruct (find_order_some _ _ _ Hf) as [Hid _].
    unfold createDeliveryAssignments; monad; rewrite Hf, Hs, Hid; cbn [OrderStatus.eqb negb].
    destruct (order_assignments db oid) as [|x l]; [congruence|reflexivity].
Qed.

(** The guards of updateAssignment that come before the quantity check
    against the order: each fails with its error and writes nothing. *)
Lemma update_guard_errors aid adminId q db :
  (find_assignment db aid = None ->
   updateAssignment aid adminId q db = (Err (createError 404 ASSIGNMENT_NOT_FOUND), db))
  /\ (forall a, find_assignment db aid = Some a ->
      a.(as_status) <> AssignmentStatus.PENDING ->
      updateAssignment aid adminId q db
      = (Err (createError 400 INVALID_ASSIGNMENT_STATUS), db))
  /\ (forall a, find_assignment db aid = Some a ->
      a.(as_status) = AssignmentStatus.PENDING -> q <= 0 ->
      updateAssignment aid adminId q db = (Err (createError 400 INVALID_QUANTITY), db)).
Proof.
  split; [|split].
  - intros Hf; unfold updateAssignment; monad; rewrite Hf; reflexivity.
  - intros a Hf Hs; unfold updateAssignment; monad; rewrite Hf.
    rewrite (assignment_status_neq_guard _ Hs); reflexivity.
  - intros a Hf Hs Hq; unfold updateAssignment; monad; rewrite Hf, Hs.
    cbn [AssignmentStatus.eqb negb].
    replace (q <=? 0) with true by (symmetry; apply Z.leb_le; exact Hq); reflexivity.
Qed.

Lemma create_over_allocation oid adminId data db o :
  find_order db oid = Some o ->
  o.(order_status) = OrderStatus.ALLOCATION ->
  order_assignments db oid = [] ->
  sum_quantities (map aa_assignedQuantity data.(cad_assignments)) > o.(order_quantity) ->
  createDeliveryAssignments oid adminId data db
    = (Err (createError 400 OVER_ALLOCATION), db).
Proof.
  intros Hf Hst Hnone Hover.
  destruct (find_order_some _ _ _ Hf) as [Hid _].
  unfold createDeliveryAssignments; monad; rewrite Hf, Hst, Hid, Hnone; simpl.
  replace (_ >? _) with true by (symmetry; apply Z.gtb_lt; lia).
  reflexivity.
Qed.

Lemma create_conserves oid adminId data db r db' :
  conserved db ->
  createDeliveryAssignments oid adminId data db = (Ok r, db') ->
  conserved db'.
Proof.
  intros Hc H.
  unfold createDeliveryAssignments in H; monad in H.
  destruct (find_order db oid) as [o|] eqn:Hf; monad in H; [|discriminate H].
  destruct (find_order_some _ _ _ Hf) as [Hid _].
  guards H.
  injection H as _ <-.
  match goal with E : (Nat.ltb 0 _) = false |- _ => apply Nat.ltb_ge in E; rename E into Hlen end.
  match goal with E : (_ >? order_quantity o) = false |- _ => rename E into Hq end.
  intros p o' Hf'.
  change (find_order db p = Some o') in Hf'.
  unfold sum_assigned; rewrite order_assignments_insert, map_app, sum_quantities_app.
  destruct (Nat.eq_dec p (order_id o)) as [->|Hne].
  - rewrite Hid in Hf'; rewrite Hf in Hf'; injection Hf' as <-.
    destruct (order_assignments db (order_id o)); [|simpl in Hlen; lia].
    rewrite (filter_ext_in _ (fun _ => true)), filter_true, new_assignments_quantities.
    + rewrite Z.gtb_ltb in Hq; apply Z.ltb_ge in Hq.
      cbn [map]; rewrite sum_quantities_nil; lia.
    + intros x Hx; rewrite (new_assignments_orderId _ _ _ _ Hx); apply Nat.eqb_refl.
  - rewrite filter_none.
    + specialize (Hc p o' Hf'); unfold sum_assigned in Hc.
      cbn [map]; rewrite sum_quantities_nil; lia.
    + intros x Hx; rewrite (new_assignments_orderId _ _ _ _ Hx).
      apply Nat.eqb_neq; congruence.
Qed.

Lemma update_over_allocation aid adminId q db a o :
  find_assignment db aid = Some a ->
  a.(as_status) = AssignmentStatus.PENDING ->
  0 < q ->
  find_order db a.(as_orderId) = Some o ->
  other_assigned db a.(as_orderId) aid + q > o.(order_quantity) ->
  updateAssignment aid adminId q db = (Err (createError 400 OVER_ALLOCATION), db).
Proof.
  intros Hf Hst Hq Ho Hover.
  unfold updateAssignment; monad; rewrite Hf, Hst; simpl.
  replace (q <=? 0) with false by (symmetry; apply Z.leb_gt; lia).
  rewrite Ho; unfold other_assigned in Hover.
  replace (_ >? _) with true by (symmetry; apply Z.gtb_lt; lia).
  reflexivity.
Qed.

Lemma existsb_id_absent aid (g : DeliveryAssignment -> bool) l :
  ~ In aid (map as_id l) -> existsb (fun x => Nat.eqb x.(as_id) aid && g x) l = false.
Proof.
  intros Hn; apply not_true_is_false; intros He.
  apply existsb_exists in He as [x [Hx He]].
  apply andb_prop in He as [He _]; apply Nat.eqb_eq in He.
  apply Hn; rewrite <- He; apply in_map, Hx.
Qed.

Lemma update_filter_sum aid q p l :
  NoDup (map as_id l) ->
  sum_quantities (map as_assignedQuantity
    (filter (fun a => Nat.eqb a.(as_orderId) p)
      (map (fun a => if Nat.eqb a.(as_id) aid then set_assignedQuantity q a else a) l)))
  = sum_quantities (map as_assignedQuantity
      (filter (fun a => Nat.eqb a.(as_orderId) p && negb (Nat.eqb a.(as_id) aid)) l))
    + (if existsb (fun a => Nat.eqb a.(as_id) aid && Nat.eqb a.(as_orderId) p) l
       then q else 0).
Proof.
  induction l as [|x l IH]; intros Hnd; [reflexivity|].
  simpl in Hnd; inversion Hnd as [|? ? Hnotin Hnd']; subst.
  specialize (IH Hnd').
  simpl; destruct (Nat.eqb (as_id x) aid) eqn:Ex; simpl.
  - apply Nat.eqb_eq in Ex; subst aid.
    rewrite existsb_id_absent in IH |- * by exact Hnotin.
    destruct (Nat.eqb (as_orderId x) p); simpl.
    + rewrite sum_quantities_cons, IH; simpl; lia.
    + exact IH.
  - rewrite andb_true_r.
    destruct (Nat.eqb (as_orderId x) p); simpl; [|exact IH].
    rewrite !sum_quantities_cons, IH; simpl; lia.
Qed.

Lemma nodup_same_id l a x :
  NoDup (map as_id l) -> In a l -> In x l -> x.(as_id) = a.(as_id) -> x = a.
Proof.
  induction l as [|y l IH]; intros Hnd Ha Hx Hid; [contradiction|].
  simpl in Hnd; inversion Hnd as [|? ? Hnotin Hnd']; subst.
  destruct Ha as [<-|Ha], Hx as [<-|Hx]; auto.
  - exfalso; apply Hnotin; rewrite <- Hid; apply in_map, Hx.
  - exfalso; apply Hnotin; rewrite Hid; apply in_map, Ha.
Qed.

Lemma update_conserves aid adminId q db r db' :
  NoDup (map as_id db.(assignments)) ->
  conserved db ->
  updateAssignment aid adminId q db = (Ok r, db') ->
  conserved db'.
Proof.
  intros Hnd Hc H.
  unfold updateAssignment in H; monad in H.
  destruct (find_assignment db aid) as [a|] eqn:Hf; monad in H; [|discriminate H].
  destruct (find_assignment_some _ _ _ Hf) as [Hid Hin].
  guards H.
  injection H as _ <-.
  match goal with E : find_order db (as_orderId a) = Some ?o |- _ =>
    rename E into Ho; rename o into ord end.
  match goal with E : (_ >? order_quantity ord) = false |- _ => rename E into Hq end.
  rewrite Z.gtb_ltb in Hq; apply Z.ltb_ge in Hq.
  intros p o' Hf'.
  change (find_order db p = Some o') in Hf'.
  unfold sum_assigned, order_assignments; cbn [update_assignment with_assignments assignments].
  rewrite update_filter_sum by exact Hnd.
  destruct (Nat.eq_dec p (as_orderId a)) as [->|Hne].
  - rewrite Ho in Hf'; injection Hf' as <-.
    replace (existsb _ _) with true.
    + lia.
    + symmetry; apply existsb_exists; exists a; split; [exact Hin|].
      rewrite Hid, !Nat.eqb_refl; reflexivity.
  - replace (existsb _ _) with false.
    + specialize (Hc p o' Hf'); unfold sum_assigned, order_assignments in Hc.
      rewrite (filter_ext_in _ (fun x => Nat.eqb (as_orderId x) p)); [lia|].
      intros x Hx.
      destruct (Nat.eqb (as_orderId x) p) eqn:Ep; simpl; [|reflexivity].
      destruct (Nat.eqb_spec (as_id x) aid) as [Hxid|]; [|reflexivity].
      rewrite (nodup_same_id _ a x Hnd Hin Hx (eq_trans Hxid (eq_sym Hid))) in Ep.
      apply Nat.eqb_eq in Ep; congruence.
    + symmetry; apply not_true_is_false; intros He.
      apply existsb_exists in He as [x [Hx He]].
      apply andb_prop in He as [Hxid Ep]; apply Nat.eqb_eq in Hxid, Ep.
      rewrite (nodup_same_id _ a x Hnd Hin Hx (eq_trans Hxid (eq_sym Hid))) in Ep.
      congruence.
Qed.

(** C1 (as corrected): quantity conservation.  (1) createDeliveryAssignments
    on an existing ALLOCATION order with no assignment, asked for a total above
    the order quantity, fails with OVER_ALLOCATION and changes nothing;
    (2) updateAssignment on an existing PENDING assignment with a positive new
    quantity that, added to the other assignments of the order, exceeds the
    order quantity, fails with OVER_ALLOCATION and changes nothing; (3) and (4)
    every successful createDeliveryAssignments or updateAssignment keeps
    [sum assignedQuantity <= order.quantity] for every order (for the update,
    on a table whose assignment ids are unique, as primary keys are);
    (5) to (10) the guards that come first take precedence, whatever the
    quantities, and change nothing: ORDER_NOT_FOUND, INVALID_ORDER_STATUS and
    ALREADY_ALLOCATED for createDeliveryAssignments, ASSIGNMENT_NOT_FOUND,
    INVALID_ASSIGNMENT_STATUS and INVALID_QUANTITY for updateAssignment. *)
Theorem allocation_conservation :
  (forall oid adminId data db o,
     find_order db oid = Some o ->
     o.(order_status) = OrderStatus.ALLOCATION ->
     order_assignments db oid = [] ->
     sum_quantities (map aa_assignedQuantity data.(cad_assignments)) > o.(order_quantity) ->
     createDeliveryAssignments oid adminId data db
       = (Err (createError 400 OVER_ALLOCATION), db))
  /\ (forall aid adminId q db a o,
     find_assignment db aid = Some a ->
     a.(as_status) = AssignmentStatus.PENDING ->
     0 < q ->
     find_order db a.(as_orderId) = Some o ->
     other_assigned db a.(as_orderId) aid + q > o.(order_quantity) ->
     updateAssignment aid adminId q db = (Err (createError 400 OVER_ALLOCATION), db))
  /\ (forall oid adminId data db r db',
     conserved db ->
     createDeliveryAssignments oid adminId data db = (Ok r, db') ->
     conserved db')
  /\ (forall aid adminId q db r db',
     NoDup (map as_id db.(assignments)) ->
     conserved db ->
     updateAssignment aid adminId q db = (Ok r, db') ->
     conserved db')
  /\ (forall oid adminId data db,
     find_order db oid = None ->
     createDeliveryAssignments oid adminId data db
       = (Err (createError 404 ORDER_NOT_FOUND), db))
  /\ (forall oid adminId data db o,
     find_order db oid = Some o ->
     o.(order_status) <> OrderStatus.ALLOCATION ->
     createDeliveryAssignments oid adminId data db
       = (Err (createError 400 INVALID_ORDER_STATUS), db))
  /\ (forall oid adminId data db o,
     find_order db oid = Some o ->
     o.(order_status) = OrderStatus.ALLOCATION ->
     order_assignments db oid <> [] ->
     createDeliveryAssignments oid adminId data db
       = (Err (createError 400 ALREADY_ALLOCATED), db))
  /\ (forall aid adminId q db,
     find_assignment db aid = None ->
     updateAssignment aid adminId q db = (Err (createError 404 ASSIGNMENT_NOT_FOUND), db))
  /\ (forall aid adminId q db a,
     find_assignment db aid = Some a ->
     a.(as_status) <> AssignmentStatus.PENDING ->
     updateAssignment aid adminId q db
       = (Err (createError 400 INVALID_ASSIGNMENT_STATUS), db))
  /\ (forall aid adminId q db a,
     find_assignment db aid = Some a ->
     a.(as_status) = AssignmentStatus.PENDING ->
     q <= 0 ->
     updateAssignment aid adminId q db = (Err (createError 400 INVALID_QUANTITY), db)).
Proof.
  split; [exact create_over_allocation|].
  split; [exact update_over_allocation|].
  split; [exact create_conserves|].
  split; [exact update_conserves|].
  split; [intros oid adminId data db; exact (proj1 (create_guard_errors oid adminId data db))|].
  split; [intros oid adminId data db; exact (proj1 (proj2 (create_guard_errors oid adminId data db)))|].
  split; [intros oid adminId data db; exact (proj2 (proj2 (create_guard_errors oid adminId data db)))|].
  split; [intros aid adminId q db; exact (proj1 (update_guard_errors aid adminId q db))|].
  split; [intros aid adminId q db; exact (proj1 (proj2 (update_guard_errors aid adminId q db)))|].
  intros aid adminId q db; exact (proj2 (proj2 (update_guard_errors aid adminId q db))).
Qed.

Lemma allocation_conservation_witness :
  createDeliveryAssignments 1 0 (batch [(10%nat, 150)])
    (sample_db OrderStatus.ALLOCATION [])
  = (Err (createError 400 OVER_ALLOCATION), sample_db OrderStatus.ALLOCATION [])
  /\ updateAssignment 100 0 80
       (sample_db OrderStatus.ALLOCATION
          [pending_assignment 100 10 60; pending_assignment 101 11 30])
     = (Err (createError 400 OVER_ALLOCATION),
        sample_db OrderStatus.ALLOCATION
          [pending_assignment 100 10 60; pending_assignment 101 11 30]).
Proof.
  split.
  - apply (proj1 allocation_conservation _ _ _ _ (sample_order OrderStatus.ALLOCATION));
      reflexivity.
  - apply (proj1 (proj2 allocation_conservation) _ _ _ _
             (pending_assignment 100 10 60) (sample_order OrderStatus.ALLOCATION));
      reflexivity.
Defined.

(** C1 counterexample: a request whose total (200) exceeds the order quantity
    (100) on an order that already has an assignment fails with
    ALREADY_ALLOCATED, not OVER_ALLOCATION. *)
Lemma over_allocation_code_counterexample :
  sum_quantities (map aa_assignedQuantity (cad_assignments (batch [(11%nat, 200)])))
    > order_quantity (sample_order OrderStatus.ALLOCATION)
  /\ fst (createDeliveryAssignments 1 0 (batch [(11%nat, 200)])
            (sample_db OrderStatus.ALLOCATION [pending_assignment 100 10 10]))
     = Err (createError 400 ALREADY_ALLOCATED).
Proof. split; reflexivity. Qed.

(** C6 *)

Lemma new_assignments_in fresh o rows x :
  In x (new_assignments fresh o rows) ->
  exists r, In r rows /\ x.(as_assignedQuantity) = r.(aa_assignedQuantity).
Proof.
  revert fresh; induction rows as [|r rows IH]; intros fresh Hin; simpl in Hin;
    [contradiction|].
  destruct Hin as [<-|Hin].
  - exists r; split; [left|]; reflexivity.
  - destruct (IH _ Hin) as [r' [Hr' Hq]]; exists r'; split; [right|]; assumption.
Qed.

(** C6 (as corrected): createDeliveryAssignments itself only checks the batch
    total; the request handler in front of it (createAssignmentsHandler, with
    createAllocationSchema) rejects any batch holding a row with
    [assignedQuantity <= 0] before any write, so every row created through the
    handler is positive; updateAssignment rejects a quantity [<= 0] itself
    with INVALID_QUANTITY.  Hence both keep "every stored assignedQuantity is
    > 0"; and, on any table, a successful handler call only appends rows, all
    with a positive quantity, and a successful updateAssignment only sets the
    quantity of the rows with its id, to a positive value. *)
Theorem assigned_quantity_positive :
  (forall adminId body db row,
     In row body.(cad_assignments) -> row.(aa_assignedQuantity) <= 0 ->
     createAssignmentsHandler adminId body db
       = (Err (createError 400 VALIDATION_ERROR), db))
  /\ (forall adminId body db r db',
     positive_quantities db ->
     createAssignmentsHandler adminId body db = (Ok r, db') ->
     positive_quantities db')
  /\ (forall aid adminId q db r db',
     positive_quantities db ->
     updateAssignment aid adminId q db = (Ok r, db') ->
     positive_quantities db')
  /\ (forall aid adminId q db a,
     find_assignment db aid = Some a ->
     a.(as_status) = AssignmentStatus.PENDING ->
     q <= 0 ->
     updateAssignment aid adminId q db = (Err (createError 400 INVALID_QUANTITY), db))
  /\ (forall adminId body db r db',
     createAssignmentsHandler adminId body db = (Ok r, db') ->
     exists created,
       db'.(assignments) = db.(assignments) ++ created
       /\ forall x, In x created -> 0 < x.(as_assignedQuantity))
  /\ (forall aid adminId q db r db',
     updateAssignment aid adminId q db = (Ok r, db') ->
     db'.(assignments)
       = map (fun a => if Nat.eqb a.(as_id) aid then set_assignedQuantity q a else a)
             db.(assignments)
     /\ 0 < q).
Proof.
  split; [|split; [|split; [|split; [|split]]]].
  - intros adminId body db row Hin Hle.
    unfold createAssignmentsHandler, createAllocationSchema_ok.
    replace (forallb _ _) with false; [rewrite andb_false_r; reflexivity|].
    symmetry; apply not_true_is_false; intros Hall.
    rewrite forallb_forall in Hall; specialize (Hall row Hin).
    apply Z.ltb_lt in Hall; lia.
  - intros adminId body db r db' Hpos H.
    unfold createAssignmentsHandler in H.
    destruct (createAllocationSchema_ok body) eqn:Hok; [|discriminate H].
    unfold createAllocationSchema_ok in Hok; apply andb_prop in Hok as [_ Hall].
    rewrite forallb_forall in Hall.
    unfold createDeliveryAssignments in H; monad in H.
    destruct (find_order db (cad_orderId body)) as [o|]; monad in H; [|discriminate H].
    guards H.
    injection H as _ <-.
    intros x Hx; simpl in Hx; apply in_app_or in Hx as [Hx|Hx]; [exact (Hpos x Hx)|].
    destruct (new_assignments_in _ _ _ _ Hx) as [row [Hrow ->]].
    apply Z.ltb_lt, Hall, Hrow.
  - intros aid adminId q db r db' Hpos H.
    unfold updateAssignment in H; monad in H.
    destruct (find_assignment db aid) as [a|]; monad in H; [|discriminate H].
    guards H.
    injection H as _ <-.
    match goal with E : (q <=? 0) = false |- _ => apply Z.leb_gt in E; rename E into Hq end.
    intros x Hx; simpl in Hx; apply in_map_iff in Hx as [y [<- Hy]].
    destruct (Nat.eqb (as_id y) aid); [exact Hq | exact (Hpos y Hy)].
  - intros aid adminId q db; exact (proj2 (proj2 (update_guard_errors aid adminId q db))).
  - intros adminId body db r db' H.
    unfold createAssignmentsHandler in H.
    destruct (createAllocationSchema_ok body) eqn:Hok; [|discriminate H].
    unfold createAllocationSchema_ok in Hok; apply andb_prop in Hok as [_ Hall].
    rewrite forallb_forall in Hall.
    unfold createDeliveryAssignments in H; monad in H.
    destruct (find_order db (cad_orderId body)) as [o|]; monad in H; [|discriminate H].
    guards H.
    injection H as _ <-.
    eexists; split; [reflexivity|].
    intros x Hx; destruct (new_assignments_in _ _ _ _ Hx) as [row [Hrow ->]].
    apply Z.ltb_lt, Hall, Hrow.
  - intros aid adminId q db r db' H.
    unfold updateAssignment in H; monad in H.
    destruct (find_assignment db aid) as [a|]; monad in H; [|discriminate H].
    guards H.
    injection H as _ <-.
    match goal with E : (q <=? 0) = false |- _ => apply Z.leb_gt in E; rename E into Hq end.
    split; [reflexivity | exact Hq].
Qed.

Lemma assigned_quantity_positive_witness :
  createAssignmentsHandler 0 (batch [(10%nat, 50); (11%nat, 0)])
    (sample_db OrderStatus.ALLOCATION [])
  = (Err (createError 400 VALIDATION_ERROR), sample_db OrderStatus.ALLOCATION []).
Proof.
  apply (proj1 assigned_quantity_positive _ _ _ (mkAllocationAssignment 11 0)).
  - right; left; reflexivity.
  - simpl; lia.
Defined.

(** C6 counterexample: called with the batch [50; 0] on an order of 100,
    createDeliveryAssignments succeeds and stores an assignment of quantity 0. *)
Lemma zero_row_created_counterexample :
  In (mkAssignment 201 1 11 0 1000 7 AssignmentStatus.PENDING None None None None None)
     (assignments (snd (createDeliveryAssignments 1 0 (batch [(10%nat, 50); (11%nat, 0)])
                          (sample_db OrderStatus.ALLOCATION [])))).
Proof. vm_compute; auto. Qed.

(** C10 *)

Lemma find_update_assignment aid f db :
  (forall x, (f x).(as_id) = x.(as_id)) ->
  find_assignment (update_assignment aid f db) aid = option_map f (find_assignment db aid).
Proof.
  intros Hf; unfold find_assignment; simpl.
  induction (assignments db) as [|x l IH]; [reflexivity|]; simpl.
  destruct (Nat.eqb (as_id x) aid) eqn:E; simpl; rewrite ?Hf, E; [reflexivity | exact IH].
Qed.

(** A successful confirmDelivery found the assignment, passed the quantity
    validation, stored [confirm_fields] over it and touched no other
    assignment. *)
Lemma confirmDelivery_ok_shape aid adminId data db u db' :
  confirmDelivery aid adminId data db = (Ok u, db') ->
  exists a,
    find_assignment db aid = Some a
    /\ validateQuantityDelivered a data db = (Ok tt, db)
    /\ u = confirm_fields adminId db.(now) data a
    /\ assignments db'
       = assignments (update_assignment aid (confirm_fields adminId db.(now) data) db).
Proof.
  intros H.
  unfold confirmDelivery in H; monad in H.
  destruct (find_assignment db aid) as [a|] eqn:Hf; [|discriminate].
  destruct (validate_keeps_db a data db) as [[[]|e] Hv]; rewrite Hv in H;
    [|discriminate].
  monad in H.
  rewrite if_or in H.
  set (db1 := update_assignment aid (confirm_fields adminId (now db) data) db) in H.
  exists a; split; [reflexivity|]; split; [exact Hv|].
  match type of H with
  | context [if ?c then _ else _] => destruct c; monad in H
  end.
  - match type of H with
    | context [updatePerformanceScore ?f ?r ?x ?y ?d] =>
        destruct (updatePerformanceScore_shape f r x y d) as (p & b & h & Hp)
    end.
    rewrite Hp in H; monad in H; injection H as <- <-; split; reflexivity.
  - match type of H with
    | context [updatePerformanceScore ?f ?r ?x ?y ?d] =>
        destruct (updatePerformanceScore_shape f r x y d) as (p & b & h & Hp)
    end.
    rewrite Hp in H; monad in H; injection H as <- <-; split; reflexivity.
Qed.

(** C10 (as corrected): confirmDelivery with [delivered = true] and a given
    [quantityDelivered] outside [0 .. assignedQuantity] fails with
    INVALID_QUANTITY and changes nothing; a successful call stores an
    assignment whose status is DELIVERED when [delivered = true] and FAILED
    otherwise, whose quantityDelivered is the given value when one is given
    and otherwise assignedQuantity (delivered) or null (not delivered), and
    which is stamped with the admin and the current time. *)
Theorem confirmDelivery_outcome :
  forall aid adminId data db a,
    find_assignment db aid = Some a ->
    (data.(cd_delivered) = true -> forall q, data.(cd_quantityDelivered) = Some q ->
       q < 0 \/ q > a.(as_assignedQuantity) ->
       confirmDelivery aid adminId data db = (Err (createError 400 INVALID_QUANTITY), db))
    /\ (forall u db', confirmDelivery aid adminId data db = (Ok u, db') ->
       find_assignment db' aid = Some u
       /\ u.(as_status) = (if data.(cd_delivered) then AssignmentStatus.DELIVERED
                           else AssignmentStatus.FAILED)
       /\ u.(as_quantityDelivered)
          = match data.(cd_quantityDelivered) with
            | Some q => Some q
            | None => if data.(cd_delivered) then Some a.(as_assignedQuantity) else None
            end
       /\ (data.(cd_delivered) = true -> forall q, data.(cd_quantityDelivered) = Some q ->
             0 <= q <= a.(as_assignedQuantity))
       /\ u.(as_confirmedBy) = Some adminId
       /\ u.(as_confirmedAt) = Some db.(now)).
Proof.
  intros aid adminId data db a Hf; split.
  - intros Hdel q Hq Hbad.
    unfold confirmDelivery; monad; rewrite Hf; unfold validateQuantityDelivered.
    rewrite Hdel, Hq.
    destruct (Z.ltb_spec q 0); [reflexivity|].
    replace (q >? as_assignedQuantity a) with true by (symmetry; apply Z.gtb_lt; lia).
    reflexivity.
  - intros u db' H.
    destruct (confirmDelivery_ok_shape _ _ _ _ _ _ H) as (a' & Hf' & Hv & -> & Has).
    rewrite Hf in Hf'; injection Hf' as <-.
    split; [|split; [|split; [|split; [|split]]]]; try reflexivity.
    + unfold find_assignment; rewrite Has; fold (find_assignment
        (update_assignment aid (confirm_fields adminId (now db) data) db) aid).
      rewrite find_update_assignment, Hf; reflexivity.
    + intros Hdel q Hq; unfold validateQuantityDelivered in Hv; rewrite Hdel, Hq in Hv.
      destruct (Z.ltb_spec q 0); [discriminate Hv|].
      destruct (Z.gtb_spec q (as_assignedQuantity a)); [discriminate Hv | lia].
Qed.

Lemma confirmDelivery_outcome_witness :
  find_assignment (snd (confirmDelivery 101 0 confirm_failed rollup_db)) 101
  = Some (confirm_fields 0 5000 confirm_failed (pending_assignment 101 11 30)).
Proof.
  refine (proj1 (proj2 (confirmDelivery_outcome 101 0 confirm_failed rollup_db
                          (pending_assignment 101 11 30) _) _ _ _));
    reflexivity.
Defined.

(** C10 counterexample: with [delivered = false] and an explicit
    [quantityDelivered = 5], the stored quantityDelivered is 5, not null. *)
Lemma failed_delivery_quantity_counterexample :
  option_map as_quantityDelivered
    (find_assignment
       (snd (confirmDelivery 101 0 confirm_failed_with_quantity rollup_db)) 101)
  = Some (Some 5).
Proof. vm_compute; reflexivity. Qed.

(** C4 *)

(** C4 (code defect): confirmDelivery has no PENDING guard.  Confirming again
    the DELIVERED assignment of [rollup_db] with [delivered = false] turns it
    into FAILED, drops its quantity and quality, and overwrites confirmedBy and
    confirmedAt. *)
Lemma reconfirmation_changes_assignment :
  find_assignment rollup_db 100 = Some delivered_assignment
  /\ find_assignment (snd (confirmDelivery 100 3 confirm_failed rollup_db)) 100
     = Some (mkAssignment 100 1 10 60 1000 7 AssignmentStatus.FAILED None None None
               (Some 3%nat) (Some 5000)).
Proof. split; vm_compute; reflexivity. Qed.

(** C5 *)

Lemma div_day_le_1 x : x / MS_PER_DAY <= 1 <-> x < 2 * MS_PER_DAY.
Proof.
  assert (Hd : 0 < MS_PER_DAY) by (unfold MS_PER_DAY; lia).
  split; intros H.
  - destruct (Z.lt_ge_cases x (2 * MS_PER_DAY)) as [Hlt|Hge]; [exact Hlt|].
    assert (2 <= x / MS_PER_DAY) by (apply Z.div_le_lower_bound; lia); lia.
  - assert (x / MS_PER_DAY < 2) by (apply Z.div_lt_upper_bound; lia); lia.
Qed.

Lemma is_on_time_within_two_days d : is_on_time d = on_time_within_two_days d.
Proof.
  unfold is_on_time, on_time_within_two_days, is_delivered; cbv zeta.
  destruct (as_confirmedAt d) as [c|].
  - replace ((c - as_deliveryDate d) / MS_PER_DAY <=? 1)
      with (c - as_deliveryDate d <? 2 * MS_PER_DAY).
    + destruct (AssignmentStatus.eqb (as_status d) AssignmentStatus.DELIVERED);
        reflexivity.
    + destruct (Z.leb_spec ((c - as_deliveryDate d) / MS_PER_DAY) 1) as [H|H];
        destruct (Z.ltb_spec (c - as_deliveryDate d) (2 * MS_PER_DAY)) as [H'|H'];
        try reflexivity.
      * apply div_day_le_1 in H; lia.
      * apply div_day_le_1 in H'; lia.
  - destruct (AssignmentStatus.eqb (as_status d) AssignmentStatus.DELIVERED);
      reflexivity.
Qed.

Lemma filter_insert_desc {A} (key : A -> Z) (f : A -> bool) x l :
  length (filter f (insert_desc key x l)) = length (filter f (x :: l)).
Proof.
  induction l as [|y ys IH]; [reflexivity|]; simpl.
  destruct (key y <? key x); [reflexivity|]; simpl.
  destruct (f y); simpl; rewrite IH; simpl; destruct (f x); simpl; lia.
Qed.

Lemma filter_sort_desc {A} (key : A -> Z) (f : A -> bool) l :
  length (filter f (sort_desc key l)) = length (filter f l).
Proof.
  induction l as [|x l IH]; [reflexivity|]; simpl.
  rewrite filter_insert_desc; simpl.
  destruct (f x); simpl; rewrite IH; reflexivity.
Qed.

Lemma length_sort_desc {A} (key : A -> Z) l : length (sort_desc key l) = length l.
Proof.
  pose proof (filter_sort_desc key (fun _ => true) l) as H.
  rewrite !filter_true in H; exact H.
Qed.

(** C5 (as corrected): the on-time component is the rounded percentage, over
    all the farmer's confirmed assignments (DELIVERED or FAILED, with a
    confirmedAt), of those that are DELIVERED and whose
    [floor((confirmedAt - deliveryDate) / 1 day) <= 1], that is, confirmed
    less than two days after the delivery date (FAILED ones count as not on
    time); it is 0 when the farmer has no confirmed assignment. *)
Theorem on_time_score_rule :
  forall db fid,
    let ds := filter (is_confirmed_delivery_of fid) db.(assignments) in
    onTimeDeliveryScore (pd_breakdown (calculatePerformanceScore db fid))
    = if Nat.eqb (length ds) 0 then 0%float
      else js_round (percentage (length (filter on_time_within_two_days ds)) (length ds)).
Proof.
  intros db fid ds.
  unfold calculatePerformanceScore; cbn [pd_breakdown onTimeDeliveryScore].
  unfold calculateOnTimeDeliveryScore, confirmedDeliveries; fold ds.
  rewrite length_sort_desc, filter_sort_desc.
  rewrite (filter_ext _ _ is_on_time_within_two_days); reflexivity.
Qed.

(** C5 counterexample: an assignment confirmed one and a half days after its
    delivery date counts as on time (score 100), where the rule
    [confirmedAt - deliveryDate <= 1 day] gives 0.  And the rounding is that
    of the double [(23 / 40) * 100 = 57.49999999999999]: 23 on-time
    deliveries out of 40 score 57, where the exact percentage 57.5 rounds
    to 58. *)
Lemma late_delivery_on_time_counterexample :
  onTimeDeliveryScore (pd_breakdown
    (calculatePerformanceScore (sample_db OrderStatus.ALLOCATION [late_assignment]) 10))
  = 100%float
  /\ onTimeDeliveryScore_per_spec
       (filter (is_confirmed_delivery_of 10)
          (assignments (sample_db OrderStatus.ALLOCATION [late_assignment])))
  = 0%float
  /\ onTimeDeliveryScore (pd_breakdown (calculatePerformanceScore mixed_db 10)) = 57%float
  /\ Qfloor ((23 # 40) * 100 + (1 # 2)) = 58.
Proof. repeat split; vm_compute; reflexivity. Qed.

(** C9 *)



Lemma find_upsert {A} (key : A -> Id) k v l :
  key v = k -> find (fun x => Nat.eqb (key x) k) (upsert key k v l) = Some v.
Proof.
  intros Hv; unfold upsert.
  destruct (existsb (fun x => Nat.eqb (key x) k) l) eqn:Ex.
  - induction l as [|x l IH]; [discriminate|]; simpl in Ex |- *.
    destruct (Nat.eqb (key x) k) eqn:E; simpl.
    + rewrite Hv, Nat.eqb_refl; reflexivity.
    + rewrite E; apply IH, Ex.
  - induction l as [|x l IH]; simpl in Ex |- *.
    + rewrite Hv, Nat.eqb_refl; reflexivity.
    + apply orb_false_iff in Ex as [Ex1 Ex2]; rewrite Ex1; apply IH, Ex2.
Qed.



Lemma updatePerformanceScore_unfold f r x y db :
  updatePerformanceScore f r x y db =
  let pd := calculatePerformanceScore db f in
  let cur := find (fun p => Nat.eqb p.(fp_farmerId) f) db.(farmerPerformance) in
  let ps := match cur with Some p => p.(fp_score) | None => DEFAULT_BASE_SCORE end in
  let pt := match cur with
            | Some p => p.(fp_tier) | None => PerformanceTier.PROBATIONARY end in
  (Ok tt,
   with_performance
     (upsert fp_farmerId f (mkFarmerPerformance f pd.(pd_score) pd.(pd_tier))
        db.(farmerPerformance))
     (upsert fst f (f, pd.(pd_breakdown)) db.(farmerPerformanceBreakdown))
     (if negb (ps =? pd.(pd_score))%float || negb (PerformanceTier.eqb pt pd.(pd_tier))
      then db.(farmerPerformanceHistory) ++
           [mkHistory f ps pd.(pd_score) pt pd.(pd_tier) r x y db.(now)]
      else db.(farmerPerformanceHistory))
     db).
Proof. reflexivity. Qed.




(** ** Further properties of the services *)

(** *** The sample tables satisfy the invariants *)

Lemma rollup_db_invariant : allocation_invariant rollup_db.
Proof.
  split; [|split; [|split]].
  - intros p o Hf; destruct (find_order_some _ _ _ Hf) as [<- Hin].
    cbn in Hin; destruct Hin as [<-|[]]; vm_compute; discriminate.
  - intros a [<-|[<-|[]]]; reflexivity.
  - intros a [<-|[<-|[]]] Hs; [|discriminate Hs].
    exists 60; split; [reflexivity | cbn; lia].
  - split.
    + constructor; [intros [H|[]]; discriminate H|].
      constructor; [intros []|constructor].
    + intros a [<-|[<-|[]]]; cbn; lia.
Qed.

Lemma empty_allocation_invariant : allocation_invariant (sample_db OrderStatus.ALLOCATION []).
Proof.
  split; [|split; [|split]].
  - intros p o Hf; destruct (find_order_some _ _ _ Hf) as [<- Hin].
    cbn in Hin; destruct Hin as [<-|[]]; vm_compute; discriminate.
  - intros a [].
  - intros a [].
  - split; [constructor | intros a []].
Qed.

Lemma sample_farmers_nodup : NoDup (map farmer_id sample_farmers).
Proof.
  constructor; [intros [H|[]]; discriminate H|].
  constructor; [intros []|constructor].
Qed.

(** *** Sorting and [take] *)

Lemma insert_desc_perm {A} (key : A -> Z) x l :
  Permutation (insert_desc key x l) (x :: l).
Proof.
  induction l as [|y ys IH]; simpl; [reflexivity|].
  destruct (key y <? key x); [reflexivity|].
  eapply perm_trans; [apply perm_skip, IH | apply perm_swap].
Qed.

Lemma sort_desc_perm {A} (key : A -> Z) l : Permutation (sort_desc key l) l.
Proof.
  induction l as [|x l IH]; [reflexivity|].
  change (sort_desc key (x :: l)) with (insert_desc key x (sort_desc key l)).
  eapply perm_trans; [apply insert_desc_perm | apply perm_skip, IH].
Qed.

Lemma insert_desc_hd {A} (key : A -> Z) x y l :
  HdRel (fun a b => key b <= key a) y l -> key x <= key y ->
  HdRel (fun a b => key b <= key a) y (insert_desc key x l).
Proof.
  intros Hd Hxy; destruct l as [|z zs]; simpl; [constructor; exact Hxy|].
  destruct (key z <? key x); constructor; [exact Hxy|].
  inversion Hd; assumption.
Qed.

Lemma insert_desc_sorted {A} (key : A -> Z) x l :
  Sorted (fun a b => key b <= key a) l ->
  Sorted (fun a b => key b <= key a) (insert_desc key x l).
Proof.
  induction l as [|y ys IH]; intros Hs; simpl; [repeat constructor|].
  destruct (Z.ltb_spec (key y) (key x)) as [Hlt|Hge].
  - constructor; [exact Hs | constructor; lia].
  - apply Sorted_inv in Hs as [Hs Hd].
    constructor; [exact (IH Hs) | apply insert_desc_hd; assumption].
Qed.

Lemma sort_desc_sorted {A} (key : A -> Z) l : sorted_desc key (sort_desc key l).
Proof.
  unfold sorted_desc; apply Sorted_StronglySorted; [intros x y z ? ?; lia|].
  induction l as [|x l IH]; [constructor|].
  change (sort_desc key (x :: l)) with (insert_desc key x (sort_desc key l)).
  apply insert_desc_sorted, IH.
Qed.

Lemma in_firstn_in {A} n (l : list A) x : In x (firstn n l) -> In x l.
Proof. intros H; rewrite <- (firstn_skipn n l); apply in_or_app; left; exact H. Qed.

Lemma sorted_desc_firstn {A} (key : A -> Z) n l :
  sorted_desc key l -> sorted_desc key (firstn n l).
Proof.
  unfold sorted_desc; revert l; induction n as [|n IH]; intros l Hs;
    [constructor|].
  destruct l as [|x l]; [constructor|]; simpl.
  apply StronglySorted_inv in Hs as [Hs Hf].
  constructor; [exact (IH _ Hs)|].
  rewrite Forall_forall in Hf |- *; intros y Hy; apply Hf, (in_firstn_in n), Hy.
Qed.

Lemma strongly_sorted_app {A} (R : A -> A -> Prop) l1 l2 :
  StronglySorted R (l1 ++ l2) -> forall x y, In x l1 -> In y l2 -> R x y.
Proof.
  induction l1 as [|z l1 IH]; simpl; intros H x y Hx Hy; [contradiction|].
  apply StronglySorted_inv in H as [H Hf].
  destruct Hx as [<-|Hx]; [|exact (IH H x y Hx Hy)].
  rewrite Forall_forall in Hf; apply Hf, in_or_app; right; exact Hy.
Qed.

(** [orderBy: { key: 'desc' }, take: n] returns [min n (length l)] elements
    of [l], in non-increasing [key] order, and every element it leaves out has
    a key no larger than every element it returns. *)
Lemma take_latest {A} (key : A -> Z) (n : nat) (l : list A) :
  let L := firstn n (sort_desc key l) in
  length L = Nat.min n (length l)
  /\ sorted_desc key L
  /\ exists rest, Permutation l (L ++ rest)
                  /\ forall x y, In x L -> In y rest -> key y <= key x.
Proof.
  intros L; split; [|split].
  - unfold L; rewrite length_firstn, length_sort_desc; reflexivity.
  - apply sorted_desc_firstn, sort_desc_sorted.
  - exists (skipn n (sort_desc key l)); split.
    + unfold L; rewrite firstn_skipn; symmetry; apply sort_desc_perm.
    + intros x y Hx Hy.
      apply (strongly_sorted_app (fun a b => key b <= key a) L
               (skipn n (sort_desc key l))); try assumption.
      unfold L; rewrite firstn_skipn; apply sort_desc_sorted.
Qed.

(** X5: the availability history the score is computed from holds
    [min 8 n] of the farmer's [n] weekly submissions, newest week first, and
    every submission of the farmer it leaves out is for a week no later than
    every one it keeps: these are the 8 latest weeks. *)
Theorem availabilityHistory_latest_weeks :
  forall db fid,
    let S := filter (fun av => Nat.eqb av.(av_farmerId) fid) db.(weeklyAvailability) in
    let L := availabilityHistory db fid in
    length L = Nat.min 8 (length S)
    /\ sorted_desc av_weekStartDate L
    /\ (forall av, In av L -> In av db.(weeklyAvailability) /\ av.(av_farmerId) = fid)
    /\ exists rest, Permutation S (L ++ rest)
                    /\ forall x y, In x L -> In y rest ->
                         y.(av_weekStartDate) <= x.(av_weekStartDate).
Proof.
  intros db fid S L.
  destruct (take_latest av_weekStartDate 8 S) as (Hlen & Hsort & rest & Hperm & Hlat).
  split; [exact Hlen|]; split; [exact Hsort|]; split.
  - intros av Hav.
    assert (Hin : In av S)
      by (apply (Permutation_in _ (Permutation_sym Hperm)), in_or_app; left; exact Hav).
    apply filter_In in Hin as [Hin Heq]; apply Nat.eqb_eq in Heq; auto.
  - exists rest; split; assumption.
Qed.

(** X6: getRecentChanges reads and writes nothing else: it returns, with the
    database unchanged, [min limit n] of the farmer's [n] history rows, newest
    first, and every row of the farmer it leaves out was created no later than
    every row it returns. *)
Theorem getRecentChanges_latest :
  forall fid limit db,
    exists L,
      getRecentChanges fid limit db = (Ok L, db)
      /\ length L = Nat.min limit (length (farmer_history db fid))
      /\ sorted_desc h_createdAt L
      /\ (forall h, In h L -> h.(h_farmerId) = fid)
      /\ exists rest, Permutation (farmer_history db fid) (L ++ rest)
                      /\ forall x y, In x L -> In y rest -> y.(h_createdAt) <= x.(h_createdAt).
Proof.
  intros fid limit db.
  destruct (take_latest h_createdAt limit (farmer_history db fid))
    as (Hlen & Hsort & rest & Hperm & Hlat).
  eexists; split; [reflexivity|].
  split; [exact Hlen|]; split; [exact Hsort|]; split.
  - intros h Hh.
    assert (Hin : In h (farmer_history db fid))
      by (apply (Permutation_in _ (Permutation_sym Hperm)), in_or_app; left; exact Hh).
    apply filter_In in Hin as [_ Heq]; apply Nat.eqb_eq in Heq; exact Heq.
  - exists rest; split; assumption.
Qed.

(** *** A NaN score *)

Lemma Prim2SF_nan : Prim2SF nan = S754_nan.
Proof. reflexivity. Qed.

Lemma float_of_SF x : x = SF2Prim (Prim2SF x).
Proof. symmetry; apply SF2Prim_Prim2SF. Qed.

Lemma nan_add_l x : (nan + x)%float = nan.
Proof. rewrite (float_of_SF (nan + x)), add_spec, Prim2SF_nan; reflexivity. Qed.

Lemma nan_add_r x : (x + nan)%float = nan.
Proof.
  rewrite (float_of_SF (x + nan)), add_spec, Prim2SF_nan.
  destruct (Prim2SF x); reflexivity.
Qed.

Lemma nan_mul_l x : (nan * x)%float = nan.
Proof. rewrite (float_of_SF (nan * x)), mul_spec, Prim2SF_nan; reflexivity. Qed.

Lemma nan_div_l x : (nan / x)%float = nan.
Proof. rewrite (float_of_SF (nan / x)), div_spec, Prim2SF_nan; reflexivity. Qed.


Lemma fold_sum_nan {A} (f : A -> float) l :
  fold_left (fun s d => (s + f d)%float) l nan = nan.
Proof. induction l as [|x l IH]; simpl; [reflexivity|rewrite nan_add_l; exact IH]. Qed.

Lemma fold_sum_nan_member {A} (f : A -> float) l s x :
  In x l -> f x = nan -> fold_left (fun s d => (s + f d)%float) l s = nan.
Proof.
  revert s; induction l as [|y l IH]; intros s Hin Hf; [destruct Hin|].
  destruct Hin as [<-|Hin]; simpl.
  - rewrite Hf, nan_add_r; apply fold_sum_nan.
  - apply IH; assumption.
Qed.

Lemma accuracy_zero_zero d :
  d.(as_quantityDelivered) = Some 0 -> d.(as_assignedQuantity) = 0 -> accuracy d = nan.
Proof. intros Hq Ha; unfold accuracy; rewrite Hq, Ha; vm_compute; reflexivity. Qed.

Lemma nonempty_of_In {A} (x : A) l : In x l -> Nat.eqb (length l) 0 = false.
Proof. destruct l; [intros []|reflexivity]. Qed.

Lemma zero_delivery_quantityAccuracy db fid d :
  In d db.(assignments) -> is_confirmed_delivery_of fid d = true ->
  d.(as_status) = AssignmentStatus.DELIVERED ->
  d.(as_quantityDelivered) = Some 0 -> d.(as_assignedQuantity) = 0 ->
  calculateQuantityAccuracyScore (confirmedDeliveries db fid) = nan.
Proof.
  intros Hin Hc Hs Hq Ha.
  assert (HD : In d (confirmedDeliveries db fid)).
  { unfold confirmedDeliveries.
    apply (Permutation_in _ (Permutation_sym (sort_desc_perm _ _))).
    apply filter_In; split; assumption. }
  assert (HDA : In d (filter has_quantityDelivered (confirmedDeliveries db fid))).
  { apply filter_In; split; [exact HD|].
    unfold has_quantityDelivered; rewrite Hs, Hq; reflexivity. }
  unfold calculateQuantityAccuracyScore.
  rewrite (nonempty_of_In _ _ HD), (nonempty_of_In _ _ HDA).
  cbv zeta.
  rewrite (fold_sum_nan_member accuracy _ _ d HDA (accuracy_zero_zero d Hq Ha)).
  rewrite nan_div_l; reflexivity.
Qed.

Lemma zero_delivery_score db fid d :
  In d db.(assignments) -> is_confirmed_delivery_of fid d = true ->
  d.(as_status) = AssignmentStatus.DELIVERED ->
  d.(as_quantityDelivered) = Some 0 -> d.(as_assignedQuantity) = 0 ->
  (calculatePerformanceScore db fid).(pd_breakdown).(quantityAccuracyScore) = nan
  /\ (calculatePerformanceScore db fid).(pd_score) = nan
  /\ (calculatePerformanceScore db fid).(pd_tier) = PerformanceTier.PROBATIONARY.
Proof.
  intros Hin Hc Hs Hq Ha.
  pose proof (zero_delivery_quantityAccuracy db fid d Hin Hc Hs Hq Ha) as HA.
  unfold calculatePerformanceScore; cbv zeta; cbn [pd_breakdown pd_score pd_tier quantityAccuracyScore].
  rewrite HA, nan_mul_l, nan_add_r, !nan_add_l.
  repeat split; reflexivity.
Qed.

(** X1: a confirmed DELIVERED assignment of the farmer with assignedQuantity 0
    and quantityDelivered 0 contributes [Math.min(100, 0 / 0 * 100)], which is
    NaN; the quantity accuracy score, the rounded and clamped performance score
    are then NaN, and the tier is PROBATIONARY (NaN fails [score >= 50]). *)
Theorem zero_assignment_nan_score :
  forall db fid d,
    In d db.(assignments) -> is_confirmed_delivery_of fid d = true ->
    d.(as_status) = AssignmentStatus.DELIVERED ->
    d.(as_quantityDelivered) = Some 0 -> d.(as_assignedQuantity) = 0 ->
    let pd := calculatePerformanceScore db fid in
    is_nan pd.(pd_breakdown).(quantityAccuracyScore) = true
    /\ is_nan pd.(pd_score) = true
    /\ pd.(pd_tier) = PerformanceTier.PROBATIONARY.
Proof.
  intros db fid d Hin Hc Hs Hq Ha pd.
  destruct (zero_delivery_score db fid d Hin Hc Hs Hq Ha) as (H1 & H2 & H3).
  subst pd; rewrite H1, H2, H3; repeat split.
Qed.

Lemma zero_assignment_nan_score_witness :
  In zero_delivery zero_delivery_db.(assignments)
  /\ is_nan (calculatePerformanceScore zero_delivery_db 10).(pd_score) = true.
Proof.
  split; [left; reflexivity|].
  apply (zero_assignment_nan_score zero_delivery_db 10 zero_delivery);
    [left; reflexivity|reflexivity|reflexivity|reflexivity|reflexivity].
Defined.



(** *** The performance history log *)

Lemma find_map_upsert_other {A} (key : A -> Id) k v g l :
  key v = k -> g <> k ->
  find (fun x => Nat.eqb (key x) g) (map (fun x => if Nat.eqb (key x) k then v else x) l)
  = find (fun x => Nat.eqb (key x) g) l.
Proof.
  intros Hv Hg; induction l as [|x l IH]; [reflexivity|]; simpl.
  destruct (Nat.eqb_spec (key x) k) as [Ek|Ek].
  - rewrite Hv; replace (Nat.eqb k g) with false by (symmetry; apply Nat.eqb_neq; congruence).
    replace (Nat.eqb (key x) g) with false by (symmetry; apply Nat.eqb_neq; congruence).
    exact IH.
  - destruct (Nat.eqb (key x) g); [reflexivity | exact IH].
Qed.

Lemma find_upsert_other {A} (key : A -> Id) k v g l :
  key v = k -> g <> k ->
  find (fun x => Nat.eqb (key x) g) (upsert key k v l) = find (fun x => Nat.eqb (key x) g) l.
Proof.
  intros Hv Hg; unfold upsert.
  destruct (existsb _ l); [apply find_map_upsert_other; assumption|].
  induction l as [|x l IH]; simpl.
  - rewrite Hv; replace (Nat.eqb k g) with false by (symmetry; apply Nat.eqb_neq; congruence).
    reflexivity.
  - destruct (Nat.eqb (key x) g); [reflexivity | exact IH].
Qed.

(** *** Equality of doubles *)

Lemma SFeqb_char x y :
  SFeqb x y = true ->
  (x = y /\ x <> S754_nan) \/ (exists s1 s2, x = S754_zero s1 /\ y = S754_zero s2).
Proof.
  unfold SFeqb, SFcompare.
  destruct x as [s1|s1| |s1 m1 e1], y as [s2|s2| |s2 m2 e2]; intros H;
    try destruct s1; try destruct s2; try discriminate H;
    try (right; eauto; fail); try (left; split; congruence).
  all: match type of H with context [Z.compare ?a ?b] =>
         destruct (Z.compare_spec a b) as [E| |]; [subst|discriminate H|discriminate H] end.
  all:
    match type of H with context [Pos.compare_cont Eq ?a ?b] =>
      change (Pos.compare_cont Eq a b) with (Pos.compare a b) in H;
      destruct (Pos.compare_spec a b) as [E| |]; [subst|discriminate H|discriminate H] end.
  all: left; split; congruence.
Qed.

Lemma SFeqb_refl x : x <> S754_nan -> SFeqb x x = true.
Proof.
  intros Hx; unfold SFeqb, SFcompare.
  destruct x as [s|s| |s m e]; [destruct s; reflexivity | destruct s; reflexivity
    | congruence |].
  rewrite Z.compare_refl.
  change (Pos.compare_cont Eq m m) with (Pos.compare m m); rewrite Pos.compare_refl.
  destruct s; reflexivity.
Qed.

Lemma SFeqb_zeros s1 s2 : SFeqb (S754_zero s1) (S754_zero s2) = true.
Proof. reflexivity. Qed.

Lemma float_eqb_not_nan x y :
  (x =? y)%float = true -> is_nan x = false /\ is_nan y = false.
Proof.
  unfold is_nan; rewrite !eqb_spec; intros H.
  destruct (SFeqb_char _ _ H) as [[E Hn] | (s1 & s2 & E1 & E2)].
  - rewrite <- E, SFeqb_refl by exact Hn; split; reflexivity.
  - rewrite E1, E2; split; reflexivity.
Qed.

Lemma float_eqb_sym x y : (x =? y)%float = (y =? x)%float.
Proof.
  rewrite !eqb_spec.
  destruct (SFeqb (Prim2SF x) (Prim2SF y)) eqn:H1;
    destruct (SFeqb (Prim2SF y) (Prim2SF x)) eqn:H2; try reflexivity.
  - destruct (SFeqb_char _ _ H1) as [[E Hn] | (s1 & s2 & E1 & E2)].
    + rewrite E, SFeqb_refl in H2 by congruence; discriminate.
    + rewrite E1, E2 in H2; discriminate.
  - destruct (SFeqb_char _ _ H2) as [[E Hn] | (s1 & s2 & E1 & E2)].
    + rewrite E, SFeqb_refl in H1 by congruence; discriminate.
    + rewrite E1, E2 in H1; discriminate.
Qed.

Lemma float_eqb_trans x y z :
  (x =? y)%float = true -> (y =? z)%float = true -> (x =? z)%float = true.
Proof.
  rewrite !eqb_spec; intros H1 H2.
  destruct (SFeqb_char _ _ H1) as [[E Hn] | (s1 & s2 & E1 & E2)].
  - rewrite E; exact H2.
  - destruct (SFeqb_char _ _ H2) as [[E Hn] | (s3 & s4 & E3 & E4)].
    + rewrite E1, <- E, E2; reflexivity.
    + rewrite E1, E4; reflexivity.
Qed.

Lemma same_value_zero_refl x : same_value_zero x x = true.
Proof.
  unfold same_value_zero, is_nan; destruct (x =? x)%float; reflexivity.
Qed.

Lemma same_value_zero_sym x y : same_value_zero x y = same_value_zero y x.
Proof. unfold same_value_zero; rewrite float_eqb_sym, andb_comm; reflexivity. Qed.

Lemma same_value_zero_trans x y z :
  same_value_zero x y = true -> same_value_zero y z = true -> same_value_zero x z = true.
Proof.
  unfold same_value_zero; intros H1 H2.
  apply orb_true_iff in H1 as [H1|H1], H2 as [H2|H2].
  - rewrite (float_eqb_trans _ _ _ H1 H2); reflexivity.
  - apply andb_true_iff in H2 as [H2 _].
    rewrite (proj2 (float_eqb_not_nan _ _ H1)) in H2; discriminate.
  - apply andb_true_iff in H1 as [_ H1].
    rewrite (proj1 (float_eqb_not_nan _ _ H2)) in H1; discriminate.
  - apply andb_true_iff in H1 as [H1 _], H2 as [_ H2].
    rewrite H1, H2, orb_true_r; reflexivity.
Qed.

Lemma float_eqb_same_value_zero x y :
  (x =? y)%float = true -> same_value_zero x y = true.
Proof. unfold same_value_zero; intros H; rewrite H; reflexivity. Qed.

Lemma last_entry_snoc {A} (l : list A) x : last_entry (l ++ [x]) = Some x.
Proof.
  induction l as [|a l IH]; [reflexivity|].
  destruct l as [|b l]; [reflexivity|]; exact IH.
Qed.

Lemma chained_snoc l x :
  chained l ->
  (forall y, last_entry l = Some y ->
     same_value_zero x.(h_previousScore) y.(h_newScore) = true
     /\ x.(h_previousTier) = y.(h_newTier)) ->
  chained (l ++ [x]).
Proof.
  induction l as [|h1 t IH]; intros Hc Hl; [exact I|].
  destruct t as [|h2 t'].
  - destruct (Hl h1 eq_refl) as [E1 E2]; simpl; auto.
  - destruct Hc as (E1 & E2 & Hc).
    change (chained (h1 :: h2 :: (t' ++ [x]))).
    split; [exact E1|]; split; [exact E2|].
    apply (IH Hc); intros y Hy; apply Hl; exact Hy.
Qed.

Lemma history_consistent_ext db db1 :
  farmerPerformance db1 = farmerPerformance db ->
  farmerPerformanceHistory db1 = farmerPerformanceHistory db ->
  history_consistent db -> history_consistent db1.
Proof.
  intros Hp Hh Hc; unfold history_consistent, farmer_history, find_performance in *.
  rewrite Hp, Hh; exact Hc.
Qed.

Lemma history_consistent_update f r x y db :
  history_consistent db ->
  history_consistent (snd (updatePerformanceScore f r x y db)).
Proof.
  intros Hc g.
  rewrite updatePerformanceScore_unfold; cbv zeta; cbn [snd].
  set (pd := calculatePerformanceScore db f).
  set (cur := find (fun p => Nat.eqb p.(fp_farmerId) f) db.(farmerPerformance)).
  set (P := upsert fp_farmerId f _ _).
  set (B := upsert fst f _ _).
  assert (HPf : forall h, find_performance (with_performance P B h db) f
                          = Some (mkFarmerPerformance f pd.(pd_score) pd.(pd_tier)))
    by (intros h; apply find_upsert; reflexivity).
  assert (HPg : g <> f -> forall h, find_performance (with_performance P B h db) g
                                   = find_performance db g)
    by (intros Hg h; apply find_upsert_other; [reflexivity | exact Hg]).
  destruct (Hc g) as [Hch Hlast].
  match goal with |- context [with_performance P B (if ?c then _ else _) db] =>
    destruct c eqn:Hcond end.
  - unfold farmer_history at 1 2; cbn [with_performance farmerPerformanceHistory].
    rewrite filter_app; fold (farmer_history db g); cbn [filter h_farmerId].
    destruct (Nat.eqb_spec f g) as [<-|Hg].
    + split.
      * apply chained_snoc; [exact Hch|].
        intros h Hh; destruct (Hlast h Hh) as (p & Hp & Es & Et).
        unfold find_performance in Hp; fold cur in Hp; rewrite Hp; cbn.
        split; assumption.
      * intros h Hh; rewrite last_entry_snoc in Hh; injection Hh as <-.
        eexists; split; [apply HPf|]; split; [apply same_value_zero_refl | reflexivity].
    + rewrite app_nil_r; split; [exact Hch|].
      intros h Hh; rewrite HPg by congruence; exact (Hlast h Hh).
  - apply orb_false_iff in Hcond as [Hs Ht].
    apply negb_false_iff in Hs, Ht.
    apply PerformanceTier.tier_eqb_eq in Ht.
    split; [exact Hch|].
    intros h Hh.
    destruct (Nat.eq_dec g f) as [->|Hg].
    + destruct (Hlast h Hh) as (p & Hp & Es & Et).
      unfold find_performance in Hp; fold cur in Hp.
      rewrite Hp in Hs, Ht; cbn in Hs, Ht.
      eexists; split; [apply HPf|]; cbn; split; [|congruence].
      apply (same_value_zero_trans _ (fp_score p)); [|exact Es].
      rewrite same_value_zero_sym; apply float_eqb_same_value_zero, Hs.
    + rewrite HPg by exact Hg; exact (Hlast h Hh).
Qed.

Lemma try_catch_update f r x y d :
  try_catch (updatePerformanceScore f r x y) d
  = (Ok tt, snd (updatePerformanceScore f r x y d)).
Proof.
  destruct (updatePerformanceScore_shape f r x y d) as (p & b & h & Hp).
  unfold try_catch; rewrite Hp; reflexivity.
Qed.

(** A successful confirmDelivery: the assignment was found and its quantity
    validated; [confirm_fields] was written over it; the order may have been
    set to DELIVERED; the performance of the assignment's farmer was then
    recomputed. *)
Lemma confirmDelivery_decomp aid adminId data db u db' :
  confirmDelivery aid adminId data db = (Ok u, db') ->
  exists a,
    find_assignment db aid = Some a
    /\ validateQuantityDelivered a data db = (Ok tt, db)
    /\ u = confirm_fields adminId db.(now) data a
    /\ exists db1,
         (db1 = update_assignment aid (confirm_fields adminId db.(now) data) db
          \/ db1 = set_order_status u.(as_orderId) OrderStatus.DELIVERED
                     (update_assignment aid (confirm_fields adminId db.(now) data) db))
         /\ db' = snd (updatePerformanceScore u.(as_farmerId) (reason_of data)
                         (Some aid) (Some adminId) db1).
Proof.
  intros H.
  unfold confirmDelivery in H; monad in H.
  destruct (find_assignment db aid) as [a|] eqn:Hf; [|discriminate].
  destruct (validate_keeps_db a data db) as [[[]|e] Hv]; rewrite Hv in H;
    [|discriminate].
  monad in H.
  rewrite if_or in H.
  exists a; split; [reflexivity|]; split; [exact Hv|].
  match type of H with
  | context [if ?c then _ else _] => destruct c; monad in H
  end.
  - match type of H with
    | context [updatePerformanceScore ?f ?r ?x ?y ?d] =>
        destruct (updatePerformanceScore_shape f r x y d) as (p & b & h & Hp)
    end.
    rewrite Hp in H; monad in H; injection H as <- <-.
    split; [reflexivity|]; eexists; split; [right; reflexivity|]; rewrite Hp; reflexivity.
  - match type of H with
    | context [updatePerformanceScore ?f ?r ?x ?y ?d] =>
        destruct (updatePerformanceScore_shape f r x y d) as (p & b & h & Hp)
    end.
    rewrite Hp in H; monad in H; injection H as <- <-.
    split; [reflexivity|]; eexists; split; [left; reflexivity|]; rewrite Hp; reflexivity.
Qed.

Lemma getPerformanceData_unfold fid db :
  getPerformanceData fid db
  = match find_performance db fid with
    | Some p => (Ok (Some p, find_breakdown db fid), db)
    | None =>
        let db' := snd (updatePerformanceScore fid REASON_INITIAL None None db) in
        (Ok (find_performance db' fid, find_breakdown db' fid), db')
    end.
Proof.
  unfold getPerformanceData; monad.
  destruct (find_performance db fid); [reflexivity|].
  destruct (updatePerformanceScore_shape fid REASON_INITIAL None None db) as (p & b & h & Hp).
  rewrite Hp; reflexivity.
Qed.

(** X3: the performance history stays a consistent log.  If, for every
    farmer, each history row starts from the score and tier the previous row
    ended with, and the last row ends at the stored record, then this still
    holds after updatePerformanceScore, after a successful confirmDelivery and
    after getPerformanceData.  Scores are compared as JavaScript's
    SameValueZero does: equal as doubles ([+0] and [-0] alike), or both
    NaN. *)
Theorem performance_history_consistent :
  (forall f r x y db,
     history_consistent db ->
     history_consistent (snd (updatePerformanceScore f r x y db)))
  /\ (forall aid adminId data db u db',
     history_consistent db ->
     confirmDelivery aid adminId data db = (Ok u, db') ->
     history_consistent db')
  /\ (forall fid db,
     history_consistent db ->
     history_consistent (snd (getPerformanceData fid db))).
Proof.
  split; [exact history_consistent_update|]; split.
  - intros aid adminId data db u db' Hc H.
    destruct (confirmDelivery_decomp _ _ _ _ _ _ H) as (a & _ & _ & _ & db1 & Hdb1 & ->).
    apply history_consistent_update.
    apply (history_consistent_ext db); [| |exact Hc];
      destruct Hdb1 as [->| ->]; reflexivity.
  - intros fid db Hc; rewrite getPerformanceData_unfold.
    destruct (find_performance db fid); [exact Hc|].
    apply history_consistent_update, Hc.
Qed.

(** *** Allocation: successful calls and the table invariants *)

Lemma find_map_same_key {A} (key : A -> Id) (f : A -> A) k l :
  (forall x, key (f x) = key x) ->
  find (fun x => Nat.eqb (key x) k) (map f l)
  = option_map f (find (fun x => Nat.eqb (key x) k) l).
Proof.
  intros Hf; induction l as [|x l IH]; [reflexivity|]; simpl.
  rewrite Hf; destruct (Nat.eqb (key x) k); [reflexivity | exact IH].
Qed.

Lemma new_assignments_ids fresh o rows :
  map as_id (new_assignments fresh o rows) = seq fresh (length rows).
Proof.
  revert fresh; induction rows as [|r rows IH]; intros fresh; simpl; [reflexivity|].
  rewrite IH; reflexivity.
Qed.

Lemma length_new_assignments fresh o rows :
  length (new_assignments fresh o rows) = length rows.
Proof. rewrite <- (length_map as_id), new_assignments_ids; apply length_seq. Qed.

Lemma new_assignments_pending fresh o rows x :
  In x (new_assignments fresh o rows) -> x.(as_status) = AssignmentStatus.PENDING.
Proof.
  revert fresh; induction rows as [|r rows IH]; intros fresh Hin; simpl in Hin;
    [contradiction|].
  destruct Hin as [<-|Hin]; [reflexivity | exact (IH _ Hin)].
Qed.

Lemma create_ok oid adminId data db r db' :
  createDeliveryAssignments oid adminId data db = (Ok r, db') ->
  let rows := data.(cad_assignments) in
  let total := sum_quantities (map aa_assignedQuantity rows) in
  exists o,
    find_order db oid = Some o
    /\ o.(order_status) = OrderStatus.ALLOCATION
    /\ order_assignments db oid = []
    /\ 0 < total <= o.(order_quantity)
    /\ length (found_farmers db rows) = length rows
    /\ db' = insert_assignments (new_assignments db.(next_id) o rows) db
    /\ r = mkCreateAllocationResult o (new_assignments db.(next_id) o rows) total
             (o.(order_quantity) - total).
Proof.
  intros H rows total.
  unfold createDeliveryAssignments in H; monad in H.
  destruct (find_order db oid) as [o|] eqn:Hf; monad in H; [|discriminate H].
  destruct (find_order_some _ _ _ Hf) as [Hid _].
  exists o; split; [reflexivity|].
  guards H.
  injection H as <- <-.
  repeat match goal with E : negb _ = false |- _ => apply negb_false_iff in E end.
  match goal with E : OrderStatus.eqb _ _ = true |- _ =>
    apply OrderStatus.order_status_eqb_eq in E; rename E into Hs end.
  match goal with E : Nat.ltb 0 _ = false |- _ => apply Nat.ltb_ge in E; rename E into Hl end.
  match goal with E : (_ >? _) = false |- _ =>
    rewrite Z.gtb_ltb in E; apply Z.ltb_ge in E; rename E into Hq end.
  match goal with E : (_ <=? 0) = false |- _ => apply Z.leb_gt in E; rename E into Hp end.
  match goal with E : Nat.eqb _ _ = true |- _ => apply Nat.eqb_eq in E; rename E into Hn end.
  rewrite length_map in Hn.
  split; [exact Hs|]; split.
  - rewrite <- Hid; destruct (order_assignments db (order_id o)); [reflexivity|].
    simpl in Hl; lia.
  - split; [unfold total, rows; lia|]; split; [exact Hn|]; split; reflexivity.
Qed.

Lemma insert_ids_fresh db o rows :
  ids_fresh db -> ids_fresh (insert_assignments (new_assignments db.(next_id) o rows) db).
Proof.
  intros [Hnd Hlt]; split.
  - cbn [insert_assignments assignments]; rewrite map_app, new_assignments_ids.
    apply NoDup_app; [exact Hnd | apply seq_NoDup |].
    intros i Hi Hs; apply in_seq in Hs.
    apply in_map_iff in Hi as [x [<- Hx]]; specialize (Hlt x Hx); lia.
  - intros x Hx; cbn [insert_assignments assignments next_id] in Hx |- *.
    rewrite length_new_assignments.
    apply in_app_or in Hx as [Hx|Hx]; [specialize (Hlt x Hx); lia|].
    assert (Hs : In (as_id x) (seq (next_id db) (length rows)))
      by (rewrite <- (new_assignments_ids (next_id db) o); apply in_map, Hx).
    apply in_seq in Hs; lia.
Qed.

Lemma insert_delivered_ok db fresh o rows :
  delivered_quantities_ok db ->
  delivered_quantities_ok (insert_assignments (new_assignments fresh o rows) db).
Proof.
  intros Hd x Hx Hs; cbn [insert_assignments assignments] in Hx.
  apply in_app_or in Hx as [Hx|Hx]; [exact (Hd x Hx Hs)|].
  rewrite (new_assignments_pending _ _ _ _ Hx) in Hs; discriminate Hs.
Qed.

Lemma update_assignment_in aid f db x :
  In x (update_assignment aid f db).(assignments) ->
  exists y, In y db.(assignments) /\ x = if Nat.eqb y.(as_id) aid then f y else y.
Proof.
  cbn [update_assignment with_assignments assignments]; intros Hx.
  apply in_map_iff in Hx as [y [<- Hy]]; exists y; auto.
Qed.

Lemma ids_fresh_update aid f db :
  (forall x, (f x).(as_id) = x.(as_id)) ->
  ids_fresh db -> ids_fresh (update_assignment aid f db).
Proof.
  intros Hf [Hnd Hlt].
  assert (Hids : map as_id (update_assignment aid f db).(assignments) = map as_id db.(assignments)).
  { cbn [update_assignment with_assignments assignments]; rewrite map_map.
    apply map_ext; intros x; destruct (Nat.eqb (as_id x) aid); [apply Hf | reflexivity]. }
  split; [rewrite Hids; exact Hnd|].
  intros x Hx; destruct (update_assignment_in _ _ _ _ Hx) as [y [Hy ->]].
  destruct (Nat.eqb (as_id y) aid); rewrite ?Hf; exact (Hlt y Hy).
Qed.

Lemma ids_fresh_ext db db1 :
  assignments db1 = assignments db -> next_id db1 = next_id db ->
  ids_fresh db -> ids_fresh db1.
Proof. intros Ha Hn; unfold ids_fresh; rewrite Ha, Hn; exact (fun H => H). Qed.

Lemma update_ok aid adminId q db r db' :
  updateAssignment aid adminId q db = (Ok r, db') ->
  exists a,
    find_assignment db aid = Some a
    /\ a.(as_status) = AssignmentStatus.PENDING
    /\ 0 < q
    /\ db' = update_assignment aid (set_assignedQuantity q) db
    /\ r = set_assignedQuantity q a.
Proof.
  intros H.
  unfold updateAssignment in H; monad in H.
  destruct (find_assignment db aid) as [a|] eqn:Hf; monad in H; [|discriminate H].
  exists a; split; [reflexivity|].
  guards H.
  injection H as <- <-.
  repeat match goal with E : negb _ = false |- _ => apply negb_false_iff in E end.
  match goal with E : AssignmentStatus.eqb _ _ = true |- _ =>
    apply AssignmentStatus.assignment_status_eqb_eq in E; rename E into Hs end.
  match goal with E : (q <=? 0) = false |- _ => apply Z.leb_gt in E; rename E into Hq end.
  repeat split; assumption.
Qed.

Lemma delete_ok aid adminId db b db' :
  deleteAssignment aid adminId db = (Ok b, db') ->
  exists a,
    find_assignment db aid = Some a
    /\ a.(as_status) = AssignmentStatus.PENDING
    /\ b = true
    /\ db' = with_assignments (filter (fun x => negb (Nat.eqb x.(as_id) aid))
                                 db.(assignments)) db.
Proof.
  intros H.
  unfold deleteAssignment in H; monad in H.
  destruct (find_assignment db aid) as [a|] eqn:Hf; monad in H; [|discriminate H].
  exists a; split; [reflexivity|].
  guards H.
  injection H as <- <-.
  match goal with E : negb _ = false |- _ =>
    apply negb_false_iff, AssignmentStatus.assignment_status_eqb_eq in E end.
  repeat split; assumption.
Qed.

Lemma sum_filter_filter_le (f g : DeliveryAssignment -> bool) l :
  (forall x, In x l -> 0 <= x.(as_assignedQuantity)) ->
  sum_quantities (map as_assignedQuantity (filter f (filter g l)))
  <= sum_quantities (map as_assignedQuantity (filter f l)).
Proof.
  induction l as [|x l IH]; intros Hpos; simpl; [lia|].
  assert (Hx := Hpos x (or_introl eq_refl)).
  assert (IH' := IH (fun y Hy => Hpos y (or_intror Hy))).
  destruct (g x), (f x) eqn:Ef; simpl; rewrite ?Ef; cbn [map];
    rewrite ?sum_quantities_cons; lia.
Qed.

Lemma nodup_map_filter {A B} (k : A -> B) (f : A -> bool) l :
  NoDup (map k l) -> NoDup (map k (filter f l)).
Proof.
  induction l as [|x l IH]; intros Hnd; simpl; [constructor|].
  inversion Hnd as [|? ? Hn Hnd']; subst.
  destruct (f x); [|exact (IH Hnd')].
  constructor; [|exact (IH Hnd')].
  intros Hin; apply Hn; apply in_map_iff in Hin as [y [<- Hy]].
  apply filter_In in Hy as [Hy _]; apply in_map, Hy.
Qed.

Lemma update_assignment_quantities aid f db p :
  (forall x, (f x).(as_orderId) = x.(as_orderId)
             /\ (f x).(as_assignedQuantity) = x.(as_assignedQuantity)) ->
  map as_assignedQuantity (order_assignments (update_assignment aid f db) p)
  = map as_assignedQuantity (order_assignments db p).
Proof.
  intros Hf; unfold order_assignments; cbn [update_assignment with_assignments assignments].
  induction (assignments db) as [|x l IH]; [reflexivity|]; simpl.
  destruct (Nat.eqb (as_id x) aid).
  - destruct (Hf x) as [Eo Eq]; rewrite Eo.
    destruct (Nat.eqb (as_orderId x) p); simpl; rewrite ?Eq, IH; reflexivity.
  - destruct (Nat.eqb (as_orderId x) p); simpl; rewrite ?IH; reflexivity.
Qed.

(** A successful confirmDelivery, table by table: only the confirmed
    assignment and possibly the status of its order change among the
    allocation tables. *)
Lemma confirmDelivery_tables aid adminId data db u db' :
  confirmDelivery aid adminId data db = (Ok u, db') ->
  exists a,
    find_assignment db aid = Some a
    /\ validateQuantityDelivered a data db = (Ok tt, db)
    /\ u = confirm_fields adminId db.(now) data a
    /\ assignments db'
       = assignments (update_assignment aid (confirm_fields adminId db.(now) data) db)
    /\ (orders db' = orders db
        \/ orders db' = orders (set_order_status u.(as_orderId) OrderStatus.DELIVERED db))
    /\ farmers db' = farmers db
    /\ weeklyAvailability db' = weeklyAvailability db
    /\ next_id db' = next_id db.
Proof.
  intros H.
  destruct (confirmDelivery_decomp _ _ _ _ _ _ H) as (a & Hf & Hv & Hu & db1 & Hdb1 & Hdb').
  exists a; split; [exact Hf|]; split; [exact Hv|]; split; [exact Hu|].
  destruct (updatePerformanceScore_shape (as_farmerId u) (reason_of data) (Some aid)
              (Some adminId) db1) as (p & b & h & Hp).
  rewrite Hp in Hdb'; cbn [snd] in Hdb'; subst db'.
  destruct Hdb1 as [-> | ->]; cbn.
  - repeat split; left; reflexivity.
  - repeat split; right; reflexivity.
Qed.

Lemma set_order_status_find oid s db p :
  find_order (with_orders (orders (set_order_status oid s db)) db) p
  = option_map (fun o => if Nat.eqb o.(order_id) oid
                         then mkOrder o.(order_id) o.(order_quantity) o.(order_deliveryDate)
                                o.(order_deliveryAddressId) s
                         else o) (find_order db p).
Proof. apply find_map_same_key; intros o; destruct (Nat.eqb (order_id o) oid); reflexivity. Qed.

(** X2: the request handler createAssignmentsHandler keeps the four table
    invariants of the allocation code: quantities conserved per order,
    positive assigned quantities, delivered quantities within range, unique
    assignment ids below the next fresh id. *)
Theorem createAssignmentsHandler_invariant :
  forall adminId body db r db',
    allocation_invariant db ->
    createAssignmentsHandler adminId body db = (Ok r, db') ->
    allocation_invariant db'.
Proof.
  intros adminId body db r db' (Hc & Hp & Hd & Hi) H.
  unfold createAssignmentsHandler in H.
  destruct (createAllocationSchema_ok body) eqn:Hok; [|discriminate H].
  unfold createAllocationSchema_ok in Hok; apply andb_prop in Hok as [_ Hall].
  rewrite forallb_forall in Hall.
  split; [exact (create_conserves _ _ _ _ _ _ Hc H)|].
  destruct (create_ok _ _ _ _ _ _ H) as (o & _ & _ & _ & _ & _ & -> & _).
  split; [|split; [apply insert_delivered_ok, Hd | apply insert_ids_fresh, Hi]].
  intros x Hx; cbn [insert_assignments assignments] in Hx.
  apply in_app_or in Hx as [Hx|Hx]; [exact (Hp x Hx)|].
  destruct (new_assignments_in _ _ _ _ Hx) as [row [Hrow ->]].
  apply Z.ltb_lt, Hall, Hrow.
Qed.

Lemma createAssignmentsHandler_invariant_witness :
  allocation_invariant
    (snd (createAssignmentsHandler 0 (batch [(10%nat, 50); (11%nat, 40)])
            (sample_db OrderStatus.ALLOCATION []))).
Proof.
  eapply (createAssignmentsHandler_invariant 0 (batch [(10%nat, 50); (11%nat, 40)])
            (sample_db OrderStatus.ALLOCATION []));
    [exact empty_allocation_invariant | vm_compute; reflexivity].
Defined.

(** X7: a successful updateAssignment keeps the four table invariants. *)
Theorem updateAssignment_invariant :
  forall aid adminId q db r db',
    allocation_invariant db ->
    updateAssignment aid adminId q db = (Ok r, db') ->
    allocation_invariant db'.
Proof.
  intros aid adminId q db r db' (Hc & Hp & Hd & Hi) H.
  split; [exact (update_conserves _ _ _ _ _ _ (proj1 Hi) Hc H)|].
  destruct (update_ok _ _ _ _ _ _ H) as (a & Hf & Hs & Hq & -> & _).
  destruct (find_assignment_some _ _ _ Hf) as [Hid Hin].
  split; [|split].
  - intros x Hx; destruct (update_assignment_in _ _ _ _ Hx) as [y [Hy ->]].
    destruct (Nat.eqb (as_id y) aid); [exact Hq | exact (Hp y Hy)].
  - intros x Hx Hxs; destruct (update_assignment_in _ _ _ _ Hx) as [y [Hy ->]].
    destruct (Nat.eqb_spec (as_id y) aid) as [Hya|]; [|exact (Hd y Hy Hxs)].
    rewrite (nodup_same_id _ a y (proj1 Hi) Hin Hy (eq_trans Hya (eq_sym Hid))) in Hxs.
    cbn in Hxs; congruence.
  - apply ids_fresh_update; [reflexivity | exact Hi].
Qed.

Lemma updateAssignment_invariant_witness :
  allocation_invariant (snd (updateAssignment 101 0 35 rollup_db)).
Proof.
  eapply (updateAssignment_invariant 101 0 35 rollup_db);
    [exact rollup_db_invariant | vm_compute; reflexivity].
Defined.

(** X8: a successful deleteAssignment keeps the four table invariants. *)
Theorem deleteAssignment_invariant :
  forall aid adminId db b db',
    allocation_invariant db ->
    deleteAssignment aid adminId db = (Ok b, db') ->
    allocation_invariant db'.
Proof.
  intros aid adminId db b db' (Hc & Hp & Hd & Hi) H.
  destruct (delete_ok _ _ _ _ _ H) as (a & _ & _ & _ & ->).
  split; [|split; [|split]].
  - intros p o Hf; change (find_order db p = Some o) in Hf.
    specialize (Hc p o Hf); unfold sum_assigned, order_assignments in Hc |- *.
    cbn [with_assignments assignments].
    pose proof (sum_filter_filter_le (fun x => Nat.eqb (as_orderId x) p)
                  (fun x => negb (Nat.eqb (as_id x) aid)) (assignments db)) as Hle.
    assert (Hnn : forall x, In x (assignments db) -> 0 <= as_assignedQuantity x)
      by (intros x Hx; specialize (Hp x Hx); lia).
    specialize (Hle Hnn); lia.
  - intros x Hx; apply filter_In in Hx as [Hx _]; exact (Hp x Hx).
  - intros x Hx; apply filter_In in Hx as [Hx _]; exact (Hd x Hx).
  - destruct Hi as [Hnd Hlt]; split.
    + apply nodup_map_filter, Hnd.
    + intros x Hx; apply filter_In in Hx as [Hx _]; exact (Hlt x Hx).
Qed.

Lemma deleteAssignment_invariant_witness :
  allocation_invariant (snd (deleteAssignment 101 0 rollup_db)).
Proof.
  eapply (deleteAssignment_invariant 101 0 rollup_db);
    [exact rollup_db_invariant | vm_compute; reflexivity].
Defined.

(** X9: a successful confirmDelivery keeps the four table invariants: a
    DELIVERED confirmation stores a delivered quantity in
    [0 .. assignedQuantity], and neither quantities, order keys nor ids move. *)
Theorem confirmDelivery_invariant :
  forall aid adminId data db u db',
    allocation_invariant db ->
    confirmDelivery aid adminId data db = (Ok u, db') ->
    allocation_invariant db'.
Proof.
  intros aid adminId data db u db' (Hc & Hp & Hd & Hi) H.
  destruct (confirmDelivery_tables _ _ _ _ _ _ H)
    as (a & Hf & Hv & Hu & Ha & Ho & _ & _ & Hn).
  destruct (find_assignment_some _ _ _ Hf) as [Hid Hin].
  set (F := confirm_fields adminId (now db) data) in *.
  assert (HF : forall x, (F x).(as_orderId) = x.(as_orderId)
                         /\ (F x).(as_assignedQuantity) = x.(as_assignedQuantity))
    by (intros x; split; reflexivity).
  split; [|split; [|split]].
  - intros p o' Hf'.
    assert (Hs : sum_assigned db' p = sum_assigned db p).
    { unfold sum_assigned, order_assignments; rewrite Ha.
      fold (order_assignments (update_assignment aid F db) p).
      rewrite update_assignment_quantities by exact HF; reflexivity. }
    rewrite Hs.
    destruct Ho as [Ho|Ho].
    + apply Hc; unfold find_order in Hf' |- *; rewrite <- Ho; exact Hf'.
    + assert (E : find_order db' p
                  = find_order (with_orders (orders (set_order_status (as_orderId u)
                                 OrderStatus.DELIVERED db)) db) p)
        by (unfold find_order; rewrite Ho; reflexivity).
      rewrite E, set_order_status_find in Hf'.
      destruct (find_order db p) as [o|] eqn:Hfo; [|discriminate Hf'].
      injection Hf' as <-; specialize (Hc p o Hfo).
      destruct (Nat.eqb (order_id o) (as_orderId u)); exact Hc.
  - intros x Hx; rewrite Ha in Hx.
    destruct (update_assignment_in _ _ _ _ Hx) as [y [Hy ->]].
    destruct (Nat.eqb (as_id y) aid); [rewrite (proj2 (HF y))|]; exact (Hp y Hy).
  - intros x Hx Hxs; rewrite Ha in Hx.
    destruct (update_assignment_in _ _ _ _ Hx) as [y [Hy ->]].
    destruct (Nat.eqb_spec (as_id y) aid) as [Hya|]; [|exact (Hd y Hy Hxs)].
    rewrite (nodup_same_id _ a y (proj1 Hi) Hin Hy (eq_trans Hya (eq_sym Hid))) in Hxs |- *.
    unfold F, confirm_fields in Hxs |- *; cbn in Hxs |- *.
    destruct (cd_delivered data) eqn:Hdel; [|discriminate Hxs].
    unfold validateQuantityDelivered in Hv; rewrite Hdel in Hv.
    destruct (cd_quantityDelivered data) as [q|].
    + exists q; split; [reflexivity|].
      destruct (Z.ltb_spec q 0); [discriminate Hv|].
      destruct (Z.gtb_spec q (as_assignedQuantity a)); [discriminate Hv | lia].
    + exists (as_assignedQuantity a); split; [reflexivity|].
      specialize (Hp a Hin); lia.
  - apply (ids_fresh_ext (update_assignment aid F db)); [exact Ha | exact Hn|].
    apply ids_fresh_update; [reflexivity | exact Hi].
Qed.

Lemma confirmDelivery_invariant_witness :
  allocation_invariant
    (snd (confirmDelivery 101 0 (mkConfirmDeliveryData true (Some 25) None None) rollup_db)).
Proof.
  eapply (confirmDelivery_invariant 101 0 (mkConfirmDeliveryData true (Some 25) None None)
            rollup_db);
    [exact rollup_db_invariant | vm_compute; reflexivity].
Defined.

(** X11: a successful createDeliveryAssignments took an ALLOCATION order
    with no assignment and a batch whose total is in [1 .. order.quantity];
    it appends one PENDING row per batch row, in batch order, with fresh
    consecutive ids, the batch's farmer and quantity and the order's delivery
    date and address, and reports the total and [quantity - total >= 0] as
    remaining; no other table is touched. *)
Theorem createDeliveryAssignments_success :
  forall oid adminId data db r db',
    createDeliveryAssignments oid adminId data db = (Ok r, db') ->
    let rows := data.(cad_assignments) in
    let total := sum_quantities (map aa_assignedQuantity rows) in
    exists o,
      find_order db oid = Some o
      /\ o.(order_status) = OrderStatus.ALLOCATION
      /\ order_assignments db oid = []
      /\ 0 < total <= o.(order_quantity)
      /\ assignments db' = assignments db ++ res_assignments r
      /\ map as_id (res_assignments r) = seq db.(next_id) (length rows)
      /\ map (fun a => (a.(as_orderId), a.(as_farmerId), a.(as_assignedQuantity)))
             (res_assignments r)
         = map (fun row => (oid, row.(aa_farmerId), row.(aa_assignedQuantity))) rows
      /\ (forall a, In a (res_assignments r) ->
            a.(as_status) = AssignmentStatus.PENDING
            /\ a.(as_deliveryDate) = o.(order_deliveryDate)
            /\ a.(as_deliveryAddressId) = o.(order_deliveryAddressId))
      /\ res_totalAssigned r = total
      /\ res_remainingQuantity r = o.(order_quantity) - total
      /\ 0 <= res_remainingQuantity r
      /\ orders db' = orders db /\ farmers db' = farmers db
      /\ weeklyAvailability db' = weeklyAvailability db
      /\ farmerPerformance db' = farmerPerformance db
      /\ farmerPerformanceBreakdown db' = farmerPerformanceBreakdown db
      /\ farmerPerformanceHistory db' = farmerPerformanceHistory db
      /\ now db' = now db
      /\ next_id db' = (next_id db + length rows)%nat.
Proof.
  intros oid adminId data db r db' H rows total.
  destruct (create_ok _ _ _ _ _ _ H) as (o & Hf & Hs & Hnone & Ht & _ & -> & ->).
  destruct (find_order_some _ _ _ Hf) as [Hid _].
  exists o; cbn [res_assignments res_totalAssigned res_remainingQuantity
                 insert_assignments assignments orders farmers weeklyAvailability
                 farmerPerformance farmerPerformanceBreakdown farmerPerformanceHistory
                 now next_id].
  do 5 (split; [assumption || reflexivity|]).
  split; [apply new_assignments_ids|].
  split.
  - fold rows; generalize (next_id db); induction rows as [|row rs IH]; intros n;
      [reflexivity|]; cbn [new_assignments map]; rewrite IH, Hid; reflexivity.
  - split.
    + fold rows; generalize (next_id db); induction rows as [|row rs IH]; intros n x Hx;
        [contradiction|]; destruct Hx as [<-|Hx]; [repeat split | exact (IH _ _ Hx)].
    + split; [reflexivity|]; split; [reflexivity|]; split; [lia|].
      do 7 (split; [reflexivity|]); rewrite length_new_assignments; reflexivity.
Qed.

Lemma createDeliveryAssignments_success_witness :
  let d := sample_db OrderStatus.ALLOCATION [] in
  let r := createDeliveryAssignments 1 0 (batch [(10%nat, 50); (11%nat, 40)]) d in
  next_id (snd r) = (next_id d + 2)%nat /\ orders (snd r) = orders d.
Proof.
  intros d r.
  assert (Hr : exists rr, r = (Ok rr, snd r)) by (eexists; vm_compute; reflexivity).
  destruct Hr as [rr Hr].
  destruct (createDeliveryAssignments_success 1 0 (batch [(10%nat, 50); (11%nat, 40)]) d
              rr (snd r) Hr)
    as (o & _ & _ & _ & _ & _ & _ & _ & _ & _ & _ & _ & Ho & _ & _ & _ & _ & _ & _ & Hn).
  split; [exact Hn | exact Ho].
Defined.

Lemma nodup_found_ids db rows :
  NoDup (map farmer_id db.(farmers)) -> NoDup (map farmer_id (found_farmers db rows)).
Proof. apply nodup_map_filter. Qed.

Lemma found_ids_incl db rows :
  incl (map farmer_id (found_farmers db rows)) (map aa_farmerId rows).
Proof.
  intros i Hi; apply in_map_iff in Hi as [f [<- Hf]].
  apply filter_In in Hf as [_ Hf]; apply andb_prop in Hf as [Hf _].
  apply existsb_exists in Hf as [j [Hj Hij]]; apply Nat.eqb_eq in Hij; subst j; exact Hj.
Qed.

Lemma found_all db rows :
  NoDup (map farmer_id db.(farmers)) ->
  length (found_farmers db rows) = length rows ->
  NoDup (map aa_farmerId rows)
  /\ forall row, In row rows ->
       exists f, In f db.(farmers) /\ f.(farmer_id) = row.(aa_farmerId)
                 /\ is_active_user f.(farmer_userStatus) = true.
Proof.
  intros Hnd Hlen.
  assert (Hn := nodup_found_ids db rows Hnd).
  assert (Hl : (length (map aa_farmerId rows) <= length (map farmer_id (found_farmers db rows)))%nat)
    by (rewrite !length_map; lia).
  split.
  - exact (NoDup_incl_NoDup Hn Hl (found_ids_incl db rows)).
  - intros row Hrow.
    assert (Hi : In row.(aa_farmerId) (map farmer_id (found_farmers db rows)))
      by (apply (NoDup_length_incl Hn Hl (found_ids_incl db rows)), in_map, Hrow).
    apply in_map_iff in Hi as [f [Hid Hf]].
    apply filter_In in Hf as [Hf Ha]; apply andb_prop in Ha as [_ Ha].
    exists f; auto.
Qed.

(** X12: with farmer ids unique in the farmers table (a primary key), a
    successful createDeliveryAssignments had a batch naming each farmer at
    most once, every one of them an existing ACTIVE or PROBATIONARY farmer.
    So on an ALLOCATION order with no assignment and a total in
    [1 .. quantity], a batch that names a farmer twice, or one that is
    missing or not active, fails with FARMER_NOT_FOUND and writes nothing. *)
Theorem createDeliveryAssignments_farmers :
  forall oid adminId data db,
    NoDup (map farmer_id db.(farmers)) ->
    (forall r db', createDeliveryAssignments oid adminId data db = (Ok r, db') ->
       NoDup (map aa_farmerId data.(cad_assignments))
       /\ forall row, In row data.(cad_assignments) ->
            exists f, In f db.(farmers) /\ f.(farmer_id) = row.(aa_farmerId)
                      /\ is_active_user f.(farmer_userStatus) = true)
    /\ (forall o,
       find_order db oid = Some o ->
       o.(order_status) = OrderStatus.ALLOCATION ->
       order_assignments db oid = [] ->
       0 < sum_quantities (map aa_assignedQuantity data.(cad_assignments))
         <= o.(order_quantity) ->
       (~ NoDup (map aa_farmerId data.(cad_assignments))
        \/ exists row, In row data.(cad_assignments)
                       /\ forall f, In f db.(farmers) -> f.(farmer_id) = row.(aa_farmerId) ->
                            is_active_user f.(farmer_userStatus) = false) ->
       createDeliveryAssignments oid adminId data db
         = (Err (createError 404 FARMER_NOT_FOUND), db)).
Proof.
  intros oid adminId data db Hnd; split.
  - intros r db' H.
    destruct (create_ok _ _ _ _ _ _ H) as (o & _ & _ & _ & _ & Hlen & _).
    exact (found_all db _ Hnd Hlen).
  - intros o Hf Hs Hnone Ht Hbad.
    destruct (find_order_some _ _ _ Hf) as [Hid _].
    unfold createDeliveryAssignments; monad; rewrite Hf, Hs, Hid, Hnone.
    cbn [OrderStatus.eqb negb length Nat.ltb Nat.leb].
    replace (_ >? _) with false by (symmetry; rewrite Z.gtb_ltb; apply Z.ltb_ge; lia).
    replace (_ <=? 0) with false by (symmetry; apply Z.leb_gt; lia).
    destruct (Nat.eqb_spec (length (found_farmers db (cad_assignments data)))
                (length (map aa_farmerId (cad_assignments data)))) as [Hlen|Hlen].
    + exfalso; rewrite length_map in Hlen.
      destruct (found_all db _ Hnd Hlen) as [Hn Hall].
      destruct Hbad as [Hbad | (row & Hrow & Hno)]; [exact (Hbad Hn)|].
      destruct (Hall row Hrow) as (f & Hf' & Hfid & Ha).
      rewrite (Hno f Hf' Hfid) in Ha; discriminate Ha.
    + unfold found_farmers in Hlen.
      replace (Nat.eqb _ _) with false by (symmetry; apply Nat.eqb_neq; exact Hlen).
      reflexivity.
Qed.

Lemma createDeliveryAssignments_farmers_witness :
  createDeliveryAssignments 1 0 (batch [(10%nat, 50); (10%nat, 40)])
    (sample_db OrderStatus.ALLOCATION [])
  = (Err (createError 404 FARMER_NOT_FOUND), sample_db OrderStatus.ALLOCATION []).
Proof.
  apply (proj2 (createDeliveryAssignments_farmers 1 0 (batch [(10%nat, 50); (10%nat, 40)])
                  (sample_db OrderStatus.ALLOCATION []) sample_farmers_nodup)
               (sample_order OrderStatus.ALLOCATION)).
  - reflexivity.
  - reflexivity.
  - reflexivity.
  - vm_compute; split; [reflexivity | discriminate].
  - left; intros Hnd; inversion Hnd as [|? ? Hn]; apply Hn; left; reflexivity.
Defined.

(** *** Performance records: reads, first calculation and frame *)

(** X4: getPerformanceData returns the stored record and breakdown, writing
    nothing, when the farmer has a record; otherwise it runs
    updatePerformanceScore with the reason 'Initial performance calculation'
    and returns the record and breakdown just computed. *)
Theorem getPerformanceData_result :
  forall fid db,
    (forall p, find_performance db fid = Some p ->
       getPerformanceData fid db = (Ok (Some p, find_breakdown db fid), db))
    /\ (find_performance db fid = None ->
       let pd := calculatePerformanceScore db fid in
       getPerformanceData fid db
       = (Ok (Some (mkFarmerPerformance fid pd.(pd_score) pd.(pd_tier)),
              Some (fid, pd.(pd_breakdown))),
          snd (updatePerformanceScore fid REASON_INITIAL None None db))).
Proof.
  intros fid db; split.
  - intros p Hp; rewrite getPerformanceData_unfold, Hp; reflexivity.
  - intros Hn pd; rewrite getPerformanceData_unfold, Hn; cbv zeta.
    unfold find_performance, find_breakdown.
    rewrite updatePerformanceScore_unfold; cbv zeta; cbn [snd with_performance
      farmerPerformance farmerPerformanceBreakdown].
    rewrite (find_upsert fp_farmerId), (find_upsert fst) by reflexivity.
    reflexivity.
Qed.

Lemma update_other_farmer f r x y db g :
  g <> f ->
  let db' := snd (updatePerformanceScore f r x y db) in
  find_performance db' g = find_performance db g
  /\ find_breakdown db' g = find_breakdown db g
  /\ farmer_history db' g = farmer_history db g.
Proof.
  intros Hg db'; unfold db'; rewrite updatePerformanceScore_unfold; cbv zeta; cbn [snd].
  unfold find_performance, find_breakdown, farmer_history;
    cbn [with_performance farmerPerformance farmerPerformanceBreakdown
         farmerPerformanceHistory].
  rewrite (find_upsert_other fp_farmerId), (find_upsert_other fst) by (reflexivity || exact Hg).
  split; [reflexivity|]; split; [reflexivity|].
  destruct (_ || _); [|reflexivity].
  rewrite filter_app; cbn [filter h_farmerId].
  replace (Nat.eqb f g) with false by (symmetry; apply Nat.eqb_neq; congruence).
  apply app_nil_r.
Qed.

(** X13: what a successful confirmDelivery writes.  The assignments table
    is the old one with [confirm_fields] applied to the row of that id;
    orders other than the assignment's order are unchanged, and that order
    keeps its record or has its status set to DELIVERED; farmers,
    availability and the id counter are unchanged; the performance record,
    breakdown and history of every other farmer are unchanged. *)
Theorem confirmDelivery_frame :
  forall aid adminId data db u db',
    confirmDelivery aid adminId data db = (Ok u, db') ->
    assignments db'
      = map (fun x => if Nat.eqb x.(as_id) aid then confirm_fields adminId db.(now) data x
                      else x) db.(assignments)
    /\ (forall oid, oid <> u.(as_orderId) -> find_order db' oid = find_order db oid)
    /\ (forall o, find_order db u.(as_orderId) = Some o ->
          find_order db' u.(as_orderId) = Some o
          \/ find_order db' u.(as_orderId)
             = Some (mkOrder o.(order_id) o.(order_quantity) o.(order_deliveryDate)
                       o.(order_deliveryAddressId) OrderStatus.DELIVERED))
    /\ farmers db' = farmers db
    /\ weeklyAvailability db' = weeklyAvailability db
    /\ next_id db' = next_id db
    /\ (forall g, g <> u.(as_farmerId) ->
          find_performance db' g = find_performance db g
          /\ find_breakdown db' g = find_breakdown db g
          /\ farmer_history db' g = farmer_history db g).
Proof.
  intros aid adminId data db u db' H.
  destruct (confirmDelivery_tables _ _ _ _ _ _ H)
    as (a & _ & _ & _ & Ha & Ho & Hfa & Hw & Hn).
  split; [exact Ha|].
  assert (Hfo : forall p, find_order db' p
     = find_order db p
       \/ find_order db' p
          = find_order (with_orders (orders (set_order_status (as_orderId u)
                           OrderStatus.DELIVERED db)) db) p).
  { intros p; unfold find_order; destruct Ho as [E|E]; rewrite E; [left|right]; reflexivity. }
  split; [|split; [|split; [exact Hfa|split; [exact Hw|split; [exact Hn|]]]]].
  - intros oid Hne; destruct (Hfo oid) as [E|E]; [exact E|].
    rewrite E, set_order_status_find.
    destruct (find_order db oid) as [o|] eqn:Hf; [|reflexivity]; cbn [option_map].
    destruct (find_order_some _ _ _ Hf) as [Hid _].
    replace (Nat.eqb (order_id o) (as_orderId u)) with false
      by (symmetry; apply Nat.eqb_neq; congruence).
    reflexivity.
  - intros o Hf; destruct (Hfo (as_orderId u)) as [E|E]; [left; rewrite E; exact Hf|].
    right; rewrite E, set_order_status_find, Hf; cbn [option_map].
    destruct (find_order_some _ _ _ Hf) as [Hid _]; rewrite Hid, Nat.eqb_refl; reflexivity.
  - intros g Hg.
    destruct (confirmDelivery_decomp _ _ _ _ _ _ H) as (a' & _ & _ & _ & db1 & Hdb1 & ->).
    destruct (update_other_farmer (as_farmerId u) (reason_of data) (Some aid) (Some adminId)
                db1 g Hg) as (E1 & E2 & E3).
    rewrite E1, E2, E3; destruct Hdb1 as [-> | ->]; (split; [|split]); reflexivity.
Qed.

Lemma confirmDelivery_frame_witness :
  farmers (snd (confirmDelivery 101 0 confirm_failed rollup_db)) = farmers rollup_db.
Proof.
  assert (Hr : exists u, confirmDelivery 101 0 confirm_failed rollup_db
                        = (Ok u, snd (confirmDelivery 101 0 confirm_failed rollup_db)))
    by (eexists; vm_compute; reflexivity).
  destruct Hr as [u Hr].
  destruct (confirmDelivery_frame 101 0 confirm_failed rollup_db u
              (snd (confirmDelivery 101 0 confirm_failed rollup_db)) Hr)
    as (_ & _ & _ & Hf & _).
  exact Hf.
Defined.

Lemma nodup_upsert {A} (key : A -> Id) k v l :
  key v = k -> NoDup (map key l) -> NoDup (map key (upsert key k v l)).
Proof.
  intros Hv Hnd; unfold upsert.
  destruct (existsb (fun x => Nat.eqb (key x) k) l) eqn:Ex.
  - replace (map key (map _ l)) with (map key l); [exact Hnd|].
    rewrite map_map; apply map_ext; intros x.
    destruct (Nat.eqb_spec (key x) k); congruence.
  - rewrite map_app; apply NoDup_app; [exact Hnd | repeat constructor; intros []|].
    intros i Hi [Hk|[]]; subst i.
    apply in_map_iff in Hi as [x [Hx Hin]].
    assert (E : existsb (fun x => Nat.eqb (key x) k) l = true)
      by (apply existsb_exists; exists x; rewrite Hx, Hv; split; [exact Hin | apply Nat.eqb_refl]).
    congruence.
Qed.

Lemma update_one_record f r x y db :
  one_record_per_farmer db ->
  one_record_per_farmer (snd (updatePerformanceScore f r x y db)).
Proof.
  intros [H1 H2]; rewrite updatePerformanceScore_unfold; cbv zeta; cbn [snd].
  cbn [with_performance farmerPerformance farmerPerformanceBreakdown].
  split; apply nodup_upsert; (reflexivity || assumption).
Qed.

(** X14: updatePerformanceScore writes with upsert keyed by farmer, so a
    table with one performance record and one breakdown per farmer keeps that
    shape through updatePerformanceScore, a successful confirmDelivery and
    getPerformanceData. *)
Theorem one_record_per_farmer_kept :
  (forall f r x y db,
     one_record_per_farmer db ->
     one_record_per_farmer (snd (updatePerformanceScore f r x y db)))
  /\ (forall aid adminId data db u db',
     one_record_per_farmer db ->
     confirmDelivery aid adminId data db = (Ok u, db') ->
     one_record_per_farmer db')
  /\ (forall fid db,
     one_record_per_farmer db ->
     one_record_per_farmer (snd (getPerformanceData fid db))).
Proof.
  split; [exact update_one_record|]; split.
  - intros aid adminId data db u db' Hc H.
    destruct (confirmDelivery_decomp _ _ _ _ _ _ H) as (a & _ & _ & _ & db1 & Hdb1 & ->).
    apply update_one_record; destruct Hdb1 as [-> | ->]; exact Hc.
  - intros fid db Hc; rewrite getPerformanceData_unfold.
    destruct (find_performance db fid); [exact Hc|].
    apply update_one_record, Hc.
Qed.

(** *** Failures and guards *)

(** Splits a hypothesis [f ... db = (Err e, db')] over the guards of [f];
    every branch either threw from [db] or did not fail. *)
Ltac err_branches H :=
  repeat (match type of H with
          | context [if ?c then _ else _] => destruct c
          | context [match ?m with Some _ => _ | None => _ end] => destruct m
          end; monad in H);
  first [discriminate H | injection H as _ <-; reflexivity].

Lemma create_err_unchanged oid adminId data db e db' :
  createDeliveryAssignments oid adminId data db = (Err e, db') -> db' = db.
Proof. intros H; unfold createDeliveryAssignments in H; monad in H; err_branches H. Qed.

(** X15: a failed createDeliveryAssignments, createAssignmentsHandler,
    updateAssignment or deleteAssignment writes nothing: every error is
    thrown before the first write. *)
Theorem failed_allocation_calls_write_nothing :
  (forall oid adminId data db e db',
     createDeliveryAssignments oid adminId data db = (Err e, db') -> db' = db)
  /\ (forall adminId body db e db',
     createAssignmentsHandler adminId body db = (Err e, db') -> db' = db)
  /\ (forall aid adminId q db e db',
     updateAssignment aid adminId q db = (Err e, db') -> db' = db)
  /\ (forall aid adminId db e db',
     deleteAssignment aid adminId db = (Err e, db') -> db' = db).
Proof.
  split; [exact create_err_unchanged|]; split; [|split].
  - intros adminId body db e db' H; unfold createAssignmentsHandler in H.
    destruct (createAllocationSchema_ok body);
      [exact (create_err_unchanged _ _ _ _ _ _ H) | injection H as _ <-; reflexivity].
  - intros aid adminId q db e db' H; unfold updateAssignment in H; monad in H;
      err_branches H.
  - intros aid adminId db e db' H; unfold deleteAssignment in H; monad in H;
      err_branches H.
Qed.

(** X16: confirmDelivery fails only when the assignment does not exist
    (ASSIGNMENT_NOT_FOUND) or when [delivered = true] comes with a
    quantityDelivered outside [0 .. assignedQuantity] (INVALID_QUANTITY), and
    then writes nothing. *)
Theorem confirmDelivery_errors :
  forall aid adminId data db e db',
    confirmDelivery aid adminId data db = (Err e, db') ->
    db' = db
    /\ ((find_assignment db aid = None /\ e = createError 404 ASSIGNMENT_NOT_FOUND)
        \/ exists a q,
             find_assignment db aid = Some a
             /\ data.(cd_delivered) = true
             /\ data.(cd_quantityDelivered) = Some q
             /\ (q < 0 \/ q > a.(as_assignedQuantity))
             /\ e = createError 400 INVALID_QUANTITY).
Proof.
  intros aid adminId data db e db' H.
  unfold confirmDelivery in H; monad in H.
  destruct (find_assignment db aid) as [a|] eqn:Hf.
  - destruct (validate_keeps_db a data db) as [[[]|e'] Hv]; rewrite Hv in H; monad in H.
    + exfalso; rewrite if_or in H.
      match type of H with
      | context [if ?c then _ else _] => destruct c; monad in H
      end;
      match type of H with
      | context [updatePerformanceScore ?f ?r ?x ?y ?d] =>
          destruct (updatePerformanceScore_shape f r x y d) as (p & b & h & Hp)
      end; rewrite Hp in H; monad in H; discriminate H.
    + injection H as -> <-; split; [reflexivity|]; right.
      unfold validateQuantityDelivered in Hv.
      destruct (cd_delivered data) eqn:Hd; [|discriminate Hv].
      destruct (cd_quantityDelivered data) as [q|] eqn:Hq; [|discriminate Hv].
      exists a, q; split; [reflexivity|]; split; [reflexivity|]; split; [reflexivity|].
      destruct (Z.ltb_spec q 0).
      * injection Hv as <-; split; [left; exact H|reflexivity].
      * destruct (Z.gtb_spec q (as_assignedQuantity a)); [|discriminate Hv].
        injection Hv as <-; split; [right; lia|reflexivity].
  - injection H as <- <-; split; [reflexivity|]; left; split; reflexivity.
Qed.

Lemma confirmDelivery_errors_witness :
  snd (confirmDelivery 101 0 (mkConfirmDeliveryData true (Some 50) None None) rollup_db)
  = rollup_db.
Proof.
  exact (proj1 (confirmDelivery_errors 101 0 (mkConfirmDeliveryData true (Some 50) None None)
                  rollup_db (createError 400 INVALID_QUANTITY) _ eq_refl)).
Defined.

(** X17: an unknown id is reported before anything else and writes
    nothing: ORDER_NOT_FOUND for createDeliveryAssignments, and
    ASSIGNMENT_NOT_FOUND for updateAssignment, deleteAssignment and
    confirmDelivery, whatever the other arguments. *)
Theorem unknown_id_not_found :
  forall db,
    (forall oid adminId data, find_order db oid = None ->
       createDeliveryAssignments oid adminId data db
       = (Err (createError 404 ORDER_NOT_FOUND), db))
    /\ (forall aid, find_assignment db aid = None ->
       (forall adminId q, updateAssignment aid adminId q db
                          = (Err (createError 404 ASSIGNMENT_NOT_FOUND), db))
       /\ (forall adminId, deleteAssignment aid adminId db
                           = (Err (createError 404 ASSIGNMENT_NOT_FOUND), db))
       /\ (forall adminId data, confirmDelivery aid adminId data db
                                = (Err (createError 404 ASSIGNMENT_NOT_FOUND), db))).
Proof.
  intros db; split.
  - intros oid adminId data Hf; unfold createDeliveryAssignments; monad; rewrite Hf;
      reflexivity.
  - intros aid Hf; split; [|split]; intros;
      unfold updateAssignment, deleteAssignment, confirmDelivery; monad; rewrite Hf;
      reflexivity.
Qed.

Lemma filter_all_true {A} (f : A -> bool) l :
  (forall x, In x l -> f x = true) -> filter f l = l.
Proof.
  intros H; rewrite (filter_ext_in f (fun _ => true)) by exact H; apply filter_true.
Qed.

Lemma delete_filter_sum aid a p l :
  NoDup (map as_id l) -> In a l -> a.(as_id) = aid ->
  sum_quantities (map as_assignedQuantity (filter (fun x => Nat.eqb x.(as_orderId) p) l))
  = sum_quantities (map as_assignedQuantity
      (filter (fun x => Nat.eqb x.(as_orderId) p)
         (filter (fun x => negb (Nat.eqb x.(as_id) aid)) l)))
    + (if Nat.eqb a.(as_orderId) p then a.(as_assignedQuantity) else 0).
Proof.
  intros Hnd Ha <-; induction l as [|x l IH]; [contradiction|].
  simpl in Hnd; inversion Hnd as [|? ? Hn Hnd']; subst.
  cbn [filter].
  destruct (Nat.eqb_spec (as_id x) (as_id a)) as [Ex|Ex]; cbn [negb].
  - assert (x = a) as ->.
    { destruct Ha as [->|Ha]; [reflexivity|].
      exfalso; apply Hn; rewrite Ex; apply in_map, Ha. }
    rewrite (filter_all_true (fun x => negb (Nat.eqb (as_id x) (as_id a))) l).
    + destruct (Nat.eqb (as_orderId a) p); cbn [map];
        rewrite ?sum_quantities_cons; lia.
    + intros y Hy; apply negb_true_iff, Nat.eqb_neq; intros Ey.
      apply Hn; rewrite <- Ey; apply in_map, Hy.
  - destruct Ha as [->|Ha]; [contradiction|].
    specialize (IH Hnd' Ha); cbn [filter].
    destruct (Nat.eqb (as_orderId x) p); cbn [map]; rewrite ?sum_quantities_cons; lia.
Qed.

(** X18: on a table with unique assignment ids, a successful
    deleteAssignment removed exactly the PENDING assignment of that id: its
    order's assigned total drops by the assignment's quantity, every other
    order's total and the orders table are unchanged. *)
Theorem deleteAssignment_effect :
  forall aid adminId db b db',
    NoDup (map as_id db.(assignments)) ->
    deleteAssignment aid adminId db = (Ok b, db') ->
    exists a,
      find_assignment db aid = Some a
      /\ a.(as_status) = AssignmentStatus.PENDING
      /\ b = true
      /\ (forall x, In x db'.(assignments) <-> In x db.(assignments) /\ x <> a)
      /\ sum_assigned db' a.(as_orderId) = sum_assigned db a.(as_orderId) - a.(as_assignedQuantity)
      /\ (forall p, p <> a.(as_orderId) -> sum_assigned db' p = sum_assigned db p)
      /\ orders db' = orders db.
Proof.
  intros aid adminId db b db' Hnd H.
  destruct (delete_ok _ _ _ _ _ H) as (a & Hf & Hs & Hb & ->).
  destruct (find_assignment_some _ _ _ Hf) as [Hid Hin].
  exists a; split; [exact Hf|]; split; [exact Hs|]; split; [exact Hb|].
  split; [|split; [|split; [|reflexivity]]].
  - intros x; cbn [with_assignments assignments]; rewrite filter_In.
    split.
    + intros [Hx Hne]; split; [exact Hx|]; intros ->.
      rewrite Hid, Nat.eqb_refl in Hne; discriminate Hne.
    + intros [Hx Hne]; split; [exact Hx|].
      apply negb_true_iff, Nat.eqb_neq; intros Ex.
      apply Hne, (nodup_same_id _ a x Hnd Hin Hx); congruence.
  - unfold sum_assigned, order_assignments; cbn [with_assignments assignments].
    rewrite (delete_filter_sum aid a (as_orderId a) _ Hnd Hin Hid), Nat.eqb_refl; lia.
  - intros p Hp; unfold sum_assigned, order_assignments; cbn [with_assignments assignments].
    rewrite (delete_filter_sum aid a p _ Hnd Hin Hid).
    replace (Nat.eqb (as_orderId a) p) with false by (symmetry; apply Nat.eqb_neq; congruence).
    lia.
Qed.

Lemma deleteAssignment_effect_witness :
  sum_assigned (snd (deleteAssignment 101 0 rollup_db)) 1 = sum_assigned rollup_db 1 - 30.
Proof.
  destruct (deleteAssignment_effect 101 0 rollup_db true
              (snd (deleteAssignment 101 0 rollup_db))
              (proj1 (proj2 (proj2 (proj2 rollup_db_invariant)))) eq_refl)
    as (a & Hf & _ & _ & _ & Hs & _).
  vm_compute in Hf; injection Hf as <-; exact Hs.
Defined.

Lemma SFleb_finite_pos m1 e1 m2 e2 :
  SFleb (S754_finite false m1 e1) (S754_finite false m2 e2) = true
  <-> (e1 < e2 \/ e1 = e2 /\ Z.pos m1 <= Z.pos m2)%Z.
Proof.
  unfold SFleb, SFcompare.
  destruct (Z.compare_spec e1 e2) as [E|E|E]; [subst| |].
  - change (Pos.compare_cont Eq m1 m2) with (Pos.compare m1 m2).
    destruct (Pos.compare_spec m1 m2) as [F|F|F]; split; intros H; try lia;
      try discriminate H; try reflexivity.
  - split; [lia | reflexivity].
  - split; [discriminate | lia].
Qed.

Lemma SFleb_finite_neg m1 e1 m2 e2 :
  SFleb (S754_finite true m1 e1) (S754_finite true m2 e2) = true
  <-> (e2 < e1 \/ e1 = e2 /\ Z.pos m2 <= Z.pos m1)%Z.
Proof.
  unfold SFleb, SFcompare.
  destruct (Z.compare_spec e1 e2) as [E|E|E]; [subst| |].
  - change (Pos.compare_cont Eq m1 m2) with (Pos.compare m1 m2).
    destruct (Pos.compare_spec m1 m2) as [F|F|F]; split; intros H; try lia;
      try discriminate H; try reflexivity.
  - split; [discriminate | lia].
  - split; [lia | reflexivity].
Qed.

Lemma SFleb_trans x y z : SFleb x y = true -> SFleb y z = true -> SFleb x z = true.
Proof.
  destruct x as [[]|[]| |[] m1 e1], y as [[]|[]| |[] m2 e2], z as [[]|[]| |[] m3 e3];
    intros H1 H2; try reflexivity; try discriminate H1; try discriminate H2.
  - apply SFleb_finite_neg in H1, H2; apply SFleb_finite_neg; lia.
  - apply SFleb_finite_pos in H1, H2; apply SFleb_finite_pos; lia.
Qed.

Lemma float_leb_trans x y z :
  (x <=? y)%float = true -> (y <=? z)%float = true -> (x <=? z)%float = true.
Proof. rewrite !leb_spec; apply SFleb_trans. Qed.

(** X19: determineTier is monotone in the score (for the order [<=] of
    doubles) and its thresholds are 85 (PREFERRED exactly when [85 <= s]) and
    50 (PROBATIONARY exactly when [50 <= s] fails, which includes NaN). *)
Theorem determineTier_monotone :
  forall s s' : float,
    ((s <=? s')%float = true -> tier_rank (determineTier s) <= tier_rank (determineTier s'))
    /\ (determineTier s = PerformanceTier.PREFERRED <-> (85 <=? s)%float = true)
    /\ (determineTier s = PerformanceTier.PROBATIONARY <-> (50 <=? s)%float = false)
    /\ (is_nan s = true -> determineTier s = PerformanceTier.PROBATIONARY).
Proof.
  intros s s'; unfold determineTier, TIER_PREFERRED, TIER_STANDARD.
  split; [|split; [|split]].
  - intros Hle.
    destruct (85 <=? s)%float eqn:H85.
    + rewrite (float_leb_trans _ _ _ H85 Hle); cbn; lia.
    + destruct (50 <=? s)%float eqn:H50.
      * rewrite (float_leb_trans _ _ _ H50 Hle).
        destruct (85 <=? s')%float; cbn; lia.
      * cbn; destruct (85 <=? s')%float, (50 <=? s')%float; cbn; lia.
  - destruct (85 <=? s)%float; [split; reflexivity|].
    destruct (50 <=? s)%float; split; discriminate.
  - destruct (85 <=? s)%float eqn:H85.
    + split; [discriminate|]; intros H50.
      assert (E : (50 <=? 85)%float = true) by reflexivity.
      rewrite (float_leb_trans _ _ _ E H85) in H50; discriminate.
    + destruct (50 <=? s)%float; split; (discriminate || reflexivity).
  - unfold is_nan; intros Hn; apply negb_true_iff in Hn.
    rewrite eqb_spec in Hn; rewrite !leb_spec.
    unfold SFeqb in Hn; unfold SFleb.
    destruct (Prim2SF s) as [[]|[]| |[] m e] eqn:Hs; cbn in Hn |- *;
      try discriminate Hn; try reflexivity.
    all: rewrite Z.compare_refl in Hn;
      change (Pos.compare_cont Eq m m) with (Pos.compare m m) in Hn;
      rewrite Pos.compare_refl in Hn; discriminate.
Qed.

(** *** Reads *)

Lemma insert_asc_perm {A} (key : A -> Z) x l :
  Permutation (insert_asc key x l) (x :: l).
Proof.
  induction l as [|y l IH]; simpl; [reflexivity|].
  destruct (key x <=? key y); [reflexivity|].
  rewrite IH; apply perm_swap.
Qed.

Lemma sort_asc_perm {A} (key : A -> Z) l : Permutation (sort_asc key l) l.
Proof.
  induction l as [|x l IH]; simpl; [reflexivity|].
  rewrite insert_asc_perm; constructor; exact IH.
Qed.

Lemma insert_asc_sorted {A} (key : A -> Z) x l :
  sorted_asc key l -> sorted_asc key (insert_asc key x l).
Proof.
  unfold sorted_asc; induction l as [|y l IH]; intros Hs; simpl.
  - repeat constructor.
  - apply StronglySorted_inv in Hs as [Hs Hy].
    destruct (Z.leb_spec (key x) (key y)).
    + constructor; [constructor; assumption|].
      constructor; [lia|]; apply Forall_forall; intros z Hz.
      rewrite Forall_forall in Hy; specialize (Hy z Hz); lia.
    + constructor; [exact (IH Hs)|].
      apply Forall_forall; intros z Hz.
      apply (Permutation_in _ (insert_asc_perm key x l)) in Hz as [<-|Hz]; [lia|].
      rewrite Forall_forall in Hy; exact (Hy z Hz).
Qed.

Lemma sort_asc_sorted {A} (key : A -> Z) l : sorted_asc key (sort_asc key l).
Proof.
  induction l as [|x l IH]; simpl; [constructor|].
  apply insert_asc_sorted, IH.
Qed.

Lemma insert_asc_app_max {A} (key : A -> Z) x l c :
  key x <= key c -> insert_asc key x (l ++ [c]) = insert_asc key x l ++ [c].
Proof.
  intros Hx; induction l as [|y l IH]; simpl.
  - replace (key x <=? key c) with true by (symmetry; apply Z.leb_le, Hx); reflexivity.
  - destruct (key x <=? key y); [reflexivity|]; rewrite IH; reflexivity.
Qed.

Lemma sort_asc_snoc_max {A} (key : A -> Z) l c :
  (forall x, In x l -> key x <= key c) -> sort_asc key (l ++ [c]) = sort_asc key l ++ [c].
Proof.
  induction l as [|x l IH]; intros H; [reflexivity|].
  cbn [app sort_asc fold_right]; fold (sort_asc key (l ++ [c])); fold (sort_asc key l).
  rewrite IH by (intros y Hy; apply H; right; exact Hy).
  apply insert_asc_app_max, H; left; reflexivity.
Qed.

(** X22: getAllDeliveryAssignments writes nothing and returns exactly the
    assignments matching every given filter (status, order, farmer), each
    once, by delivery date; with no filters, every assignment. *)
Theorem getAllDeliveryAssignments_result :
  forall filters db,
    exists L,
      getAllDeliveryAssignments filters db = (Ok L, db)
      /\ sorted_asc as_deliveryDate L
      /\ (forall flt, filters = Some flt ->
            Permutation L (filter (matches_filters flt) db.(assignments))
            /\ forall x, In x L <->
                 In x db.(assignments)
                 /\ (forall s, flt.(flt_status) = Some s -> x.(as_status) = s)
                 /\ (forall o, flt.(flt_orderId) = Some o -> x.(as_orderId) = o)
                 /\ (forall f, flt.(flt_farmerId) = Some f -> x.(as_farmerId) = f))
      /\ (filters = None -> Permutation L db.(assignments)).
Proof.
  intros filters db; eexists; split; [reflexivity|].
  split; [apply sort_asc_sorted|]; split.
  - intros flt ->; split; [apply sort_asc_perm|].
    intros x; split.
    + intros Hx; apply (Permutation_in _ (sort_asc_perm _ _)), filter_In in Hx as [Hx Hm].
      unfold matches_filters in Hm; apply andb_prop in Hm as [Hm H3];
        apply andb_prop in Hm as [H1 H2].
      split; [exact Hx|]; split; [|split].
      * intros s Hs; rewrite Hs in H1; apply AssignmentStatus.assignment_status_eqb_eq, H1.
      * intros o Ho; rewrite Ho in H2; apply Nat.eqb_eq, H2.
      * intros f Hf; rewrite Hf in H3; apply Nat.eqb_eq, H3.
    + intros (Hx & H1 & H2 & H3).
      apply (Permutation_in _ (Permutation_sym (sort_asc_perm _ _))), filter_In.
      split; [exact Hx|]; unfold matches_filters.
      destruct (flt_status flt) as [s|]; [rewrite (H1 s eq_refl);
        apply andb_true_intro; split; [apply andb_true_intro; split|]|];
        [apply AssignmentStatus.assignment_status_eqb_eq; reflexivity| | |].
      * destruct (flt_orderId flt) as [o|]; [rewrite (H2 o eq_refl); apply Nat.eqb_refl|reflexivity].
      * destruct (flt_farmerId flt) as [f|]; [rewrite (H3 f eq_refl); apply Nat.eqb_refl|reflexivity].
      * cbn [andb].
        destruct (flt_orderId flt) as [o|]; [rewrite (H2 o eq_refl), Nat.eqb_refl|]; cbn [andb];
        (destruct (flt_farmerId flt) as [f|]; [rewrite (H3 f eq_refl); apply Nat.eqb_refl|reflexivity]).
  - intros ->; rewrite sort_asc_perm; cbn [matches_filters flt_status flt_orderId flt_farmerId andb].
    rewrite filter_true; reflexivity.
Qed.

Lemma filter_andb {A} (f g : A -> bool) l :
  filter (fun x => f x && g x) l = filter g (filter f l).
Proof.
  induction l as [|x l IH]; simpl; [reflexivity|].
  destruct (f x); simpl; [destruct (g x); rewrite IH; reflexivity | exact IH].
Qed.

(** X23: getAllocationData writes nothing; its pending orders are exactly
    the orders in ALLOCATION status, each once, by delivery date, each with
    all of its assignments; its farmers are exactly the ACTIVE or
    PROBATIONARY farmers, each with exactly its availability rows for the
    week that starts at the returned current week start. *)
Theorem getAllocationData_result :
  forall getWeekStartDate db,
    exists P F,
      getAllocationData getWeekStartDate db = (Ok (P, F, getWeekStartDate db.(now)), db)
      /\ Permutation (map fst P)
           (filter (fun o => OrderStatus.eqb o.(order_status) OrderStatus.ALLOCATION)
              db.(orders))
      /\ sorted_asc order_deliveryDate (map fst P)
      /\ (forall o A, In (o, A) P -> A = order_assignments db o.(order_id))
      /\ map fst F = filter (fun f => is_active_user f.(farmer_userStatus)) db.(farmers)
      /\ (forall f W, In (f, W) F -> forall av,
            In av W <-> In av db.(weeklyAvailability) /\ av.(av_farmerId) = f.(farmer_id)
                        /\ av.(av_weekStartDate) = getWeekStartDate db.(now)).
Proof.
  intros gws db; do 2 eexists; split; [reflexivity|].
  rewrite map_map; cbn [fst]; rewrite map_id.
  split; [apply sort_asc_perm|]; split; [apply sort_asc_sorted|]; split.
  - intros o A HA; apply in_map_iff in HA as [o' [E _]]; injection E as <- <-; reflexivity.
  - split; [rewrite map_map; apply map_id|].
    intros f W HW av; apply in_map_iff in HW as [f' [E _]]; injection E as <- <-.
    rewrite filter_In; split.
    + intros [Hav Hm]; apply andb_prop in Hm as [H1 H2].
      apply Nat.eqb_eq in H1; apply Z.eqb_eq in H2; auto.
    + intros (Hav & H1 & H2); split; [exact Hav|].
      rewrite H1, H2, Nat.eqb_refl, Z.eqb_refl; reflexivity.
Qed.

(** X20: getPerformanceHistory writes nothing and returns exactly the
    farmer's history rows created at or after the start of the period, each
    once, newest first. *)
Theorem getPerformanceHistory_result :
  forall days_before fid days db,
    let start := days_before db.(now) days in
    exists L,
      getPerformanceHistory days_before fid days db = (Ok L, db)
      /\ sorted_desc h_createdAt L
      /\ Permutation L (filter (fun h => start <=? h.(h_createdAt)) (farmer_history db fid))
      /\ forall h, In h L <-> In h (farmer_history db fid) /\ start <= h.(h_createdAt).
Proof.
  intros days_before fid days db start; eexists; split; [reflexivity|].
  split; [apply sort_desc_sorted|].
  assert (Hp : Permutation
     (sort_desc h_createdAt
        (filter (fun h => Nat.eqb h.(h_farmerId) fid && (start <=? h.(h_createdAt)))
           db.(farmerPerformanceHistory)))
     (filter (fun h => start <=? h.(h_createdAt)) (farmer_history db fid))).
  { rewrite sort_desc_perm; unfold farmer_history; rewrite filter_andb; reflexivity. }
  split; [exact Hp|].
  intros h; split.
  - intros Hh; apply (Permutation_in _ Hp), filter_In in Hh as [Hh Hs].
    apply Z.leb_le in Hs; auto.
  - intros [Hh Hs]; apply (Permutation_in _ (Permutation_sym Hp)), filter_In.
    split; [exact Hh | apply Z.leb_le, Hs].
Qed.

(** X21: getPerformanceTrend writes nothing; its points are those of the
    period's history rows (date, new score, new tier) and, when the farmer
    has a record, the current point (now, score, tier), in date order; when
    every history row of the farmer was created no later than now, the
    current point comes last. *)
Theorem getPerformanceTrend_result :
  forall days_before fid days db,
    let start := days_before db.(now) days in
    let point h := mkTrendPoint h.(h_createdAt) h.(h_newScore) h.(h_newTier) in
    exists T,
      getPerformanceTrend days_before fid days db = (Ok T, db)
      /\ sorted_asc tp_date T
      /\ Permutation T
           (map point (filter (fun h => start <=? h.(h_createdAt)) (farmer_history db fid))
            ++ match find_performance db fid with
               | Some c => [mkTrendPoint db.(now) c.(fp_score) c.(fp_tier)]
               | None => []
               end)
      /\ forall c, find_performance db fid = Some c ->
           (forall h, In h (farmer_history db fid) -> h.(h_createdAt) <= db.(now)) ->
           exists T', T = T' ++ [mkTrendPoint db.(now) c.(fp_score) c.(fp_tier)].
Proof.
  intros days_before fid days db start point.
  set (H := sort_desc h_createdAt
              (filter (fun h => Nat.eqb h.(h_farmerId) fid && (start <=? h.(h_createdAt)))
                 db.(farmerPerformanceHistory))).
  assert (Hp : Permutation H
                 (filter (fun h => start <=? h.(h_createdAt)) (farmer_history db fid))).
  { unfold H; rewrite sort_desc_perm; unfold farmer_history; rewrite filter_andb; reflexivity. }
  eexists; split; [reflexivity|].
  split; [apply sort_asc_sorted|]; split.
  - rewrite sort_asc_perm; fold start; fold H.
    destruct (find_performance db fid);
      [apply Permutation_app_tail | rewrite app_nil_r]; apply Permutation_map, Hp.
  - intros c Hc Hnow; cbv beta; fold start; fold H; rewrite Hc.
    eexists; apply sort_asc_snoc_max.
    intros x Hx; apply in_map_iff in Hx as [h [<- Hh]]; cbn [tp_date].
    apply (Permutation_in _ Hp), filter_In in Hh as [Hh _]; exact (Hnow h Hh).
Qed.

(** ** Properties of the buyer order service *)

Module OrderServiceFacts.
Import OrderService.

Ltac omonad :=
  cbv beta iota zeta delta [OrderService.bind OrderService.get OrderService.put
                            OrderService.ret OrderService.throw].
Tactic Notation "omonad" "in" hyp(H) :=
  cbv beta iota zeta delta [OrderService.bind OrderService.get OrderService.put
                            OrderService.ret OrderService.throw] in H.

Lemma find_update_order oid r l :
  r.(bo_id) = oid ->
  (exists o, find (fun o => Nat.eqb o.(bo_id) oid) l = Some o) ->
  find (fun o => Nat.eqb o.(bo_id) oid) (update_order oid r l) = Some r.
Proof.
  intros Hr [o Ho]; unfold update_order; induction l as [|x l IH]; [discriminate Ho|].
  cbn in Ho |- *; destruct (Nat.eqb (bo_id x) oid) eqn:Hx.
  - rewrite Hr, Nat.eqb_refl; reflexivity.
  - rewrite Hx; exact (IH Ho).
Qed.

Lemma in_update_order oid r l x :
  In x (update_order oid r l) -> x.(bo_id) = oid -> x = r.
Proof.
  unfold update_order; intros Hx; apply in_map_iff in Hx as [y [<- _]].
  destruct (Nat.eqb (bo_id y) oid) eqn:E; [reflexivity|].
  intros Hid; apply Nat.eqb_neq in E; contradiction.
Qed.

Lemma update_order_ids oid r l :
  r.(bo_id) = oid -> map bo_id (update_order oid r l) = map bo_id l.
Proof.
  intros Hr; unfold update_order; rewrite map_map; apply map_ext; intros x.
  destruct (Nat.eqb (bo_id x) oid) eqn:E; [apply Nat.eqb_eq in E; congruence|reflexivity].
Qed.

Lemma update_order_fresh st oid r :
  r.(bo_id) = oid -> order_ids_fresh st ->
  order_ids_fresh (with_buyerOrders (update_order oid r st.(buyerOrders)) st).
Proof.
  intros Hr [Hn Hlt]; unfold order_ids_fresh, with_buyerOrders;
    cbn [buyerOrders store_next_id]; split.
  - rewrite update_order_ids by exact Hr; exact Hn.
  - intros x Hx; unfold update_order in Hx; apply in_map_iff in Hx as [y [<- Hy]].
    destruct (Nat.eqb (bo_id y) oid) eqn:E; [|exact (Hlt y Hy)].
    apply Nat.eqb_eq in E; rewrite Hr, <- E; exact (Hlt y Hy).
Qed.

Lemma append_order_fresh st o :
  o.(bo_id) = st.(store_next_id) -> order_ids_fresh st ->
  order_ids_fresh (mkStore st.(buyers) st.(deliveryAddresses)
                     (st.(buyerOrders) ++ [o]) st.(store_now) (S st.(store_next_id))).
Proof.
  intros Ho [Hn Hlt]; unfold order_ids_fresh; cbn [buyerOrders store_next_id]; split.
  - rewrite map_app; cbn [map].
    apply (Permutation_NoDup (Permutation_cons_append _ _)); constructor; [|exact Hn].
    intros Hin; apply in_map_iff in Hin as [y [Hy Hin]].
    specialize (Hlt y Hin); lia.
  - intros x Hx; apply in_app_or in Hx as [Hx|[<-|[]]]; [specialize (Hlt x Hx); lia | lia].
Qed.

Lemma find_andb {A} (f g : A -> bool) l x :
  find f l = Some x -> g x = true -> find (fun y => f y && g y) l = Some x.
Proof.
  induction l as [|y l IH]; cbn; [discriminate|].
  destruct (f y) eqn:Fy; cbn.
  - intros [= <-] Gx; rewrite Gx; reflexivity.
  - exact IH.
Qed.

Lemma nodup_same_order_id l a x :
  NoDup (map bo_id l) -> In a l -> In x l -> x.(bo_id) = a.(bo_id) -> x = a.
Proof.
  induction l as [|y l IH]; intros Hnd Ha Hx Hid; [contradiction|].
  inversion Hnd as [|? ? Hy Hnd']; subst.
  destruct Ha as [<-|Ha], Hx as [<-|Hx]; auto.
  - exfalso; apply Hy; rewrite <- Hid; apply in_map; exact Hx.
  - exfalso; apply Hy; rewrite Hid; apply in_map; exact Ha.
Qed.

Lemma decision_shape trim st oid adminId r st' :
  ((exists notes, approveOrder trim oid adminId notes st = (Ok r, st'))
   \/ (exists reason, rejectOrder trim oid adminId reason st = (Ok r, st'))) ->
  (exists o, find_buyer_order st oid = Some o)
  /\ r.(bo_id) = oid
  /\ r.(bo_status) <> OrderStatus.PENDING
  /\ st' = with_buyerOrders (update_order oid r st.(buyerOrders)) st.
Proof.
  intros [[notes H]|[reason H]].
  - unfold approveOrder in H; omonad in H.
    destruct (find_buyer_order st oid) as [o|] eqn:Ho; omonad in H; [|discriminate H].
    destruct (OrderStatus.eqb (bo_status o) OrderStatus.PENDING); cbn [negb] in H;
      omonad in H; [|discriminate H].
    destruct (find_buyer st (bo_buyerId o)) as [b|]; omonad in H; [|discriminate H].
    destruct (is_user_suspended (buyer_userStatus b)); omonad in H; [discriminate H|].
    injection H as <- <-.
    apply find_some in Ho as [_ Hid]; apply Nat.eqb_eq in Hid.
    split; [exists o; reflexivity|]; cbn; split; [exact Hid|]; split; [discriminate|reflexivity].
  - unfold rejectOrder in H; omonad in H.
    destruct (find_buyer_order st oid) as [o|] eqn:Ho; omonad in H; [|discriminate H].
    destruct (OrderStatus.eqb (bo_status o) OrderStatus.PENDING); cbn [negb] in H;
      omonad in H; [|discriminate H].
    injection H as <- <-.
    apply find_some in Ho as [_ Hid]; apply Nat.eqb_eq in Hid.
    split; [exists o; reflexivity|]; cbn; split; [exact Hid|]; split; [discriminate|reflexivity].
Qed.

(** X24: a successful createOrder was made by an existing ACTIVE buyer, for
    a delivery address of that buyer, a positive quantity and a delivery
    date after now.  It appends one PENDING order, with the next fresh id,
    created now and neither approved nor rejected, and changes nothing else.
    It keeps order ids unique and below the next id. *)
Theorem createOrder_success :
  forall trim buyerId data st o st',
    createOrder trim buyerId data st = (Ok o, st') ->
    exists b,
      find_buyer_by_user st buyerId = Some b
      /\ b.(buyer_userStatus) = UserStatus.ACTIVE
      /\ o.(bo_id) = st.(store_next_id)
      /\ o.(bo_buyerId) = b.(buyer_id)
      /\ o.(bo_deliveryAddressId) = data.(cod_deliveryAddressId)
      /\ (exists a, find_address st o.(bo_deliveryAddressId) o.(bo_buyerId) = Some a)
      /\ o.(bo_quantity) = data.(cod_quantity) /\ 0 < o.(bo_quantity)
      /\ o.(bo_deliveryDate) = data.(cod_deliveryDate)
      /\ st.(store_now) < o.(bo_deliveryDate)
      /\ o.(bo_status) = OrderStatus.PENDING
      /\ o.(bo_createdAt) = st.(store_now)
      /\ o.(bo_approvedAt) = None /\ o.(bo_approvedBy) = None
      /\ o.(bo_rejectionReason) = None
      /\ st'.(buyerOrders) = st.(buyerOrders) ++ [o]
      /\ st'.(buyers) = st.(buyers)
      /\ st'.(deliveryAddresses) = st.(deliveryAddresses)
      /\ st'.(store_next_id) = S st.(store_next_id)
      /\ (order_ids_fresh st -> order_ids_fresh st').
Proof.
  intros trim buyerId data st o st' H.
  unfold createOrder in H; omonad in H.
  destruct (find_buyer_by_user st buyerId) as [b|] eqn:Hb; omonad in H; [|discriminate H].
  destruct (is_user_active (buyer_userStatus b)) eqn:Ha; cbn [negb] in H; omonad in H;
    [|discriminate H].
  destruct (find_address st (cod_deliveryAddressId data) (buyer_id b)) as [a|] eqn:Had;
    omonad in H; [|discriminate H].
  destruct (cod_quantity data <=? 0) eqn:Hq; omonad in H; [discriminate H|].
  destruct (cod_deliveryDate data <=? store_now st) eqn:Hd; omonad in H; [discriminate H|].
  injection H as <- <-.
  apply Z.leb_gt in Hq, Hd.
  exists b; cbn [bo_id bo_buyerId bo_deliveryAddressId bo_quantity bo_deliveryDate
                 bo_status bo_createdAt bo_approvedAt bo_approvedBy bo_rejectionReason
                 buyerOrders buyers deliveryAddresses store_next_id].
  do 2 (split; [first [reflexivity | destruct (buyer_userStatus b); easy]|]).
  do 3 (split; [reflexivity|]).
  split; [exists a; exact Had|].
  split; [reflexivity|]; split; [exact Hq|].
  split; [reflexivity|]; split; [exact Hd|].
  do 9 (split; [reflexivity|]).
  apply append_order_fresh; reflexivity.
Qed.

Lemma createOrder_success_witness :
  exists o st',
    createOrder (fun s => s) 7 (sample_order_data 5 2000) sample_store = (Ok o, st')
    /\ o.(bo_id) = 30%nat /\ o.(bo_status) = OrderStatus.PENDING.
Proof.
  assert (H : exists o st',
             createOrder (fun s => s) 7 (sample_order_data 5 2000) sample_store = (Ok o, st'))
    by (eexists; eexists; vm_compute; reflexivity).
  destruct H as (o & st' & H); exists o, st'; split; [exact H|].
  destruct (createOrder_success (fun s => s) 7 (sample_order_data 5 2000) sample_store o st' H)
    as (b & _ & _ & Hid & _ & _ & _ & _ & _ & _ & _ & Hs & _).
  split; [exact Hid | exact Hs].
Defined.

(** X25: createOrder checks, in this order, that the buyer exists
    (BUYER_NOT_FOUND), is ACTIVE (BUYER_NOT_ACTIVE, also for a
    PROBATIONARY buyer), owns the delivery address (ADDRESS_NOT_FOUND), asks
    for a positive quantity (INVALID_QUANTITY) and a delivery date after now
    (INVALID_DELIVERY_DATE).  Every failure is one of these, and each of
    these conditions, the earlier ones passing, makes the call fail with its
    error.  A failed call writes nothing. *)
Theorem createOrder_errors :
  forall trim buyerId data st,
    (forall e st',
      createOrder trim buyerId data st = (Err e, st') ->
      st' = st
      /\ ((find_buyer_by_user st buyerId = None /\ e = orderError 404 BUYER_NOT_FOUND)
          \/ exists b,
               find_buyer_by_user st buyerId = Some b
               /\ ((b.(buyer_userStatus) <> UserStatus.ACTIVE
                    /\ e = orderError 403 BUYER_NOT_ACTIVE)
                   \/ (b.(buyer_userStatus) = UserStatus.ACTIVE
                       /\ ((find_address st data.(cod_deliveryAddressId) b.(buyer_id) = None
                            /\ e = orderError 404 ADDRESS_NOT_FOUND)
                           \/ ((exists a, find_address st data.(cod_deliveryAddressId)
                                            b.(buyer_id) = Some a)
                               /\ ((data.(cod_quantity) <= 0
                                    /\ e = orderError 400 INVALID_QUANTITY)
                                   \/ (0 < data.(cod_quantity)
                                       /\ data.(cod_deliveryDate) <= st.(store_now)
                                       /\ e = orderError 400 INVALID_DELIVERY_DATE))))))))
    /\ (find_buyer_by_user st buyerId = None ->
        createOrder trim buyerId data st = (Err (orderError 404 BUYER_NOT_FOUND), st))
    /\ (forall b, find_buyer_by_user st buyerId = Some b ->
        b.(buyer_userStatus) <> UserStatus.ACTIVE ->
        createOrder trim buyerId data st = (Err (orderError 403 BUYER_NOT_ACTIVE), st))
    /\ (forall b, find_buyer_by_user st buyerId = Some b ->
        b.(buyer_userStatus) = UserStatus.ACTIVE ->
        find_address st data.(cod_deliveryAddressId) b.(buyer_id) = None ->
        createOrder trim buyerId data st = (Err (orderError 404 ADDRESS_NOT_FOUND), st))
    /\ (forall b a, find_buyer_by_user st buyerId = Some b ->
        b.(buyer_userStatus) = UserStatus.ACTIVE ->
        find_address st data.(cod_deliveryAddressId) b.(buyer_id) = Some a ->
        data.(cod_quantity) <= 0 ->
        createOrder trim buyerId data st = (Err (orderError 400 INVALID_QUANTITY), st))
    /\ (forall b a, find_buyer_by_user st buyerId = Some b ->
        b.(buyer_userStatus) = UserStatus.ACTIVE ->
        find_address st data.(cod_deliveryAddressId) b.(buyer_id) = Some a ->
        0 < data.(cod_quantity) ->
        data.(cod_deliveryDate) <= st.(store_now) ->
        createOrder trim buyerId data st
        = (Err (orderError 400 INVALID_DELIVERY_DATE), st)).
Proof.
  intros trim buyerId data st.
  split; [|split; [|split; [|split; [|split]]]].
  - intros e st' H.
    unfold createOrder in H; omonad in H.
    destruct (find_buyer_by_user st buyerId) as [b|] eqn:Hb; omonad in H;
      [|injection H as <- <-; split; [reflexivity|left; split; reflexivity]].
    destruct (is_user_active (buyer_userStatus b)) eqn:Ha; cbn [negb] in H; omonad in H;
      [|injection H as <- <-; split; [reflexivity|right; exists b; split; [reflexivity|left]];
        split; [intros E; rewrite E in Ha; discriminate Ha|reflexivity]].
    assert (Hact : buyer_userStatus b = UserStatus.ACTIVE)
      by (destruct (buyer_userStatus b); easy).
    destruct (find_address st (cod_deliveryAddressId data) (buyer_id b)) as [a|] eqn:Had;
      omonad in H;
      [|injection H as <- <-; split; [reflexivity|right; exists b; split; [reflexivity|right]];
        split; [exact Hact|left; split; [exact Had|reflexivity]]].
    destruct (cod_quantity data <=? 0) eqn:Hq; omonad in H.
    + injection H as <- <-; split; [reflexivity|right; exists b; split; [reflexivity|right]].
      split; [exact Hact|right; split; [exists a; exact Had|left]].
      split; [apply Z.leb_le; exact Hq|reflexivity].
    + destruct (cod_deliveryDate data <=? store_now st) eqn:Hd; omonad in H; [|discriminate H].
      injection H as <- <-; split; [reflexivity|right; exists b; split; [reflexivity|right]].
      split; [exact Hact|right; split; [exists a; exact Had|right]].
      apply Z.leb_gt in Hq; apply Z.leb_le in Hd; split; [exact Hq|split; [exact Hd|reflexivity]].
  - intros Hb; unfold createOrder; omonad; rewrite Hb; reflexivity.
  - intros b Hb Hs; unfold createOrder; omonad; rewrite Hb.
    replace (is_user_active (buyer_userStatus b)) with false
      by (destruct (buyer_userStatus b) eqn:E; cbn; congruence).
    reflexivity.
  - intros b Hb Hs Had; unfold createOrder; omonad; rewrite Hb, Hs; cbn [is_user_active negb].
    rewrite Had; reflexivity.
  - intros b a Hb Hs Had Hq; unfold createOrder; omonad; rewrite Hb, Hs;
      cbn [is_user_active negb].
    rewrite Had.
    replace (cod_quantity data <=? 0) with true by (symmetry; apply Z.leb_le; exact Hq).
    reflexivity.
  - intros b a Hb Hs Had Hq Hd; unfold createOrder; omonad; rewrite Hb, Hs;
      cbn [is_user_active negb].
    rewrite Had.
    replace (cod_quantity data <=? 0) with false by (symmetry; apply Z.leb_gt; exact Hq).
    replace (cod_deliveryDate data <=? store_now st) with true
      by (symmetry; apply Z.leb_le; exact Hd).
    reflexivity.
Qed.

Lemma createOrder_errors_witness :
  snd (createOrder (fun s => s) 8 (sample_order_data 5 2000) sample_store) = sample_store
  /\ createOrder (fun s => s) 7 (sample_order_data 0 2000) sample_store
     = (Err (orderError 400 INVALID_QUANTITY), sample_store).
Proof.
  split.
  - exact (proj1 (proj1 (createOrder_errors (fun s => s) 8 (sample_order_data 5 2000)
                           sample_store) (orderError 403 BUYER_NOT_ACTIVE) sample_store
                           eq_refl)).
  - destruct (find_address sample_store 3 1) as [ad|] eqn:Had; [|discriminate Had].
    apply (proj1 (proj2 (proj2 (proj2 (proj2 (createOrder_errors (fun s => s) 7
             (sample_order_data 0 2000) sample_store)))))
             (mkBuyer 1 7 UserStatus.ACTIVE) ad); [reflexivity | reflexivity | exact Had | cbn; lia].
Defined.

(** X26: a successful approveOrder took a PENDING order whose buyer exists
    and is not SUSPENDED, and a successful rejectOrder a PENDING order.  They
    rewrite only that order: ALLOCATION with approvedAt now and approvedBy
    the admin, or REJECTED with approvedBy the admin and the trimmed reason.
    Buyer, quantity, delivery date and creation date stay as they were, and
    order ids stay unique.  A failed approveOrder or rejectOrder writes
    nothing. *)
Theorem order_decision_success :
  forall trim st oid adminId,
    (forall notes r st',
       approveOrder trim oid adminId notes st = (Ok r, st') ->
       exists o b,
         find_buyer_order st oid = Some o
         /\ o.(bo_status) = OrderStatus.PENDING
         /\ find_buyer st o.(bo_buyerId) = Some b
         /\ b.(buyer_userStatus) <> UserStatus.SUSPENDED
         /\ r.(bo_id) = oid /\ r.(bo_buyerId) = o.(bo_buyerId)
         /\ r.(bo_quantity) = o.(bo_quantity)
         /\ r.(bo_deliveryDate) = o.(bo_deliveryDate)
         /\ r.(bo_createdAt) = o.(bo_createdAt)
         /\ r.(bo_status) = OrderStatus.ALLOCATION
         /\ r.(bo_approvedAt) = Some st.(store_now)
         /\ r.(bo_approvedBy) = Some adminId
         /\ st' = with_buyerOrders (update_order oid r st.(buyerOrders)) st
         /\ (order_ids_fresh st -> order_ids_fresh st'))
    /\ (forall reason r st',
       rejectOrder trim oid adminId reason st = (Ok r, st') ->
       exists o,
         find_buyer_order st oid = Some o
         /\ o.(bo_status) = OrderStatus.PENDING
         /\ r.(bo_id) = oid /\ r.(bo_buyerId) = o.(bo_buyerId)
         /\ r.(bo_quantity) = o.(bo_quantity)
         /\ r.(bo_deliveryDate) = o.(bo_deliveryDate)
         /\ r.(bo_createdAt) = o.(bo_createdAt)
         /\ r.(bo_status) = OrderStatus.REJECTED
         /\ r.(bo_approvedAt) = o.(bo_approvedAt)
         /\ r.(bo_approvedBy) = Some adminId
         /\ r.(bo_rejectionReason) = Some (trim reason)
         /\ st' = with_buyerOrders (update_order oid r st.(buyerOrders)) st
         /\ (order_ids_fresh st -> order_ids_fresh st'))
    /\ (forall notes e st',
          approveOrder trim oid adminId notes st = (Err e, st') -> st' = st)
    /\ (forall reason e st',
          rejectOrder trim oid adminId reason st = (Err e, st') -> st' = st).
Proof.
  intros trim st oid adminId; split; [|split; [|split]].
  - intros notes r st' H; unfold approveOrder in H; omonad in H.
    destruct (find_buyer_order st oid) as [o|] eqn:Ho; omonad in H; [|discriminate H].
    destruct (OrderStatus.eqb (bo_status o) OrderStatus.PENDING) eqn:Hs; cbn [negb] in H;
      omonad in H; [|discriminate H].
    destruct (find_buyer st (bo_buyerId o)) as [b|] eqn:Hb; omonad in H; [|discriminate H].
    destruct (is_user_suspended (buyer_userStatus b)) eqn:Hsu; omonad in H; [discriminate H|].
    injection H as <- <-.
    pose proof (find_some _ _ Ho) as [_ Hid]; apply Nat.eqb_eq in Hid.
    apply OrderStatus.order_status_eqb_eq in Hs.
    exists o, b; cbn [bo_id bo_buyerId bo_quantity bo_deliveryDate bo_createdAt bo_status
                      bo_approvedAt bo_approvedBy].
    split; [first [exact Ho|reflexivity]|]; split; [exact Hs|].
    split; [first [exact Hb|reflexivity]|].
    split; [intros E; rewrite E in Hsu; discriminate Hsu|].
    split; [exact Hid|]; do 8 (split; [reflexivity|]).
    apply update_order_fresh; exact Hid.
  - intros reason r st' H; unfold rejectOrder in H; omonad in H.
    destruct (find_buyer_order st oid) as [o|] eqn:Ho; omonad in H; [|discriminate H].
    destruct (OrderStatus.eqb (bo_status o) OrderStatus.PENDING) eqn:Hs; cbn [negb] in H;
      omonad in H; [|discriminate H].
    injection H as <- <-.
    pose proof (find_some _ _ Ho) as [_ Hid]; apply Nat.eqb_eq in Hid.
    apply OrderStatus.order_status_eqb_eq in Hs.
    exists o; cbn [bo_id bo_buyerId bo_quantity bo_deliveryDate bo_createdAt bo_status
                   bo_approvedAt bo_approvedBy bo_rejectionReason].
    split; [first [exact Ho|reflexivity]|]; split; [exact Hs|].
    split; [exact Hid|]; do 9 (split; [reflexivity|]).
    apply update_order_fresh; exact Hid.
  - intros notes e st' H; unfold approveOrder in H; omonad in H.
    destruct (find_buyer_order st oid) as [o|]; omonad in H;
      [|injection H as _ <-; reflexivity].
    destruct (OrderStatus.eqb (bo_status o) OrderStatus.PENDING); cbn [negb] in H;
      omonad in H; [|injection H as _ <-; reflexivity].
    destruct (find_buyer st (bo_buyerId o)) as [b|]; omonad in H;
      [|injection H as _ <-; reflexivity].
    destruct (is_user_suspended (buyer_userStatus b)); omonad in H;
      [injection H as _ <-; reflexivity | discriminate H].
  - intros reason e st' H; unfold rejectOrder in H; omonad in H.
    destruct (find_buyer_order st oid) as [o|]; omonad in H;
      [|injection H as _ <-; reflexivity].
    destruct (OrderStatus.eqb (bo_status o) OrderStatus.PENDING); cbn [negb] in H;
      omonad in H; [discriminate H | injection H as _ <-; reflexivity].
Qed.

Lemma order_decision_success_witness :
  exists r st',
    approveOrder (fun s => s) 20 0 None sample_store = (Ok r, st')
    /\ r.(bo_status) = OrderStatus.ALLOCATION /\ r.(bo_approvedBy) = Some 0%nat.
Proof.
  assert (H : exists r st', approveOrder (fun s => s) 20 0 None sample_store = (Ok r, st'))
    by (eexists; eexists; vm_compute; reflexivity).
  destruct H as (r & st' & H); exists r, st'; split; [exact H|].
  destruct (proj1 (order_decision_success (fun s => s) sample_store 20 0) None r st' H)
    as (o & b & _ & _ & _ & _ & _ & _ & _ & _ & _ & Hs & _ & Hby & _).
  split; [exact Hs | exact Hby].
Defined.

(** X27: of a PENDING order whose buyer exists, approveOrder refuses only a
    SUSPENDED buyer (BUYER_SUSPENDED, nothing written); the order of a
    buyer in any other status (BLOCKED, APPLIED, PENDING, PROBATIONARY) is
    approved. *)
Theorem approveOrder_blocks_only_suspended :
  forall trim st oid adminId notes o b,
    find_buyer_order st oid = Some o ->
    o.(bo_status) = OrderStatus.PENDING ->
    find_buyer st o.(bo_buyerId) = Some b ->
    (b.(buyer_userStatus) = UserStatus.SUSPENDED ->
       approveOrder trim oid adminId notes st = (Err (orderError 400 BUYER_SUSPENDED), st))
    /\ (b.(buyer_userStatus) <> UserStatus.SUSPENDED ->
       exists r st', approveOrder trim oid adminId notes st = (Ok r, st')).
Proof.
  intros trim st oid adminId notes o b Ho Hs Hb.
  unfold approveOrder; omonad; rewrite Ho; cbv beta; rewrite Hs; cbn [OrderStatus.eqb negb].
  rewrite Hb; cbv beta; split.
  - intros E; rewrite E; reflexivity.
  - intros E; destruct (buyer_userStatus b); try (exfalso; exact (E eq_refl));
      eexists; eexists; reflexivity.
Qed.

Lemma approveOrder_blocks_only_suspended_witness :
  exists r st', approveOrder (fun s => s) 20 0 None sample_store = (Ok r, st').
Proof.
  apply (proj2 (approveOrder_blocks_only_suspended (fun s => s) sample_store 20 0 None
                  (sample_buyer_order 20 2 500) (mkBuyer 2 8 UserStatus.BLOCKED)
                  eq_refl eq_refl eq_refl)).
  discriminate.
Defined.

(** X28: an order is decided at most once.  After a successful approveOrder
    or rejectOrder of an order, every later approveOrder or rejectOrder of it
    fails with INVALID_ORDER_STATUS and writes nothing, and getPendingOrders
    no longer lists it. *)
Theorem order_decided_once :
  forall trim st oid adminId r st',
    ((exists notes, approveOrder trim oid adminId notes st = (Ok r, st'))
     \/ (exists reason, rejectOrder trim oid adminId reason st = (Ok r, st'))) ->
    (forall adminId' notes',
       approveOrder trim oid adminId' notes' st'
       = (Err (orderError 400 INVALID_ORDER_STATUS), st'))
    /\ (forall adminId' reason',
       rejectOrder trim oid adminId' reason' st'
       = (Err (orderError 400 INVALID_ORDER_STATUS), st'))
    /\ exists L, getPendingOrders st' = (Ok L, st') /\ forall x, In x L -> x.(bo_id) <> oid.
Proof.
  intros trim st oid adminId r st' H.
  destruct (decision_shape _ _ _ _ _ _ H) as (Hex & Hid & Hst & Hst').
  assert (Hf : find_buyer_order st' oid = Some r)
    by (subst st'; apply find_update_order; [exact Hid | exact Hex]).
  assert (Hne : OrderStatus.eqb (bo_status r) OrderStatus.PENDING = false).
  { destruct (OrderStatus.eqb (bo_status r) OrderStatus.PENDING) eqn:E; [|reflexivity].
    apply OrderStatus.order_status_eqb_eq in E; contradiction. }
  split; [|split].
  - intros adminId' notes'; unfold approveOrder; omonad; rewrite Hf; cbv beta.
    rewrite Hne; reflexivity.
  - intros adminId' reason'; unfold rejectOrder; omonad; rewrite Hf; cbv beta.
    rewrite Hne; reflexivity.
  - exists (sort_asc bo_createdAt
              (filter (fun o => OrderStatus.eqb o.(bo_status) OrderStatus.PENDING)
                      st'.(buyerOrders))).
    split; [reflexivity|].
    intros x Hx Hxid.
    apply (Permutation_in _ (sort_asc_perm _ _)), filter_In in Hx as [Hin Hp].
    subst st'; unfold with_buyerOrders in Hin; cbn [buyerOrders] in Hin.
    rewrite (in_update_order _ _ _ _ Hin Hxid), Hne in Hp; discriminate Hp.
Qed.

Lemma order_decided_once_witness :
  exists r st',
    approveOrder (fun s => s) 20 0 None sample_store = (Ok r, st')
    /\ rejectOrder (fun s => s) 20 0 String.EmptyString st'
       = (Err (orderError 400 INVALID_ORDER_STATUS), st').
Proof.
  assert (H : exists r st', approveOrder (fun s => s) 20 0 None sample_store = (Ok r, st'))
    by (eexists; eexists; vm_compute; reflexivity).
  destruct H as (r & st' & H); exists r, st'; split; [exact H|].
  apply (proj1 (proj2 (order_decided_once (fun s => s) sample_store 20 0 r st'
                         (or_introl (ex_intro _ None H))))).
Defined.

(** X29: getBuyerOrders writes nothing.  For an unknown buyer it fails
    with BUYER_NOT_FOUND.  Otherwise it returns the newest of the buyer's
    orders matching the status filter, newest first: [limit] of them when a
    positive limit is given, and 50 when the limit is absent or 0 (the
    [|| 50]).  Every matching order left out was created no later than every
    one returned. *)
Theorem getBuyerOrders_result :
  forall st userId filters,
    (find_buyer_by_user st userId = None ->
       getBuyerOrders userId filters st = (Err (orderError 404 BUYER_NOT_FOUND), st))
    /\ (forall b, find_buyer_by_user st userId = Some b ->
       let status := match filters with Some f => f.(bof_status) | None => None end in
       let limit := match filters with Some f => f.(bof_limit) | None => None end in
       let Sel := filter (fun o => Nat.eqb o.(bo_buyerId) b.(buyer_id)
                                   && match status with
                                      | Some s => OrderStatus.eqb o.(bo_status) s
                                      | None => true
                                      end)
                         st.(buyerOrders) in
       exists L,
         getBuyerOrders userId filters st = (Ok L, st)
         /\ (forall n, limit = Some (S n) -> length L = Nat.min (S n) (length Sel))
         /\ (limit = None \/ limit = Some 0%nat -> length L = Nat.min 50 (length Sel))
         /\ sorted_desc bo_createdAt L
         /\ exists rest, Permutation Sel (L ++ rest)
                         /\ forall x y, In x L -> In y rest ->
                                        y.(bo_createdAt) <= x.(bo_createdAt)).
Proof.
  intros st userId filters; split.
  - intros Hb; unfold getBuyerOrders; omonad; rewrite Hb; reflexivity.
  - intros b Hb status limit Sel.
    destruct (take_latest bo_createdAt (take_limit limit) Sel) as (Hlen & Hsort & Hrest).
    exists (firstn (take_limit limit) (sort_desc bo_createdAt Sel)).
    split; [unfold getBuyerOrders; omonad; rewrite Hb; reflexivity|].
    split; [intros n Hl; rewrite Hlen; unfold take_limit; rewrite Hl; reflexivity|].
    split; [intros [Hl|Hl]; rewrite Hlen; unfold take_limit; rewrite Hl; reflexivity|].
    split; [exact Hsort | exact Hrest].
Qed.

Lemma getBuyerOrders_result_witness :
  exists L, getBuyerOrders 8 None sample_store = (Ok L, sample_store) /\ length L = 1%nat.
Proof.
  destruct (proj2 (getBuyerOrders_result sample_store 8 None)
              (mkBuyer 2 8 UserStatus.BLOCKED) eq_refl) as (L & HL & _ & Hlen & _).
  exists L; split; [exact HL|].
  rewrite (Hlen (or_introl eq_refl)); reflexivity.
Defined.

(** X30: getOrderById writes nothing and shows a buyer only their own
    orders.  For an unknown buyer it fails with BUYER_NOT_FOUND.  A returned
    order has the requested id and belongs to the buyer.  With unique order
    ids, another buyer's order is answered with ORDER_NOT_FOUND, and the
    buyer's own order with that id is returned. *)
Theorem getOrderById_result :
  forall st orderId userId,
    (find_buyer_by_user st userId = None ->
       getOrderById orderId userId st = (Err (orderError 404 BUYER_NOT_FOUND), st))
    /\ (forall b, find_buyer_by_user st userId = Some b ->
       (forall o st', getOrderById orderId userId st = (Ok o, st') ->
          st' = st /\ In o st.(buyerOrders) /\ o.(bo_id) = orderId
          /\ o.(bo_buyerId) = b.(buyer_id))
       /\ (NoDup (map bo_id st.(buyerOrders)) ->
           forall o, In o st.(buyerOrders) -> o.(bo_id) = orderId ->
             o.(bo_buyerId) <> b.(buyer_id) ->
             getOrderById orderId userId st = (Err (orderError 404 ORDER_NOT_FOUND), st))
       /\ (forall o, find_buyer_order st orderId = Some o -> o.(bo_buyerId) = b.(buyer_id) ->
             getOrderById orderId userId st = (Ok o, st))).
Proof.
  intros st orderId userId; split.
  - intros Hb; unfold getOrderById; omonad; rewrite Hb; reflexivity.
  - intros b Hb; split; [|split].
    + intros o st' H; unfold getOrderById in H; omonad in H; rewrite Hb in H; cbv beta in H.
      destruct (find (fun o => Nat.eqb o.(bo_id) orderId
                               && Nat.eqb o.(bo_buyerId) b.(buyer_id)) st.(buyerOrders))
        as [x|] eqn:Hf; omonad in H; [|discriminate H].
      injection H as <- <-.
      apply find_some in Hf as [Hin Hx]; apply andb_prop in Hx as [Hi Hbi].
      apply Nat.eqb_eq in Hi, Hbi; auto.
    + intros Hnd o Hin Hid Hob; unfold getOrderById; omonad; rewrite Hb; cbv beta.
      destruct (find (fun o => Nat.eqb o.(bo_id) orderId
                               && Nat.eqb o.(bo_buyerId) b.(buyer_id)) st.(buyerOrders))
        as [x|] eqn:Hf; [|reflexivity].
      exfalso; apply find_some in Hf as [Hx Hp]; apply andb_prop in Hp as [Hi Hbi].
      apply Nat.eqb_eq in Hi, Hbi.
      assert (x = o) as -> by (apply (nodup_same_order_id _ _ _ Hnd Hin Hx); congruence).
      contradiction.
    + intros o Ho Hob; unfold getOrderById; omonad; rewrite Hb; cbv beta.
      assert (Hf : find (fun o => Nat.eqb o.(bo_id) orderId
                                  && Nat.eqb o.(bo_buyerId) b.(buyer_id)) st.(buyerOrders)
                   = Some o).
      { apply (find_andb (fun o => Nat.eqb o.(bo_id) orderId)
                         (fun o => Nat.eqb o.(bo_buyerId) b.(buyer_id))); [exact Ho|].
        apply Nat.eqb_eq; exact Hob. }
      rewrite Hf; reflexivity.
Qed.

Lemma getOrderById_result_witness :
  getOrderById 20 7 sample_store = (Err (orderError 404 ORDER_NOT_FOUND), sample_store).
Proof.
  assert (Hnd : NoDup (map bo_id (buyerOrders sample_store))).
  { cbn; constructor; [intros [H|[]]; discriminate H|].
    constructor; [intros []|constructor]. }
  apply (proj1 (proj2 (proj2 (getOrderById_result sample_store 20 7)
                        (mkBuyer 1 7 UserStatus.ACTIVE) eq_refl))
                Hnd (sample_buyer_order 20 2 500)).
  - left; reflexivity.
  - reflexivity.
  - discriminate.
Defined.

End OrderServiceFacts.
